(** * dbCheck: batch hashing and secondary-side batch verification

    A shallow embedding of [DbCheckHasher] and [dbCheckBatchOnSecondary]
    (mongo/db/repl/dbcheck.cpp).  The hasher walks an ordered cursor and
    folds bytes into an MD5 accumulator; the verifier runs one hasher for
    a replicated batch and compares digests.  Beside them stand the
    collection acquisition with the recovery unit it changes, and
    [dbCheckOplogCommand], which applies a dbCheck oplog entry.

    Conventions of the embedding.
    - A [BSONObj] is a view over its bytes, so it is a [list byte].
    - [int64_t] counters are integers of [Z]; signed overflow is undefined
      in the source, the model is exact below it.
    - The MD5 accumulator [md5_state_t] is determined by the bytes appended
      so far, so it is kept as that byte list; [md5_finish] and the hex
      rendering are taken as one function of it.
    - Storage-engine cursors are lists in storage order with the seek and
      end-position rules written out.
    - [checkForInterruptNoAssert] and the wall clock are observations of the
      operation context, indexed by the number of cursor items consumed so
      far in the call.
    - The health log is an append-only list threaded through every call,
      and so are the [LOGV2_DEBUG] lines of the server log.
    - Fail points and the data throttle only delay a scan; they are left
      out, and so are the snapshot and conflict settings that
      [DbCheckAcquisition] swaps on the recovery unit, which the hasher
      and the verifier do not read: those are followed apart, in
      [dbCheckBatchOnSecondaryInScope].
    - A C++ exception ([uassert], [iassert], [uassertStatusOK]) is the
      [Thrown] outcome; a returned [Status] is [Returned]. *)

From Stdlib Require Import ZArith List Bool String Lia.
From Stdlib Require Import Strings.Byte.
Import ListNotations.
Local Open Scope Z_scope.

(** ** Status and error codes *)

Module ErrorCodes.
Inductive Error :=
| OK
| KeyNotFound
| NoSuchKey
| IndexNotFound
| NonConformantBSON
| InvalidBSON
| Interrupted
| ExceededTimeLimit
| NamespaceNotFound
| SnapshotUnavailable
| InternalError.

Definition eqb (a b : Error) : bool :=
  match a, b with
  | OK, OK | KeyNotFound, KeyNotFound | NoSuchKey, NoSuchKey
  | IndexNotFound, IndexNotFound | NonConformantBSON, NonConformantBSON
  | InvalidBSON, InvalidBSON | Interrupted, Interrupted
  | ExceededTimeLimit, ExceededTimeLimit
  | NamespaceNotFound, NamespaceNotFound
  | SnapshotUnavailable, SnapshotUnavailable
  | InternalError, InternalError => true
  | _, _ => false
  end.
End ErrorCodes.

Record Status := mkStatus { code : ErrorCodes.Error; reason : string }.

Definition Status_OK : Status := mkStatus ErrorCodes.OK EmptyString.

Definition isOK (s : Status) : bool := ErrorCodes.eqb (code s) ErrorCodes.OK.

(** What a call can do: return a value or throw a [DBException]. *)
Inductive Outcome (A : Type) :=
| Returned (a : A)
| Thrown (e : Status).
Arguments Returned {A} a.
Arguments Thrown {A} e.

(** ** Plain data *)

Definition BSONObj := list byte.
Definition RecordId := Z.
Definition UUID := Z.
Definition Timestamp := Z.
Definition OpTime := Z.

Record NamespaceString := mkNss {
  nssName : string;
  isChangeStreamPreImagesCollection : bool;
  isConfigImagesCollection : bool;
  isChangeCollection : bool
}.

Module DbCheckValidationModeEnum.
Inductive t :=
| dataConsistency
| dataConsistencyAndMissingIndexKeysCheck
| extraIndexKeysCheck.
End DbCheckValidationModeEnum.

Module BSONValidateModeEnum.
Inductive t := kDefault | kExtended | kFull.
End BSONValidateModeEnum.

Record SecondaryIndexCheckParameters := mkParams {
  getValidateMode : DbCheckValidationModeEnum.t;
  getSecondaryIndex : string;
  getBsonValidateMode : BSONValidateModeEnum.t
}.

(** [_secondaryIndexCheckParameters && ...getValidateMode() ==
    dataConsistencyAndMissingIndexKeysCheck], the test the hasher repeats. *)
Definition isMissingIndexKeysMode (p : option SecondaryIndexCheckParameters) : bool :=
  match p with
  | Some q =>
      match getValidateMode q with
      | DbCheckValidationModeEnum.dataConsistencyAndMissingIndexKeysCheck => true
      | _ => false
      end
  | None => false
  end.

(** ** Key strings and sorted-data cursors *)

(** A key string: the serialized key, and the RecordId the storage engine
    appends to it (absent on a search key built without one). *)
Record KeyString := mkKeyString {
  keyBytes : list byte;
  ksRecordId : option RecordId
}.

Definition getSizeWithoutRecordId (k : KeyString) : Z :=
  Z.of_nat (List.length (keyBytes k)).

(** [key_string::compare]: [memcmp] on the common length, then the shorter
    buffer first. *)
Fixpoint key_string_compare (l r : list byte) : comparison :=
  match l, r with
  | [], [] => Eq
  | [], _ :: _ => Lt
  | _ :: _, [] => Gt
  | a :: l', b :: r' =>
      match N.compare (Byte.to_N a) (Byte.to_N b) with
      | Eq => key_string_compare l' r'
      | c => c
      end
  end.

(** Comparison of whole key strings: key bytes first, then the appended
    RecordId; a key without RecordId is a strict prefix of the same key with
    one, so it sorts first. *)
Definition compareKeyString (a b : KeyString) : comparison :=
  match key_string_compare (keyBytes a) (keyBytes b) with
  | Eq =>
      match ksRecordId a, ksRecordId b with
      | None, None => Eq
      | None, Some _ => Lt
      | Some _, None => Gt
      | Some x, Some y => Z.compare x y
      end
  | c => c
  end.

Record KeyStringEntry := mkEntry {
  keyString : KeyString;
  loc : RecordId
}.

(** The index table read through a [SortedDataInterface] cursor: entries in
    key-string order.  The cursor belongs to the storage layer; its rules
    below are the ones the hasher relies on and states in its comments: a
    seek lands on the closest entry when there is no exact one, every entry
    returned carries its RecordId, and an inclusive end position keeps the
    entries whose key equals the end key. *)
Definition SortedData := list KeyStringEntry.

(** [seekForKeyString]: position on the first entry that is not before the
    search key (the closest entry when there is no exact one). *)
Fixpoint seekPosition (table : SortedData) (q : KeyString) : SortedData :=
  match table with
  | [] => []
  | e :: rest =>
      match compareKeyString (keyString e) q with
      | Lt => seekPosition rest q
      | _ => table
      end
  end.

(** [setEndPosition(key, inclusive)] as kept by the cursor. *)
Definition EndPosition := option (list byte * bool).

Definition withinEnd (endPos : EndPosition) (e : KeyStringEntry) : bool :=
  match endPos with
  | None => true
  | Some (k, inclusive) =>
      match key_string_compare (keyBytes (keyString e)) k with
      | Lt => true
      | Eq => inclusive
      | Gt => false
      end
  end.

(** The entry under the cursor, if the cursor is not exhausted and not past
    its end position. *)
Definition currentEntry (endPos : EndPosition) (pos : SortedData)
  : option KeyStringEntry :=
  match pos with
  | [] => None
  | e :: _ => if withinEnd endPos e then Some e else None
  end.

Definition seekForKeyString (table : SortedData) (endPos : EndPosition)
  (q : KeyString) : option KeyStringEntry :=
  currentEntry endPos (seekPosition table q).

(** ** Index catalog *)

Module IndexNames.
Inductive t :=
| BTREE | HASHED | GEO_2D | GEO_2DSPHERE | GEO_2DSPHERE_BUCKET
| TEXT | WILDCARD | COLUMN.

Definition eqb (a b : t) : bool :=
  match a, b with
  | BTREE, BTREE | HASHED, HASHED | GEO_2D, GEO_2D
  | GEO_2DSPHERE, GEO_2DSPHERE
  | GEO_2DSPHERE_BUCKET, GEO_2DSPHERE_BUCKET
  | TEXT, TEXT | WILDCARD, WILDCARD | COLUMN, COLUMN => true
  | _, _ => false
  end.
End IndexNames.

Record IndexDescriptor := mkDescriptor {
  indexName : string;
  isIdIndex : bool;
  isPartial : bool;
  getAccessMethodName : IndexNames.t;
  unique : bool;
  keyPattern : BSONObj;
  infoObj : BSONObj
}.

Record IndexCatalogEntry := mkIndexEntry {
  descriptor : IndexDescriptor;
  (** [getFilterExpression()->matchesBSON(obj)] *)
  matchesBSON : BSONObj -> bool;
  (** [accessMethod()->asSortedData()->getKeys(..., obj, ..., rid)]: the
      expected key strings of a document, in [KeyStringSet] order, with the
      given RecordId appended when there is one. *)
  getKeys : BSONObj -> option RecordId -> list KeyString;
  (** the table behind [getSortedDataInterface()] *)
  sortedData : SortedData
}.

(** ** The replicated batch descriptor *)

Record DbCheckOplogBatch := mkOplogBatch {
  getNss : NamespaceString;
  getMd5 : string;
  getReadTimestamp : option Timestamp;
  getSecondaryIndexCheckParameters : option SecondaryIndexCheckParameters;
  getBatchId : option UUID;
  getLogBatchToHealthLog : option bool
}.

(** ** Health log *)

Module SeverityEnum.
Inductive t := Info | Warning | Error.
End SeverityEnum.

Module ScopeEnum.
Inductive t := Cluster | Database | Collection | Document | Index.
End ScopeEnum.

Module OplogEntriesEnum.
Inductive t := Batch | Collection | Start | Stop.
End OplogEntriesEnum.

(** Objects assembled with [BSON(...)] and [BSONObjBuilder], kept as field
    trees.  String renderings of a status and of a RecordId, and the
    generated [toBSON] of the check parameters and of the batch descriptor,
    are kept symbolic. *)
#[local] Unset Elimination Schemes.
Inductive BSONValue :=
| BBool (b : bool)
| BInt (n : Z)
| BString (s : string)
| BStatus (e : Status)
| BRecordId (r : RecordId)
| BSubObj (o : BSONObj)
| BParameters (p : SecondaryIndexCheckParameters)
| BOplogBatch (entry : DbCheckOplogBatch)
| BObject (fields : list (string * BSONValue))
| BArray (elems : list BSONValue).
#[local] Set Elimination Schemes.

(** [HealthLogEntry]; its timestamp, [Date_t::now()], is left out. *)
Record HealthLogEntry := mkHealthLogEntry {
  getLogNss : option NamespaceString;
  getCollectionUUID : option UUID;
  getSeverity : SeverityEnum.t;
  getScope : ScopeEnum.t;
  getMsg : string;
  getOperation : string;
  getData : option BSONValue
}.

(** The sink behind [HealthLogInterface::get(opCtx)->log]. *)
Definition HealthLog := list HealthLogEntry.

Definition renderForHealthLog (op : OplogEntriesEnum.t) : string :=
  match op with
  | OplogEntriesEnum.Batch => "dbCheckBatch"
  | OplogEntriesEnum.Collection => "dbCheckCollection"
  | OplogEntriesEnum.Start => "dbCheckStart"
  | OplogEntriesEnum.Stop => "dbCheckStop"
  end.

(** [BSONObj::addField] on a built object. *)
Definition addField (o : BSONValue) (name : string) (v : BSONValue) : BSONValue :=
  match o with
  | BObject fields => BObject (fields ++ [(name, v)])
  | other => BObject [(EmptyString, other); (name, v)]
  end.

Definition dbCheckHealthLogEntry
  (parameters : option SecondaryIndexCheckParameters)
  (nss : option NamespaceString) (collectionUUID : option UUID)
  (severity : SeverityEnum.t) (msg : string) (scope : ScopeEnum.t)
  (operation : OplogEntriesEnum.t) (data : option BSONValue) : HealthLogEntry :=
  mkHealthLogEntry nss collectionUUID severity scope msg
    (renderForHealthLog operation)
    (match data, parameters with
     | Some d, Some p => Some (addField d "dbCheckParameters" (BParameters p))
     | Some d, None => Some d
     | None, Some p => Some (BObject [("dbCheckParameters"%string, BParameters p)])
     | None, None => None
     end).

Definition errorData (err : Status) (context : BSONValue) : BSONValue :=
  BObject [("success"%string, BBool false); ("error"%string, BStatus err);
           ("context"%string, context)].

Definition dbCheckErrorHealthLogEntry
  (parameters : option SecondaryIndexCheckParameters)
  (nss : option NamespaceString) (collectionUUID : option UUID)
  (msg : string) (scope : ScopeEnum.t) (operation : OplogEntriesEnum.t)
  (err : Status) (context : BSONValue) : HealthLogEntry :=
  dbCheckHealthLogEntry parameters nss collectionUUID SeverityEnum.Error msg
    scope operation (Some (errorData err context)).

(** The scope argument is accepted and ignored: the entry is always
    [ScopeEnum::Cluster]. *)
Definition dbCheckWarningHealthLogEntry
  (parameters : option SecondaryIndexCheckParameters)
  (nss : NamespaceString) (collectionUUID : option UUID)
  (msg : string) (scope : ScopeEnum.t) (operation : OplogEntriesEnum.t)
  (err : Status) (context : BSONValue) : HealthLogEntry :=
  dbCheckHealthLogEntry parameters (Some nss) collectionUUID
    SeverityEnum.Warning msg ScopeEnum.Cluster operation
    (Some (errorData err context)).

(** ** Operation context, plan executor, collection *)

Definition Date_t := Z.

Record OperationContext := mkOpCtx {
  (** result of the i-th [checkForInterruptNoAssert] of the call *)
  checkForInterruptNoAssert : nat -> Status;
  (** [Date_t::now()] read after the i-th item *)
  now : nat -> Date_t;
  (** [repl::dbCheckMaxConsecutiveIdenticalIndexKeysPerSnapshot.load()] *)
  dbCheckMaxConsecutiveIdenticalIndexKeysPerSnapshot : Z;
  (** [gDbCheckHealthLogEveryNBatches.load()] *)
  gDbCheckHealthLogEveryNBatches : Z;
  kDebugBuild : bool
}.

Module PlanExecutor.
Inductive ExecState := ADVANCED | IS_EOF.
End PlanExecutor.

(** One call of [_exec->getNext] that does not report [IS_EOF]: it advances
    to an (_id key, RecordId) pair, or throws on a corrupt index entry. *)
Inductive GetNextResult :=
| Advanced (objId : BSONObj) (rid : RecordId)
| GetNextThrows (e : Status).

(** The executor as the answers it will give; [IS_EOF] once they run out. *)
Definition PlanExecutorScript := list GetNextResult.

Definition RecordData := list byte.

Record CollectionOptions := mkCollectionOptions { capped : bool }.

Record Collection := mkCollection {
  ns : NamespaceString;
  uuid : UUID;
  isClustered : bool;
  getCollectionOptions : CollectionOptions;
  findIdIndex : option IndexDescriptor;
  (** [getIndexIterator(opCtx, InclusionPolicy::kReady)], in order *)
  readyIndexes : list IndexCatalogEntry;
  (** [getRecordStore()->findRecord] *)
  findRecord : RecordId -> option RecordData;
  (** [getIndexCatalog()->findIndexByName] with the entry [getEntry] gives *)
  findIndexByName : string -> option IndexCatalogEntry;
  (** [InternalPlanner::indexScan] over the _id index between two keys,
      [kIncludeEndKeyOnly], forward *)
  indexScan : IndexDescriptor -> BSONObj -> BSONObj -> PlanExecutorScript;
  (** [InternalPlanner::collectionScan] of a clustered collection between
      the clustered keys of two documents, [kIncludeEndRecordOnly]; a
      document [record_id_helpers::keyForDoc] rejects throws *)
  collectionScan : BSONObj -> BSONObj -> Outcome PlanExecutorScript
}.

(** What the collection acquisition of [DbCheckAcquisition] finds for a
    namespace at a read timestamp: an exception, no collection, or the
    collection as of that snapshot. *)
Definition Catalog :=
  NamespaceString -> option Timestamp -> Outcome (option Collection).

(** A default-constructed [BSONObj]: the empty document. *)
Definition emptyBSONObj : BSONObj := [x05; x00; x00; x00; x00].

(** ** The hasher *)

Record DbCheckHasher := mkHasher {
  _state : list byte;
  _maxKey : BSONObj;
  _indexName : option string;
  _maxCount : Z;
  _maxBytes : Z;
  _secondaryIndexCheckParameters : option SecondaryIndexCheckParameters;
  _exec : PlanExecutorScript;
  _indexes : list IndexCatalogEntry;
  _missingIndexKeys : list BSONValue;
  _lastKeySeen : BSONObj;
  _countDocsSeen : Z;
  _countKeysSeen : Z;
  _bytesSeen : Z;
  _nConsecutiveIdenticalIndexKeysSeenAtEnd : Z
}.

Definition md5_append (h : DbCheckHasher) (bytes : list byte) : DbCheckHasher :=
  mkHasher (_state h ++ bytes) (_maxKey h) (_indexName h) (_maxCount h)
    (_maxBytes h) (_secondaryIndexCheckParameters h) (_exec h) (_indexes h)
    (_missingIndexKeys h) (_lastKeySeen h) (_countDocsSeen h)
    (_countKeysSeen h) (_bytesSeen h)
    (_nConsecutiveIdenticalIndexKeysSeenAtEnd h).

Definition set_missingIndexKeys (h : DbCheckHasher) (v : list BSONValue)
  : DbCheckHasher :=
  mkHasher (_state h) (_maxKey h) (_indexName h) (_maxCount h)
    (_maxBytes h) (_secondaryIndexCheckParameters h) (_exec h) (_indexes h)
    v (_lastKeySeen h) (_countDocsSeen h)
    (_countKeysSeen h) (_bytesSeen h)
    (_nConsecutiveIdenticalIndexKeysSeenAtEnd h).

Definition set_lastKeySeen (h : DbCheckHasher) (v : BSONObj) : DbCheckHasher :=
  mkHasher (_state h) (_maxKey h) (_indexName h) (_maxCount h)
    (_maxBytes h) (_secondaryIndexCheckParameters h) (_exec h) (_indexes h)
    (_missingIndexKeys h) v (_countDocsSeen h)
    (_countKeysSeen h) (_bytesSeen h)
    (_nConsecutiveIdenticalIndexKeysSeenAtEnd h).

Definition set_countDocsSeen (h : DbCheckHasher) (v : Z) : DbCheckHasher :=
  mkHasher (_state h) (_maxKey h) (_indexName h) (_maxCount h)
    (_maxBytes h) (_secondaryIndexCheckParameters h) (_exec h) (_indexes h)
    (_missingIndexKeys h) (_lastKeySeen h) v
    (_countKeysSeen h) (_bytesSeen h)
    (_nConsecutiveIdenticalIndexKeysSeenAtEnd h).

Definition set_countKeysSeen (h : DbCheckHasher) (v : Z) : DbCheckHasher :=
  mkHasher (_state h) (_maxKey h) (_indexName h) (_maxCount h)
    (_maxBytes h) (_secondaryIndexCheckParameters h) (_exec h) (_indexes h)
    (_missingIndexKeys h) (_lastKeySeen h) (_countDocsSeen h)
    v (_bytesSeen h)
    (_nConsecutiveIdenticalIndexKeysSeenAtEnd h).

Definition set_bytesSeen (h : DbCheckHasher) (v : Z) : DbCheckHasher :=
  mkHasher (_state h) (_maxKey h) (_indexName h) (_maxCount h)
    (_maxBytes h) (_secondaryIndexCheckParameters h) (_exec h) (_indexes h)
    (_missingIndexKeys h) (_lastKeySeen h) (_countDocsSeen h)
    (_countKeysSeen h) v
    (_nConsecutiveIdenticalIndexKeysSeenAtEnd h).

Definition set_nConsecutive (h : DbCheckHasher) (v : Z) : DbCheckHasher :=
  mkHasher (_state h) (_maxKey h) (_indexName h) (_maxCount h)
    (_maxBytes h) (_secondaryIndexCheckParameters h) (_exec h) (_indexes h)
    (_missingIndexKeys h) (_lastKeySeen h) (_countDocsSeen h)
    (_countKeysSeen h) (_bytesSeen h) v.

Definition set_exec (h : DbCheckHasher) (v : PlanExecutorScript) : DbCheckHasher :=
  mkHasher (_state h) (_maxKey h) (_indexName h) (_maxCount h)
    (_maxBytes h) (_secondaryIndexCheckParameters h) v (_indexes h)
    (_missingIndexKeys h) (_lastKeySeen h) (_countDocsSeen h)
    (_countKeysSeen h) (_bytesSeen h)
    (_nConsecutiveIdenticalIndexKeysSeenAtEnd h).

Definition set_maxCount (h : DbCheckHasher) (v : Z) : DbCheckHasher :=
  mkHasher (_state h) (_maxKey h) (_indexName h) v
    (_maxBytes h) (_secondaryIndexCheckParameters h) (_exec h) (_indexes h)
    (_missingIndexKeys h) (_lastKeySeen h) (_countDocsSeen h)
    (_countKeysSeen h) (_bytesSeen h)
    (_nConsecutiveIdenticalIndexKeysSeenAtEnd h).

Definition set_maxBytes (h : DbCheckHasher) (v : Z) : DbCheckHasher :=
  mkHasher (_state h) (_maxKey h) (_indexName h) (_maxCount h)
    v (_secondaryIndexCheckParameters h) (_exec h) (_indexes h)
    (_missingIndexKeys h) (_lastKeySeen h) (_countDocsSeen h)
    (_countKeysSeen h) (_bytesSeen h)
    (_nConsecutiveIdenticalIndexKeysSeenAtEnd h).

Definition bytesSeen (h : DbCheckHasher) : Z := _bytesSeen h.
Definition docsSeen (h : DbCheckHasher) : Z := _countDocsSeen h.
Definition keysSeen (h : DbCheckHasher) : Z := _countKeysSeen h.
Definition countSeen (h : DbCheckHasher) : Z := docsSeen h + keysSeen h.
Definition lastKeySeen (h : DbCheckHasher) : BSONObj := _lastKeySeen h.
Definition nConsecutiveIdenticalIndexKeysSeenAtEnd (h : DbCheckHasher) : Z :=
  _nConsecutiveIdenticalIndexKeysSeenAtEnd h.


(** ** Server log and the state outside the hasher *)

(** A [LOGV2_DEBUG] line: its id and debug level. *)
Record LogLine := mkLogLine { logId : Z; debugLevel : Z }.

Record World := mkWorld {
  healthLog : HealthLog;
  serverLog : list LogLine;
  (** the file-level [unsigned int batchesProcessed] *)
  batchesProcessed : Z
}.

Definition logHealth (w : World) (e : HealthLogEntry) : World :=
  mkWorld (healthLog w ++ [e]) (serverLog w) (batchesProcessed w).

Definition logDebug (w : World) (l : LogLine) : World :=
  mkWorld (healthLog w) (serverLog w ++ [l]) (batchesProcessed w).

(** [batchesProcessed++] on an [unsigned int]. *)
Definition incrBatchesProcessed (w : World) : World :=
  mkWorld (healthLog w) (serverLog w) ((batchesProcessed w + 1) mod 2 ^ 32).

(** ** Exceptions over the world

    Code that logs and may throw is a function of the world that returns
    an outcome and the world it leaves. *)

Definition M (A : Type) : Type := World -> Outcome A * World.

Definition ret {A : Type} (a : A) : M A := fun w => (Returned a, w).

Definition throw {A : Type} (e : Status) : M A := fun w => (Thrown e, w).

Definition bind {A B : Type} (c : M A) (k : A -> M B) : M B :=
  fun w =>
    match c w with
    | (Returned a, w') => k a w'
    | (Thrown e, w') => (Thrown e, w')
    end.

(** [try { c } catch (const DBException& e) { handler e }] *)
Definition tryCatch {A : Type} (c : M A) (handler : Status -> M A) : M A :=
  fun w =>
    match c w with
    | (Returned a, w') => (Returned a, w')
    | (Thrown e, w') => handler e w'
    end.

Declare Scope dbcheck_scope.
Delimit Scope dbcheck_scope with dbcheck.
Notation "x <- c ;; k" := (bind c (fun x => k))
  (at level 61, c at next level, right associativity) : dbcheck_scope.
Notation "c ;;; k" := (bind c (fun _ => k))
  (at level 61, right associativity) : dbcheck_scope.

Definition uassertStatusOK (s : Status) : M unit :=
  if isOK s then ret tt else throw s.

Definition liftOutcome {A : Type} (o : Outcome A) : M A := fun w => (o, w).

(** [HealthLogInterface::get(opCtx)->log(entry)] *)
Definition log (e : HealthLogEntry) : M unit :=
  fun w => (Returned tt, logHealth w e).

(** A call on the hasher, which returns a status or throws and leaves the
    hasher changed. *)
Definition callHasher (r : Outcome Status * DbCheckHasher * World)
  : Outcome (Status * DbCheckHasher) * World :=
  match r with
  | (Returned s, h, w) => (Returned (s, h), w)
  | (Thrown e, _, w) => (Thrown e, w)
  end.

(** ** Construction of a hasher *)

Definition newDbCheckHasher (collection : Collection) (start end_ : BSONObj)
  (secondaryIndexCheckParameters : option SecondaryIndexCheckParameters)
  (indexName : option string) (maxCount maxBytes : Z) : Outcome DbCheckHasher :=
  let indexes :=
    if isMissingIndexKeysMode secondaryIndexCheckParameters
    then filter (fun entry => negb (isIdIndex (descriptor entry)))
           (readyIndexes collection)
    else [] in
  let make (exec : PlanExecutorScript) :=
    mkHasher [] end_ indexName maxCount maxBytes secondaryIndexCheckParameters
      exec indexes [] emptyBSONObj 0 0 0 0 in
  match indexName with
  | Some _ => Returned (make [])
  | None =>
      if negb (isClustered collection) then
        match findIdIndex collection with
        | None => Thrown (mkStatus ErrorCodes.IndexNotFound "dbCheck needs _id index")
        | Some desc => Returned (make (indexScan collection desc start end_))
        end
      else
        match collectionScan collection start end_ with
        | Thrown e => Thrown e
        | Returned exec => Returned (make exec)
        end
  end.

(** ** The batch entry of the health log *)

Definition expectedFound (expected found : string) : bool * BSONValue :=
  (String.eqb expected found,
   BObject [("expected"%string, BString expected); ("found"%string, BString found)]).

Definition optionalField {A : Type} (name : string) (f : A -> BSONValue)
  (v : option A) : list (string * BSONValue) :=
  match v with
  | Some x => [(name, f x)]
  | None => []
  end.

Definition batchSeverity (hashesMatch : bool) (nss : NamespaceString)
  (options : option CollectionOptions) : SeverityEnum.t :=
  if hashesMatch then SeverityEnum.Info
  else if isChangeStreamPreImagesCollection nss
          || isConfigImagesCollection nss
          || isChangeCollection nss
          || match options with Some o => capped o | None => false end
  then SeverityEnum.Warning
  else SeverityEnum.Error.

Definition dbCheckBatchEntry
  (parameters : option SecondaryIndexCheckParameters) (batchId : option UUID)
  (nss : NamespaceString) (collectionUUID : option UUID) (count bytes : Z)
  (expectedHash foundHash : string) (batchStart batchEnd : BSONObj)
  (nConsecutiveIdenticalIndexKeysSeenAtEnd : Z)
  (readTimestamp : option Timestamp) (optime : OpTime)
  (options : option CollectionOptions) (indexSpec : option BSONObj)
  : HealthLogEntry :=
  let hashes := expectedFound expectedHash foundHash in
  let builder :=
    optionalField "batchId" BInt batchId
    ++ [("success"%string, BBool true);
        ("count"%string, BInt count);
        ("bytes"%string, BInt bytes);
        ("md5"%string, snd hashes);
        ("batchStart"%string, BSubObj batchStart);
        ("batchEnd"%string, BSubObj batchEnd);
        ("nConsecutiveIdenticalIndexKeysSeenAtEnd"%string,
          BInt nConsecutiveIdenticalIndexKeysSeenAtEnd)]
    ++ optionalField "readTimestamp" BInt readTimestamp
    ++ optionalField "indexSpec" BSubObj indexSpec
    ++ [("optime"%string, BInt optime)] in
  let hashesMatch := fst hashes in
  let severity := batchSeverity hashesMatch nss options in
  let msg :=
    ("dbCheck batch " ++ (if hashesMatch then "consistent" else "inconsistent"))%string in
  dbCheckHealthLogEntry parameters (Some nss) collectionUUID severity msg
    ScopeEnum.Cluster OplogEntriesEnum.Batch (Some (BObject builder)).

(** How one pass through a loop body ends. *)
Inductive LoopControl :=
| Continue (h : DbCheckHasher) (w : World)
| Break (h : DbCheckHasher) (w : World)
| Return (s : Status) (h : DbCheckHasher) (w : World)
| Throw (e : Status) (h : DbCheckHasher) (w : World).

(** How a loop is left; [ExitEOF] is the cursor running out. *)
Inductive LoopExit :=
| ExitEOF (h : DbCheckHasher) (w : World)
| ExitBreak (h : DbCheckHasher) (w : World)
| ExitReturn (s : Status) (h : DbCheckHasher) (w : World)
| ExitThrow (e : Status) (h : DbCheckHasher) (w : World).

(** [BSON("_id" << 1)] *)
Definition idKeyPattern : BSONObj :=
  [x0e; x00; x00; x00; x10; x5f; x69; x64; x00; x01; x00; x00; x00; x00].

(** [renderForHealthLog] of a validation mode. *)
Definition renderForHealthLog_validateMode
  (validateMode : DbCheckValidationModeEnum.t) : string :=
  match validateMode with
  | DbCheckValidationModeEnum.dataConsistency => "dataConsistency"
  | DbCheckValidationModeEnum.dataConsistencyAndMissingIndexKeysCheck =>
      "dataConsistencyAndMissingIndexKeysCheck"
  | DbCheckValidationModeEnum.extraIndexKeysCheck => "extraIndexKeysCheck"
  end.

(** ** The recovery unit and the collection acquisition *)

Module PrepareConflictBehavior.
Inductive t := kEnforce | kIgnoreConflicts | kIgnoreConflictsAllowWrites.
End PrepareConflictBehavior.

Module DataCorruptionDetectionMode.
Inductive t := kThrow | kLogAndContinue.
End DataCorruptionDetectionMode.

(** What [DbCheckAcquisition] reads and writes of the [RecoveryUnit] of the
    operation: the two settings it swaps, and whether a storage snapshot is
    open.  The read source, which the member [readSourceScope] sets and
    restores by itself, is left out. *)
Record RecoveryUnit := mkRecoveryUnit {
  getPrepareConflictBehavior : PrepareConflictBehavior.t;
  getDataCorruptionDetectionMode : DataCorruptionDetectionMode.t;
  snapshotOpen : bool
}.

Definition setPrepareConflictBehavior (ru : RecoveryUnit)
  (b : PrepareConflictBehavior.t) : RecoveryUnit :=
  mkRecoveryUnit b (getDataCorruptionDetectionMode ru) (snapshotOpen ru).

Definition setDataCorruptionDetectionMode (ru : RecoveryUnit)
  (m : DataCorruptionDetectionMode.t) : RecoveryUnit :=
  mkRecoveryUnit (getPrepareConflictBehavior ru) m (snapshotOpen ru).

Definition abandonSnapshot (ru : RecoveryUnit) : RecoveryUnit :=
  mkRecoveryUnit (getPrepareConflictBehavior ru)
    (getDataCorruptionDetectionMode ru) false.

(** The collection acquisition opens a storage snapshot. *)
Definition openSnapshot (ru : RecoveryUnit) : RecoveryUnit :=
  mkRecoveryUnit (getPrepareConflictBehavior ru)
    (getDataCorruptionDetectionMode ru) true.

(** Both swaps return the previous setting and leave the new one. *)
Definition swapPrepareConflictBehavior (ru : RecoveryUnit)
  (prepareConflictBehavior : PrepareConflictBehavior.t)
  : PrepareConflictBehavior.t * RecoveryUnit :=
  let prevBehavior := getPrepareConflictBehavior ru in
  (prevBehavior, setPrepareConflictBehavior ru prepareConflictBehavior).

Definition swapDataCorruptionMode (ru : RecoveryUnit)
  (dataCorruptionMode : DataCorruptionDetectionMode.t)
  : DataCorruptionDetectionMode.t * RecoveryUnit :=
  let prevMode := getDataCorruptionDetectionMode ru in
  (prevMode, setDataCorruptionDetectionMode ru dataCorruptionMode).

Record DbCheckAcquisition := mkAcquisition {
  prevPrepareConflictBehavior : PrepareConflictBehavior.t;
  prevDataCorruptionMode : DataCorruptionDetectionMode.t;
  (** the collection found, if it exists *)
  coll : option Collection
}.

(** The constructor.  Its member initializers run in the order written: the
    two swaps, then the collection acquisition.  When the acquisition throws
    no object has been constructed, so no destructor will run, and the
    recovery unit is left as the swaps set it. *)
Definition newDbCheckAcquisition (catalog : Catalog) (nss : NamespaceString)
  (readTimestamp : option Timestamp)
  (prepareConflictBehavior : PrepareConflictBehavior.t) (ru : RecoveryUnit)
  : Outcome DbCheckAcquisition * RecoveryUnit :=
  let '(prevBehavior, ru1) :=
    swapPrepareConflictBehavior ru prepareConflictBehavior in
  let '(prevMode, ru2) :=
    swapDataCorruptionMode ru1 DataCorruptionDetectionMode.kLogAndContinue in
  match catalog nss readTimestamp with
  | Thrown e => (Thrown e, ru2)
  | Returned found =>
      (Returned (mkAcquisition prevBehavior prevMode found), openSnapshot ru2)
  end.

(** The destructor. *)
Definition deleteDbCheckAcquisition (acquisition : DbCheckAcquisition)
  (ru : RecoveryUnit) : RecoveryUnit :=
  let ru1 := abandonSnapshot ru in
  let ru2 := snd (swapDataCorruptionMode ru1 (prevDataCorruptionMode acquisition)) in
  snd (swapPrepareConflictBehavior ru2 (prevPrepareConflictBehavior acquisition)).

(** ** The oplog command *)

Module OplogApplication.
Inductive Mode :=
| kInitialSync
| kUnstableRecovering
| kStableRecovering
| kApplyOpsCmd
| kSecondary.
End OplogApplication.

(** A parsed [DbCheckOplogStartStop]. *)
Module DbCheckOplogStartStop.
Record t := mk {
  getNss : option NamespaceString;
  getUuid : option UUID;
  getSecondaryIndexCheckParameters : option SecondaryIndexCheckParameters
}.
End DbCheckOplogStartStop.

(** A [BSONKey], the legacy form of a batch bound: the bytes of its element. *)
Definition BSONKey := list byte.

(** The range fields of a parsed [DbCheckOplogBatch], which the verifier is
    passed decoded and does not read from the descriptor. *)
Record BatchRange := mkBatchRange {
  getBatchStart : option BSONObj;
  getBatchEnd : option BSONObj;
  getMinKey : BSONKey;
  getMaxKey : BSONKey
}.

(** What [dbCheckOplogCommand] reads of a [repl::OplogEntry]: its optime and
    what the generated parsers make of its command object, each of which
    throws on an object it rejects. *)
Record OplogEntry := mkOplogEntry {
  getOpTime : OpTime;
  (** [OplogEntries_parse] of the field [type] *)
  parseType : Outcome OplogEntriesEnum.t;
  (** [DbCheckOplogBatch::parse] *)
  parseBatch : Outcome (DbCheckOplogBatch * BatchRange);
  (** [DbCheckOplogStartStop::parse] *)
  parseStartStop : Outcome DbCheckOplogStartStop.t
}.

(** What the command reads of the node besides the operation context of the
    hasher: [opCtx->writesAreReplicated()] and the server parameter
    [repl::skipApplyingDbCheckBatchOnSecondary]. *)
Record ApplierSettings := mkApplierSettings {
  writesAreReplicated : bool;
  skipApplyingDbCheckBatchOnSecondary : bool
}.

(** A default-constructed [OpTime]. *)
Definition nullOpTime : OpTime := 0.

Definition oplogApplicationModeName (mode : OplogApplication.Mode) : string :=
  match mode with
  | OplogApplication.kInitialSync => "initial sync"
  | OplogApplication.kUnstableRecovering => "unstable recovering"
  | OplogApplication.kStableRecovering => "stable recovering"
  | OplogApplication.kApplyOpsCmd => "applyOps"
  | OplogApplication.kSecondary => "secondary"
  end.

(** [mode != OplogApplication::Mode::kSecondary] *)
Definition skipDbCheck (mode : OplogApplication.Mode) : bool :=
  match mode with
  | OplogApplication.kSecondary => false
  | _ => true
  end.

(** [UUID::toBSON]: the object with the one field [uuid]. *)
Definition UUID_toBSON (u : UUID) : BSONValue :=
  BObject [("uuid"%string, BInt u)].

(** The message of the warning for a batch that is not applied: the
    parameter, when it is on, replaces the application mode. *)
Definition skippedBatchMessage (settings : ApplierSettings)
  (mode : OplogApplication.Mode) : string :=
  if skipApplyingDbCheckBatchOnSecondary settings
  then "skipping applying dbcheck batch because the 'skipApplyingDbCheckBatchOnSecondary' parameter is on"%string
  else ("cannot execute dbcheck due to ongoing " ++ oplogApplicationModeName mode)%string.

(** The warning for a batch that is not applied.  The object [toBSON]
    makes of a batch id is never empty, so the field [batchId] is there
    exactly when the entry has a batch id. *)
Definition skippedBatchEntry (settings : ApplierSettings)
  (mode : OplogApplication.Mode) (type : OplogEntriesEnum.t)
  (invocation : DbCheckOplogBatch) (batchStart batchEnd : BSONObj)
  : HealthLogEntry :=
  let data :=
    [("batchStart"%string, BSubObj batchStart);
     ("batchEnd"%string, BSubObj batchEnd)]
    ++ optionalField "batchId" UUID_toBSON (getBatchId invocation) in
  dbCheckHealthLogEntry (getSecondaryIndexCheckParameters invocation)
    (Some (getNss invocation)) None SeverityEnum.Warning
    (skippedBatchMessage settings mode) ScopeEnum.Cluster type
    (Some (BObject data)).

(** The entry for a start or a stop. *)
Definition startStopEntry (mode : OplogApplication.Mode)
  (type : OplogEntriesEnum.t) (invocation : DbCheckOplogStartStop.t)
  : HealthLogEntry :=
  dbCheckHealthLogEntry
    (DbCheckOplogStartStop.getSecondaryIndexCheckParameters invocation)
    (DbCheckOplogStartStop.getNss invocation)
    (DbCheckOplogStartStop.getUuid invocation)
    (if skipDbCheck mode then SeverityEnum.Warning else SeverityEnum.Info)
    (if skipDbCheck mode
     then ("cannot execute dbcheck due to ongoing "
             ++ oplogApplicationModeName mode)%string
     else EmptyString)
    ScopeEnum.Cluster type None.

(** ** Example data

    Stand-ins for the BSON and key-string libraries, adequate for the small
    documents below, and a collection with an index, used to run the model
    on concrete inputs. *)

(** The little-endian signed 32-bit length at the head of a document. *)
Definition exObjsize (o : BSONObj) : Z :=
  match o with
  | b0 :: b1 :: b2 :: b3 :: _ =>
      let u :=
        Z.of_N (Byte.to_N b0) + 256 * Z.of_N (Byte.to_N b1)
        + 65536 * Z.of_N (Byte.to_N b2) + 16777216 * Z.of_N (Byte.to_N b3) in
      if u >=? 2 ^ 31 then u - 2 ^ 32 else u
  | _ => 0
  end.

(** Whether the first element of a document is named [_id]. *)
Definition exHasField (o : BSONObj) (name : string) : bool :=
  match o with
  | _ :: _ :: _ :: _ :: _ :: x5f :: x69 :: x64 :: x00 :: _ => String.eqb name "_id"
  | _ => false
  end.

(** A length check in every mode, and in the stricter modes the rejection of
    the deprecated element type 0x0e as non-conformant. *)
Definition exValidateBSON (data : list byte) (mode : BSONValidateModeEnum.t)
  : Status :=
  if negb (Z.of_nat (List.length data) =? exObjsize data)
  then mkStatus ErrorCodes.InvalidBSON "incorrect BSON length"
  else
    match mode, data with
    | BSONValidateModeEnum.kDefault, _ => Status_OK
    | _, _ :: _ :: _ :: _ :: x0e :: _ =>
        mkStatus ErrorCodes.NonConformantBSON "deprecated BSON type"
    | _, _ => Status_OK
    end.

Definition exRehydrateKey (pattern key : BSONObj) : BSONObj := key.
Definition exKeyStringToBson (k : KeyString) : BSONObj := keyBytes k.
Definition exBsonToKeyString (o : BSONObj) : list byte := o.
Definition exRecordIdToString (r : RecordId) : string := "RecordId"%string.
Definition exDigest (bytes : list byte) : string := string_of_list_byte bytes.

(** The document [{_id: n}] with a 32-bit integer [n] below 256. *)
Definition exDoc (n : byte) : RecordData :=
  [x0e; x00; x00; x00; x10; x5f; x69; x64; x00; n; x00; x00; x00; x00].

(** The document [{a: 1}], which has no _id field. *)
Definition exNoIdDoc : RecordData :=
  [x0c; x00; x00; x00; x10; x61; x00; x01; x00; x00; x00; x00].

(** A record cut short: its length prefix says 14 bytes, it has 10. *)
Definition exTruncatedDoc : RecordData :=
  [x0e; x00; x00; x00; x10; x5f; x69; x64; x00; x05].

Definition exNss : NamespaceString := mkNss "test.coll" false false false.

(** The index table of the examples, with the keys 1, 3, 3, 3, 4. *)
Definition exEntry (key : byte) (rid : RecordId) : KeyStringEntry :=
  mkEntry (mkKeyString [key] (Some rid)) rid.

Definition exTable : SortedData :=
  [exEntry x01 10; exEntry x03 11; exEntry x03 12; exEntry x03 13; exEntry x04 14].

Definition exIndexDescriptor : IndexDescriptor :=
  mkDescriptor "a_1" false false IndexNames.BTREE false [] [].

(** The expected key of a document is its tenth byte, which for [exDoc n]
    is the value [n]. *)
Definition exGetKeys (obj : BSONObj) (rid : option RecordId) : list KeyString :=
  match nth_error obj 9 with
  | Some b => [mkKeyString [b] rid]
  | None => []
  end.

Definition exIndex : IndexCatalogEntry :=
  mkIndexEntry exIndexDescriptor (fun _ => true) exGetKeys exTable.

(** A text index, which the validator does not support. *)
Definition exTextIndex : IndexCatalogEntry :=
  mkIndexEntry (mkDescriptor "t_text" false false IndexNames.TEXT false [] [])
    (fun _ => true) exGetKeys [].

Definition exIdDescriptor : IndexDescriptor :=
  mkDescriptor "_id_" true false IndexNames.BTREE true idKeyPattern [].

(** Records 10 and 14 are present and well formed, 11 is missing, 12 has no
    _id field, 13 is cut short, and 15 is a document with no index entry. *)
Definition exFindRecord (rid : RecordId) : option RecordData :=
  if rid =? 10 then Some (exDoc x01)
  else if rid =? 12 then Some exNoIdDoc
  else if rid =? 13 then Some exTruncatedDoc
  else if rid =? 14 then Some (exDoc x04)
  else if rid =? 15 then Some (exDoc x07)
  else None.

Definition exCollection : Collection :=
  mkCollection exNss 42 false (mkCollectionOptions false) (Some exIdDescriptor)
    [mkIndexEntry exIdDescriptor (fun _ => true) exGetKeys []; exIndex; exTextIndex]
    exFindRecord
    (fun name => if String.eqb name "a_1" then Some exIndex else None)
    (fun _ _ _ => [])
    (fun _ _ => Returned []).

(** An operation context that is never interrupted, whose clock stands at
    0, with a ceiling of 1000 identical keys. *)
Definition exOpCtx : OperationContext :=
  mkOpCtx (fun _ => Status_OK) (fun _ => 0) 1000 1 false.

(** The same, with the clock past any deadline below 100 from the third
    item on. *)
Definition exLateOpCtx : OperationContext :=
  mkOpCtx (fun _ => Status_OK) (fun i => if (2 <=? i)%nat then 100 else 0)
    1000 1 false.

Definition exWorld : World := mkWorld [] [] 0.

(** A world in which the logs already hold entries. *)
Definition exUsedWorld : World :=
  mkWorld
    [dbCheckHealthLogEntry None (Some exNss) None SeverityEnum.Info
       "dbCheck failed" ScopeEnum.Cluster OplogEntriesEnum.Batch None]
    [mkLogLine 7844905 3] 17.

Definition exMissingKeysParameters : SecondaryIndexCheckParameters :=
  mkParams DbCheckValidationModeEnum.dataConsistencyAndMissingIndexKeysCheck
    EmptyString BSONValidateModeEnum.kDefault.

(** A fresh hasher over a given cursor script. *)
Definition exHasher (parameters : option SecondaryIndexCheckParameters)
  (maxCount maxBytes : Z) (exec : PlanExecutorScript) : DbCheckHasher :=
  mkHasher [] [xff] None maxCount maxBytes parameters exec
    (if isMissingIndexKeysMode parameters then [exIndex; exTextIndex] else [])
    [] emptyBSONObj 0 0 0 0.

(** A fresh hasher for the index, with a count ceiling of 3. *)
Definition exIndexHasher : DbCheckHasher :=
  mkHasher [] [x03] (Some "a_1"%string) 3 1000 None [] [] [] emptyBSONObj 0 0 0 0.

Definition exBatch : DbCheckOplogBatch :=
  mkOplogBatch exNss "d41d8cd98f00b204e9800998ecf8427e" (Some 7) None None None.

(** A catalog whose acquisition throws. *)
Definition exFailingCatalog : Catalog :=
  fun _ _ => Thrown (mkStatus ErrorCodes.SnapshotUnavailable "snapshot too old").

(** A catalog in which the collection no longer exists, and one that finds
    the collection of the examples. *)
Definition exGoneCatalog : Catalog := fun _ _ => Returned None.

Definition exCatalog : Catalog := fun _ _ => Returned (Some exCollection).

(** A batch of the extra-index-keys mode, for an index the collection does
    not have. *)
Definition exExtraKeysParameters : SecondaryIndexCheckParameters :=
  mkParams DbCheckValidationModeEnum.extraIndexKeysCheck "b_1"
    BSONValidateModeEnum.kDefault.

Definition exExtraKeysBatch : DbCheckOplogBatch :=
  mkOplogBatch exNss "d41d8cd98f00b204e9800998ecf8427e" (Some 7)
    (Some exExtraKeysParameters) None None.

(** The table of an index on a multikey field in which the document 20,
    whose expected keys are 3 and 5, has kept its key 5 only. *)
Definition exMultikeyTable : SortedData := [exEntry x01 10; exEntry x05 20].

(** A hasher of the missing-index-keys mode that holds a miss left from an
    earlier document. *)
Definition exUsedHasher : DbCheckHasher :=
  set_missingIndexKeys (exHasher (Some exMissingKeysParameters) 10 1000 [])
    [BString "left from the document before"].

Definition exRecoveryUnit : RecoveryUnit :=
  mkRecoveryUnit PrepareConflictBehavior.kEnforce
    DataCorruptionDetectionMode.kThrow false.

(** [BSON("_id" << key.elem())] for a key given as the type byte of its
    element followed by its value, of 4 bytes. *)
Definition exBSON_id (key : BSONKey) : BSONObj :=
  match key with
  | [] => emptyBSONObj
  | type :: value =>
      [x0e; x00; x00; x00; type; x5f; x69; x64; x00] ++ value ++ [x00]
  end.

(** A batch entry that gives its start as a legacy key and its end as a
    document. *)
Definition exRange : BatchRange :=
  mkBatchRange None (Some (exDoc x04))
    [x10; x01; x00; x00; x00] [x10; x04; x00; x00; x00].

Definition exStartStop : DbCheckOplogStartStop.t :=
  DbCheckOplogStartStop.mk (Some exNss) (Some 42) None.

Definition exOplogEntry (type : OplogEntriesEnum.t) : OplogEntry :=
  mkOplogEntry 5 (Returned type) (Returned (exBatch, exRange))
    (Returned exStartStop).

Definition exSettings : ApplierSettings := mkApplierSettings false false.

Section DbCheck.

(** The BSON and key-string libraries the hasher calls. *)
Variable validateBSON : list byte -> BSONValidateModeEnum.t -> Status.
Variable hasField : BSONObj -> string -> bool.
Variable objsize : BSONObj -> Z.
Variable rehydrateKey : BSONObj -> BSONObj -> BSONObj.
(** [_keyStringToBsonSafeHelper] *)
Variable keyStringToBson : KeyString -> BSONObj.
(** [key_string::Builder::resetToKey] followed by [getValueCopy] *)
Variable bsonToKeyString : BSONObj -> list byte.
Variable RecordId_toString : RecordId -> string.
(** [md5_finish] followed by [digestToString] *)
Variable md5_finish : list byte -> string.
(** The default arguments of the hasher's declaration, which the verifier
    relies on: the ceilings of the constructor and the deadline of
    [hashForCollectionCheck]. *)
Variable defaultMaxCount : Z.
Variable defaultMaxBytes : Z.
Variable defaultDeadline : Date_t.

(** *** hashForExtraIndexKeysCheck *)

(** One pass of the [for] body over the entry under the cursor. *)
Definition extraIndexKeysBody (opCtx : OperationContext)
  (batchEndWithoutRecordId : list byte) (i : nat)
  (h : DbCheckHasher) (w : World) (currEntryWithRecordId : KeyStringEntry)
  : LoopControl :=
  let st := checkForInterruptNoAssert opCtx i in
  if negb (isOK st) then Throw st h w
  else
    let currKeyStringWithRecordId := keyString currEntryWithRecordId in
    let keyStringBson := keyStringToBson currKeyStringWithRecordId in
    let w1 := logDebug w (mkLogLine 7844907 3) in
    let sizeWithoutRecordId := getSizeWithoutRecordId currKeyStringWithRecordId in
    let h1 := set_bytesSeen h (_bytesSeen h + sizeWithoutRecordId) in
    let h2 := set_countKeysSeen h1 (_countKeysSeen h1 + 1) in
    let h3 := md5_append h2 (keyBytes currKeyStringWithRecordId) in
    let h4 := set_lastKeySeen h3 keyStringBson in
    match key_string_compare (keyBytes currKeyStringWithRecordId)
                             batchEndWithoutRecordId with
    | Eq =>
        let h5 := set_nConsecutive h4
                    (_nConsecutiveIdenticalIndexKeysSeenAtEnd h4 + 1) in
        if _nConsecutiveIdenticalIndexKeysSeenAtEnd h5
           >=? dbCheckMaxConsecutiveIdenticalIndexKeysPerSnapshot opCtx
        then Break h5 w1
        else Continue h5 w1
    | _ => Continue h4 w1
    end.

(** The [for] loop: [pos] is the cursor position, [currentEntry] the loop
    condition, the tail of [pos] is [nextKeyString]. *)
Fixpoint extraIndexKeysLoop (opCtx : OperationContext)
  (batchEndWithoutRecordId : list byte) (endPos : EndPosition) (i : nat)
  (h : DbCheckHasher) (w : World) (pos : SortedData) : LoopExit :=
  match pos with
  | [] => ExitEOF h w
  | e :: rest =>
      if withinEnd endPos e then
        match extraIndexKeysBody opCtx batchEndWithoutRecordId i h w e with
        | Continue h' w' =>
            extraIndexKeysLoop opCtx batchEndWithoutRecordId endPos (S i) h' w' rest
        | Break h' w' => ExitBreak h' w'
        | Return s h' w' => ExitReturn s h' w'
        | Throw s h' w' => ExitThrow s h' w'
        end
      else ExitEOF h w
  end.

(** After the loop. *)
Definition extraIndexKeysFinish (h : DbCheckHasher) (w : World)
  : Outcome Status * DbCheckHasher * World :=
  let h' := if _countKeysSeen h =? 0 then set_lastKeySeen h (_maxKey h) else h in
  (Returned Status_OK, h', logDebug w (mkLogLine 7844904 3)).

(** [iam] is the access method of the index named [_indexName], which the
    caller has already found in the catalog. *)
Definition hashForExtraIndexKeysCheck (opCtx : OperationContext)
  (iam : IndexCatalogEntry) (batchStartBson batchEndBson : BSONObj)
  (h : DbCheckHasher) (w : World)
  : Outcome Status * DbCheckHasher * World :=
  let batchStartWithoutRecordId := mkKeyString (bsonToKeyString batchStartBson) None in
  let batchEndWithoutRecordId := bsonToKeyString batchEndBson in
  let endPos : EndPosition := Some (bsonToKeyString batchEndBson, true) in
  let w0 := logDebug w (mkLogLine 8065400 3) in
  let h0 := set_nConsecutive h 0 in
  match extraIndexKeysLoop opCtx batchEndWithoutRecordId endPos 0 h0 w0
          (seekPosition (sortedData iam) batchStartWithoutRecordId) with
  | ExitEOF h' w' => extraIndexKeysFinish h' w'
  | ExitBreak h' w' => extraIndexKeysFinish h' w'
  | ExitReturn s h' w' => (Returned s, h', w')
  | ExitThrow e h' w' => (Thrown e, h', w')
  end.

(** *** validateMissingKeys *)

Definition missingKeyReport (d : IndexDescriptor) (key : KeyString)
  (currentRecordId : RecordId) : BSONValue :=
  BObject
    [("indexName"%string, BString (indexName d));
     ("keyString"%string,
       BSubObj (rehydrateKey (keyPattern d) (keyStringToBson key)));
     ("expectedRecordId"%string, BRecordId currentRecordId);
     ("indexSpec"%string, BSubObj (infoObj d))].

(** The probe of one expected key: no entry under the cursor, or one that
    belongs to another record. *)
Definition keyIsMissing (table : SortedData) (key : KeyString)
  (currentRecordId : RecordId) : bool :=
  match seekForKeyString table None key with
  | None => true
  | Some ksEntry => negb (loc ksEntry =? currentRecordId)
  end.

(** The inner [for] over the expected keys of one index. *)
Fixpoint probeKeys (entry : IndexCatalogEntry) (currentRecordId : RecordId)
  (h : DbCheckHasher) (keyStrings : list KeyString) : DbCheckHasher :=
  match keyStrings with
  | [] => h
  | key :: rest =>
      let h1 := set_countKeysSeen h (_countKeysSeen h + 1) in
      let h2 :=
        if keyIsMissing (sortedData entry) key currentRecordId
        then set_missingIndexKeys h1
               (_missingIndexKeys h1
                  ++ [missingKeyReport (descriptor entry) key currentRecordId])
        else h1 in
      probeKeys entry currentRecordId h2 rest
  end.

(** Whether the outer loop goes past an index without probing it. *)
Definition skipsPartial (entry : IndexCatalogEntry) (currentObj : BSONObj) : bool :=
  isPartial (descriptor entry) && negb (matchesBSON entry currentObj).

Definition skipsUnsupported (entry : IndexCatalogEntry) : bool :=
  negb (IndexNames.eqb (getAccessMethodName (descriptor entry)) IndexNames.BTREE)
  && negb (IndexNames.eqb (getAccessMethodName (descriptor entry)) IndexNames.HASHED).

(** The outer [for] over [_indexes]. *)
Fixpoint validateMissingKeysLoop (currentObj : BSONObj)
  (currentRecordId : RecordId) (h : DbCheckHasher) (w : World)
  (indexes : list IndexCatalogEntry) : DbCheckHasher * World :=
  match indexes with
  | [] => (h, w)
  | entry :: rest =>
      if skipsPartial entry currentObj then
        validateMissingKeysLoop currentObj currentRecordId h w rest
      else if skipsUnsupported entry then
        validateMissingKeysLoop currentObj currentRecordId h
          (logDebug w (mkLogLine 8033900 3)) rest
      else
        let isUnique := unique (descriptor entry) in
        let keyStrings :=
          getKeys entry currentObj
            (if isUnique then None else Some currentRecordId) in
        validateMissingKeysLoop currentObj currentRecordId
          (probeKeys entry currentRecordId h keyStrings) w rest
  end.

Definition validateMissingKeys (currentObj : BSONObj)
  (currentRecordId : RecordId) (h : DbCheckHasher) (w : World)
  : Status * DbCheckHasher * World :=
  let '(h', w') :=
    validateMissingKeysLoop currentObj currentRecordId h w (_indexes h) in
  if (0 <? Z.of_nat (List.length (_missingIndexKeys h')))
  then (mkStatus ErrorCodes.NoSuchKey "Document has missing index keys", h', w')
  else (Status_OK, h', w').

(** *** hashForCollectionCheck *)

Definition _canHashForCollectionCheck (h : DbCheckHasher) (obj : BSONObj) : bool :=
  if countSeen h =? 0 then true
  else if _bytesSeen h + objsize obj >? _maxBytes h then false
  else if countSeen h + 1 >? _maxCount h then false
  else true.


Definition itemContext (currentRecordId : RecordId) (rehydratedObjId : BSONObj)
  : list (string * BSONValue) :=
  [("recordID"%string, BRecordId currentRecordId);
   ("objId"%string, BSubObj rehydratedObjId)].

(** The entry logged when [findRecord] fails. *)
Definition missingRecordEntry (h : DbCheckHasher) (collPtr : Collection)
  (currentRecordId : RecordId) (rehydratedObjId : BSONObj) : HealthLogEntry :=
  dbCheckErrorHealthLogEntry (_secondaryIndexCheckParameters h)
    (Some (ns collPtr)) (Some (uuid collPtr))
    "Error fetching record from record id"
    ScopeEnum.Document OplogEntriesEnum.Batch
    (mkStatus ErrorCodes.KeyNotFound "Error fetching record from record id")
    (BObject (itemContext currentRecordId rehydratedObjId)).

(** The entry logged when [validateBSON] fails with [status]. *)
Definition malformedEntry (h : DbCheckHasher) (collPtr : Collection)
  (status : Status) (currentRecordId : RecordId) (rehydratedObjId : BSONObj)
  : HealthLogEntry :=
  if negb (ErrorCodes.eqb (code status) ErrorCodes.NonConformantBSON) then
    dbCheckErrorHealthLogEntry (_secondaryIndexCheckParameters h)
      (Some (ns collPtr)) (Some (uuid collPtr))
      "Document is not well-formed BSON"
      ScopeEnum.Document OplogEntriesEnum.Batch status
      (BObject (itemContext currentRecordId rehydratedObjId))
  else
    dbCheckWarningHealthLogEntry (_secondaryIndexCheckParameters h)
      (ns collPtr) (Some (uuid collPtr))
      "Document is not well-formed BSON"
      ScopeEnum.Document OplogEntriesEnum.Batch status
      (BObject (itemContext currentRecordId rehydratedObjId)).

(** The first mode-dependent block: validate the raw record bytes. *)
Definition validateRecord (h : DbCheckHasher) (w : World) (collPtr : Collection)
  (record : RecordData) (currentRecordId : RecordId)
  (rehydratedObjId : BSONObj) : World :=
  match _secondaryIndexCheckParameters h with
  | Some p =>
      if isMissingIndexKeysMode (Some p) then
        let status := validateBSON record (getBsonValidateMode p) in
        if negb (isOK status)
        then logHealth w
               (malformedEntry h collPtr status currentRecordId rehydratedObjId)
        else w
      else w
  | None => w
  end.

(** The entry logged when [validateMissingKeys] reports misses. *)
Definition missingKeysEntry (h : DbCheckHasher) (collPtr : Collection)
  (status : Status) (currentRecordId : RecordId) (rehydratedObjId : BSONObj)
  : HealthLogEntry :=
  dbCheckErrorHealthLogEntry (_secondaryIndexCheckParameters h)
    (Some (ns collPtr)) (Some (uuid collPtr))
    "Document has missing index keys"
    ScopeEnum.Document OplogEntriesEnum.Batch status
    (BObject (itemContext currentRecordId rehydratedObjId
                ++ [("missingIndexKeys"%string, BArray (_missingIndexKeys h))])).

(** The second mode-dependent block: the missing index keys check. *)
Definition checkMissingKeys (h : DbCheckHasher) (w : World)
  (collPtr : Collection) (currentObj : BSONObj) (currentRecordId : RecordId)
  (rehydratedObjId : BSONObj) : DbCheckHasher * World :=
  if isMissingIndexKeysMode (_secondaryIndexCheckParameters h) then
    let h0 := set_missingIndexKeys h [] in
    let '(status, h1, w1) := validateMissingKeys currentObj currentRecordId h0 w in
    if negb (isOK status)
    then (h1, logHealth w1
                (missingKeysEntry h1 collPtr status currentRecordId rehydratedObjId))
    else (h1, w1)
  else (h, w).

(** One pass of the [while] body, for the pair [getNext] produced. *)
Definition collectionCheckBody (opCtx : OperationContext)
  (collPtr : Collection) (deadline : Date_t) (i : nat)
  (h : DbCheckHasher) (w : World)
  (currentObjId : BSONObj) (currentRecordId : RecordId) : LoopControl :=
  let st := checkForInterruptNoAssert opCtx i in
  if negb (isOK st) then Throw st h w
  else
    let rehydratedObjId := rehydrateKey idKeyPattern currentObjId in
    match findRecord collPtr currentRecordId with
    | None =>
        Continue h
          (logHealth w
             (missingRecordEntry h collPtr currentRecordId rehydratedObjId))
    | Some record =>
        let w1 := validateRecord h w collPtr record currentRecordId rehydratedObjId in
        let currentObj : BSONObj := record in
        if negb (hasField currentObj "_id") then
          Return
            (mkStatus ErrorCodes.NoSuchKey
               ("Document with record ID "
                  ++ RecordId_toString currentRecordId ++ " missing _id"))
            h w1
        else if negb (_canHashForCollectionCheck h currentObj) then
          Return Status_OK h w1
        else
          let '(h2, w2) :=
            checkMissingKeys h w1 collPtr currentObj currentRecordId
              rehydratedObjId in
          let h3 := set_lastKeySeen h2 rehydratedObjId in
          let h4 := set_countDocsSeen h3 (_countDocsSeen h3 + 1) in
          let h5 := set_bytesSeen h4 (_bytesSeen h4 + objsize currentObj) in
          let h6 := md5_append h5 record in
          if now opCtx i >? deadline then Break h6 w2 else Continue h6 w2
    end.

(** The [while] loop over the answers of [_exec->getNext]; the executor
    left in the hasher is what has not been consumed. *)
Fixpoint collectionCheckLoop (opCtx : OperationContext)
  (collPtr : Collection) (deadline : Date_t) (i : nat)
  (h : DbCheckHasher) (w : World) (exec : PlanExecutorScript) : LoopExit :=
  match exec with
  | [] => ExitEOF (set_exec h []) w
  | GetNextThrows e :: rest => ExitThrow e (set_exec h rest) w
  | Advanced currentObjId currentRecordId :: rest =>
      match collectionCheckBody opCtx collPtr deadline i (set_exec h rest) w
              currentObjId currentRecordId with
      | Continue h' w' => collectionCheckLoop opCtx collPtr deadline (S i) h' w' rest
      | Break h' w' => ExitBreak h' w'
      | Return s h' w' => ExitReturn s h' w'
      | Throw e h' w' => ExitThrow e h' w'
      end
  end.

Definition hashForCollectionCheck (opCtx : OperationContext)
  (collPtr : Collection) (deadline : Date_t)
  (h : DbCheckHasher) (w : World)
  : Outcome Status * DbCheckHasher * World :=
  match collectionCheckLoop opCtx collPtr deadline 0 h w (_exec h) with
  | ExitEOF h' w' => (Returned Status_OK, set_lastKeySeen h' (_maxKey h'), w')
  | ExitBreak h' w' => (Returned Status_OK, h', w')
  | ExitReturn s h' w' => (Returned s, h', w')
  | ExitThrow e h' w' => (Thrown e, h', w')
  end.

Definition total (h : DbCheckHasher) : string := md5_finish (_state h).

(** *** dbCheckBatchOnSecondary *)

Local Open Scope dbcheck_scope.

Definition collectionGoneEntry (entry : DbCheckOplogBatch) : HealthLogEntry :=
  dbCheckHealthLogEntry (getSecondaryIndexCheckParameters entry)
    (Some (getNss entry)) None SeverityEnum.Info "dbCheck failed"
    ScopeEnum.Cluster OplogEntriesEnum.Batch
    (Some (BObject [("success"%string, BBool false);
                    ("info"%string,
                      BString "Collection under dbCheck no longer exists")])).

Definition indexNotFoundEntry (entry : DbCheckOplogBatch) (indexName : string)
  : HealthLogEntry :=
  dbCheckHealthLogEntry (getSecondaryIndexCheckParameters entry)
    (Some (getNss entry)) None SeverityEnum.Error "dbCheck failed"
    ScopeEnum.Index OplogEntriesEnum.Batch
    (Some (BObject [("success"%string, BBool false);
                    ("info"%string,
                      BString ("cannot find index " ++ indexName ++ " for ns "
                                 ++ nssName (getNss entry)))])).

(** What the catch block logs for the exception it caught. *)
Definition caughtEntry (entry : DbCheckOplogBatch) (exception : Status)
  : HealthLogEntry :=
  dbCheckErrorHealthLogEntry (getSecondaryIndexCheckParameters entry)
    (Some (getNss entry)) None "replication consistency check"
    ScopeEnum.Cluster OplogEntriesEnum.Batch exception (BOplogBatch entry).

(** The mode switch: build the hasher and run it.  [None] is one of the
    early [return Status::OK()]; otherwise the hasher and the index
    descriptor the log entry is rehydrated with. *)
Definition selectModeAndHash (opCtx : OperationContext)
  (entry : DbCheckOplogBatch) (collection : Collection)
  (batchStart batchEnd : BSONObj)
  : M (option (DbCheckHasher * option IndexDescriptor)) :=
  let secondaryIndexCheckParameters := getSecondaryIndexCheckParameters entry in
  let newHasher indexName :=
    liftOutcome
      (newDbCheckHasher collection batchStart batchEnd
         (getSecondaryIndexCheckParameters entry) indexName
         defaultMaxCount defaultMaxBytes) in
  match secondaryIndexCheckParameters with
  | Some p =>
      match getValidateMode p with
      | DbCheckValidationModeEnum.extraIndexKeysCheck =>
          let indexName := getSecondaryIndex p in
          hasher <- newHasher (Some indexName) ;;
          match findIndexByName collection indexName with
          | None =>
              log (indexNotFoundEntry entry indexName) ;;;
              ret None
          | Some iam =>
              r <- (fun w =>
                      callHasher
                        (hashForExtraIndexKeysCheck opCtx iam batchStart
                           batchEnd hasher w)) ;;
              uassertStatusOK (fst r) ;;;
              ret (Some (snd r, Some (descriptor iam)))
          end
      | _ =>
          hasher <- newHasher None ;;
          r <- (fun w =>
                  callHasher
                    (hashForCollectionCheck opCtx collection defaultDeadline
                       hasher w)) ;;
          uassertStatusOK (fst r) ;;;
          ret (Some (snd r, findIdIndex collection))
      end
  | None =>
      hasher <- newHasher None ;;
      r <- (fun w =>
              callHasher
                (hashForCollectionCheck opCtx collection defaultDeadline
                   hasher w)) ;;
      let status := fst r in
      if negb (isOK status) && ErrorCodes.eqb (code status) ErrorCodes.KeyNotFound
      then
        log (dbCheckErrorHealthLogEntry secondaryIndexCheckParameters
               (Some (getNss entry)) (Some (uuid collection))
               "Error fetching record from record id"
               ScopeEnum.Index OplogEntriesEnum.Batch status
               (BSubObj emptyBSONObj)) ;;;
        ret None
      else
        uassertStatusOK status ;;;
        ret (Some (snd r, findIdIndex collection))
  end.

Definition isExtraIndexKeysCheck (p : option SecondaryIndexCheckParameters) : bool :=
  match p with
  | Some q =>
      match getValidateMode q with
      | DbCheckValidationModeEnum.extraIndexKeysCheck => true
      | _ => false
      end
  | None => false
  end.

(** The entry for the batch that was hashed. *)
Definition batchResultEntry (optime : OpTime) (entry : DbCheckOplogBatch)
  (collection : Collection) (batchStart : BSONObj) (hasher : DbCheckHasher)
  (indexDescriptor : option IndexDescriptor) : HealthLogEntry :=
  let expected := getMd5 entry in
  let found := total hasher in
  let finalBatchEnd := lastKeySeen hasher in
  let batchStart' :=
    match indexDescriptor with
    | Some d => rehydrateKey (keyPattern d) batchStart
    | None => batchStart
    end in
  let finalBatchEnd' :=
    match indexDescriptor with
    | Some d => rehydrateKey (keyPattern d) finalBatchEnd
    | None => finalBatchEnd
    end in
  let logIndexSpec :=
    isExtraIndexKeysCheck (getSecondaryIndexCheckParameters entry) in
  dbCheckBatchEntry (getSecondaryIndexCheckParameters entry)
    (getBatchId entry) (getNss entry) (Some (uuid collection))
    (countSeen hasher) (bytesSeen hasher) expected found
    batchStart' finalBatchEnd'
    (nConsecutiveIdenticalIndexKeysSeenAtEnd hasher)
    (getReadTimestamp entry) optime
    (Some (getCollectionOptions collection))
    (if logIndexSpec then option_map infoObj indexDescriptor else None).

(** Compare, count the batch, and log it when the policy says so. *)
Definition compareAndLog (opCtx : OperationContext) (optime : OpTime)
  (entry : DbCheckOplogBatch) (collection : Collection)
  (batchStart : BSONObj) (hasher : DbCheckHasher)
  (indexDescriptor : option IndexDescriptor) : M unit :=
  fun w =>
    let w1 := logDebug w (mkLogLine 7844905 3) in
    let logEntry :=
      batchResultEntry optime entry collection batchStart hasher indexDescriptor in
    let w2 := incrBatchesProcessed w1 in
    let shouldLog :=
      match getLogBatchToHealthLog entry with
      | Some v => v
      | None => batchesProcessed w2 mod gDbCheckHealthLogEveryNBatches opCtx =? 0
      end in
    let notInfo :=
      match getSeverity logEntry with
      | SeverityEnum.Info => false
      | _ => true
      end in
    if kDebugBuild opCtx || notInfo || shouldLog
    then (Returned tt, logHealth w2 logEntry)
    else (Returned tt, w2).

(** The block under [try]. *)
Definition dbCheckBatchOnSecondaryBody (catalog : Catalog)
  (opCtx : OperationContext) (optime : OpTime) (entry : DbCheckOplogBatch)
  (batchStart batchEnd : BSONObj) : M Status :=
  acquisition <- liftOutcome (catalog (getNss entry) (getReadTimestamp entry)) ;;
  match acquisition with
  | None =>
      log (collectionGoneEntry entry) ;;;
      ret Status_OK
  | Some collection =>
      hashed <- selectModeAndHash opCtx entry collection batchStart batchEnd ;;
      match hashed with
      | None => ret Status_OK
      | Some (hasher, indexDescriptor) =>
          compareAndLog opCtx optime entry collection batchStart hasher
            indexDescriptor ;;;
          ret Status_OK
      end
  end.

Definition dbCheckBatchOnSecondary (catalog : Catalog)
  (opCtx : OperationContext) (optime : OpTime) (entry : DbCheckOplogBatch)
  (batchStart batchEnd : BSONObj) : M Status :=
  tryCatch
    (dbCheckBatchOnSecondaryBody catalog opCtx optime entry batchStart batchEnd)
    (fun exception =>
       log (caughtEntry entry exception) ;;;
       ret Status_OK).

(** *** What a scan of an index range consumes *)

(** The entries a cursor yields from a position on: those before the first
    one past the end position. *)
Fixpoint entriesWithinEnd (endPos : EndPosition) (pos : SortedData) : SortedData :=
  match pos with
  | [] => []
  | e :: rest => if withinEnd endPos e then e :: entriesWithinEnd endPos rest else []
  end.

(** The entries between a seek to [startKey] and the inclusive end position
    [endKey]. *)
Definition scannedRange (table : SortedData) (startKey endKey : list byte)
  : SortedData :=
  entriesWithinEnd (Some (endKey, true))
    (seekPosition table (mkKeyString startKey None)).

(** The prefix of a range that is consumed when the scan stops at the entry
    that brings the number of keys equal to [endKey] from [n] to [ceiling]. *)
Fixpoint untilCeiling (endKey : list byte) (ceiling n : Z) (range : SortedData)
  : SortedData :=
  match range with
  | [] => []
  | e :: rest =>
      match key_string_compare (keyBytes (keyString e)) endKey with
      | Eq =>
          if n + 1 >=? ceiling then [e]
          else e :: untilCeiling endKey ceiling (n + 1) rest
      | _ => e :: untilCeiling endKey ceiling n rest
      end
  end.

(** What hashing one index entry does to the hasher. *)
Definition absorbEntry (endKey : list byte) (h : DbCheckHasher)
  (e : KeyStringEntry) : DbCheckHasher :=
  let h1 := set_bytesSeen h (_bytesSeen h + getSizeWithoutRecordId (keyString e)) in
  let h2 := set_countKeysSeen h1 (_countKeysSeen h1 + 1) in
  let h3 := md5_append h2 (keyBytes (keyString e)) in
  let h4 := set_lastKeySeen h3 (keyStringToBson (keyString e)) in
  match key_string_compare (keyBytes (keyString e)) endKey with
  | Eq => set_nConsecutive h4 (_nConsecutiveIdenticalIndexKeysSeenAtEnd h4 + 1)
  | _ => h4
  end.

Definition entryBytes (e : KeyStringEntry) : list byte := keyBytes (keyString e).

Definition entrySize (e : KeyStringEntry) : Z := getSizeWithoutRecordId (keyString e).

Definition sumZ (l : list Z) : Z := fold_right Z.add 0 l.

(** The number of entries of a list whose key equals [endKey]. *)
Definition countEqual (endKey : list byte) (l : SortedData) : nat :=
  List.length
    (filter (fun e =>
               match key_string_compare (entryBytes e) endKey with
               | Eq => true
               | _ => false
               end) l).

(** *** What a scan of a collection range does to the hasher *)

(** The expected keys of a document in an index that is checked. *)
Definition expectedKeys (entry : IndexCatalogEntry) (currentObj : BSONObj)
  (currentRecordId : RecordId) : list KeyString :=
  getKeys entry currentObj
    (if unique (descriptor entry) then None else Some currentRecordId).

(** The indexes [validateMissingKeys] probes for a document. *)
Definition checkedIndexes (currentObj : BSONObj)
  (indexes : list IndexCatalogEntry) : list IndexCatalogEntry :=
  filter (fun entry =>
            negb (skipsPartial entry currentObj) && negb (skipsUnsupported entry))
    indexes.

(** The report entries of one index: one for each expected key whose probe
    finds no entry of the document. *)
Definition missingReportsOf (currentObj : BSONObj) (currentRecordId : RecordId)
  (entry : IndexCatalogEntry) : list BSONValue :=
  map (fun key => missingKeyReport (descriptor entry) key currentRecordId)
    (filter (fun key => keyIsMissing (sortedData entry) key currentRecordId)
       (expectedKeys entry currentObj currentRecordId)).

Definition missingReports (currentObj : BSONObj) (currentRecordId : RecordId)
  (indexes : list IndexCatalogEntry) : list BSONValue :=
  flat_map (missingReportsOf currentObj currentRecordId)
    (checkedIndexes currentObj indexes).

(** The number of probes made for a document. *)
Definition probeCount (currentObj : BSONObj) (currentRecordId : RecordId)
  (indexes : list IndexCatalogEntry) : nat :=
  List.length
    (flat_map (fun entry => expectedKeys entry currentObj currentRecordId)
       (checkedIndexes currentObj indexes)).

(** The indexes skipped as unsupported, each of which leaves a debug line. *)
Definition unsupportedIndexes (currentObj : BSONObj)
  (indexes : list IndexCatalogEntry) : list IndexCatalogEntry :=
  filter (fun entry =>
            negb (skipsPartial entry currentObj) && skipsUnsupported entry)
    indexes.

(** The hasher after the missing index keys check of one document. *)
Definition probedHasher (currentObj : BSONObj) (currentRecordId : RecordId)
  (h : DbCheckHasher) : DbCheckHasher :=
  set_missingIndexKeys
    (set_countKeysSeen h
       (_countKeysSeen h
        + Z.of_nat (probeCount currentObj currentRecordId (_indexes h))))
    (missingReports currentObj currentRecordId (_indexes h)).

(** What the loop body does with one item once the interruption check has
    passed, the deadline test left aside. *)
Inductive ItemEffect :=
| Skipped
| Refused (s : Status)
| Hashed (h' : DbCheckHasher).

Definition missingIdStatus (currentRecordId : RecordId) : Status :=
  mkStatus ErrorCodes.NoSuchKey
    ("Document with record ID "
       ++ RecordId_toString currentRecordId ++ " missing _id").

Definition itemEffect (collPtr : Collection) (h : DbCheckHasher)
  (currentObjId : BSONObj) (currentRecordId : RecordId) : ItemEffect :=
  match findRecord collPtr currentRecordId with
  | None => Skipped
  | Some record =>
      if negb (hasField record "_id") then Refused (missingIdStatus currentRecordId)
      else if negb (_canHashForCollectionCheck h record)
      then Refused Status_OK
      else
        let h2 :=
          if isMissingIndexKeysMode (_secondaryIndexCheckParameters h)
          then probedHasher record currentRecordId h
          else h in
        let h3 := set_lastKeySeen h2 (rehydrateKey idKeyPattern currentObjId) in
        let h4 := set_countDocsSeen h3 (_countDocsSeen h3 + 1) in
        let h5 := set_bytesSeen h4 (_bytesSeen h4 + objsize record) in
        Hashed (md5_append h5 record)
  end.

(** How a scan that is neither interrupted nor stopped by its deadline ends. *)
Inductive ScanEnd :=
| EndEOF
| EndRefused (s : Status)
| EndThrown (e : Status).

Fixpoint referenceScan (collPtr : Collection) (h : DbCheckHasher)
  (exec : PlanExecutorScript) : ScanEnd * DbCheckHasher :=
  match exec with
  | [] => (EndEOF, set_exec h [])
  | GetNextThrows e :: rest => (EndThrown e, set_exec h rest)
  | Advanced currentObjId currentRecordId :: rest =>
      match itemEffect collPtr (set_exec h rest) currentObjId currentRecordId with
      | Skipped => referenceScan collPtr (set_exec h rest) rest
      | Refused s => (EndRefused s, set_exec h rest)
      | Hashed h' => referenceScan collPtr h' rest
      end
  end.

(** The records behind the items of a cursor, in cursor order, those with no
    record left out. *)
Definition fetchedRecords (collPtr : Collection) (exec : PlanExecutorScript)
  : list RecordData :=
  flat_map (fun g =>
              match g with
              | Advanced _ rid =>
                  match findRecord collPtr rid with
                  | Some record => [record]
                  | None => []
                  end
              | GetNextThrows _ => []
              end) exec.

(** A run was not stopped by its deadline before the end of the cursor. *)
Definition notCutByDeadline (opCtx : OperationContext) (deadline : Date_t)
  (h' : DbCheckHasher) : Prop :=
  (forall j, now opCtx j <= deadline) \/ _exec h' = [].

(** The control a loop pass ends in, from the interruption status, the
    effect of the item and the deadline test. *)
Definition controlOf (st : Status) (eff : ItemEffect) (pastDeadline : bool)
  (h : DbCheckHasher) (w : World) : LoopControl :=
  if negb (isOK st) then Throw st h w
  else
    match eff with
    | Skipped => Continue h w
    | Refused s => Return s h w
    | Hashed h' => if pastDeadline then Break h' w else Continue h' w
    end.

(** The hasher and the world a loop pass or a loop leaves behind. *)
Definition controlHasher (c : LoopControl) : DbCheckHasher :=
  match c with
  | Continue h _ | Break h _ | Return _ h _ | Throw _ h _ => h
  end.

Definition controlWorld (c : LoopControl) : World :=
  match c with
  | Continue _ w | Break _ w | Return _ _ w | Throw _ _ w => w
  end.

Definition exitHasher (x : LoopExit) : DbCheckHasher :=
  match x with
  | ExitEOF h _ | ExitBreak h _ | ExitReturn _ h _ | ExitThrow _ h _ => h
  end.

(** What the counters of a hasher that started from zero satisfy: nothing
    is counted before the first document, and the ceilings hold from the
    second document on. *)
Definition ceilingInvariant (h : DbCheckHasher) : Prop :=
  0 <= _countDocsSeen h /\ 0 <= _countKeysSeen h /\ 0 <= _bytesSeen h
  /\ (_countDocsSeen h = 0 -> _countKeysSeen h = 0 /\ _bytesSeen h = 0)
  /\ (_countDocsSeen h <= 1
      \/ (_countDocsSeen h <= _maxCount h /\ _bytesSeen h <= _maxBytes h)).

(** *** dbCheckBatchOnSecondary and the recovery unit *)

(** The verifier with the recovery unit of the operation.  The acquisition
    is the first statement of the [try] block and lives until the block is
    left: its destructor runs on every return and, during unwinding, before
    the [catch] block handles an exception of the rest of the block.  An
    exception of the constructor itself goes to the [catch] block with no
    destructor run. *)
Definition dbCheckBatchOnSecondaryInScope (catalog : Catalog)
  (opCtx : OperationContext) (optime : OpTime) (entry : DbCheckOplogBatch)
  (batchStart batchEnd : BSONObj) (ru : RecoveryUnit) (w : World)
  : Outcome Status * RecoveryUnit * World :=
  match newDbCheckAcquisition catalog (getNss entry) (getReadTimestamp entry)
          PrepareConflictBehavior.kIgnoreConflictsAllowWrites ru with
  | (Thrown exception, ru1) =>
      let '(outcome, w1) :=
        (log (caughtEntry entry exception) ;;; ret Status_OK) w in
      (outcome, ru1, w1)
  | (Returned acquisition, ru1) =>
      let '(outcome, w1) :=
        dbCheckBatchOnSecondary (fun _ _ => Returned (coll acquisition))
          opCtx optime entry batchStart batchEnd w in
      (outcome, deleteDbCheckAcquisition acquisition ru1, w1)
  end.

(** *** dbCheckOplogCommand *)

(** [BSON("_id" << key.elem())] *)
Variable BSON_id : BSONKey -> BSONObj.

(** The bounds of a batch: the documents of the entry when it has them, its
    legacy keys otherwise. *)
Definition decodedBatchStart (range : BatchRange) : BSONObj :=
  match getBatchStart range with
  | None => BSON_id (getMinKey range)
  | Some batchStart => batchStart
  end.

Definition decodedBatchEnd (range : BatchRange) : BSONObj :=
  match getBatchEnd range with
  | None => BSON_id (getMaxKey range)
  | Some batchEnd => batchEnd
  end.

Definition dbCheckOplogCommand (catalog : Catalog) (opCtx : OperationContext)
  (settings : ApplierSettings) (entry : OplogEntry)
  (mode : OplogApplication.Mode) : M Status :=
  let opTime :=
    if negb (writesAreReplicated settings) then getOpTime entry else nullOpTime in
  type <- liftOutcome (parseType entry) ;;
  match type with
  | OplogEntriesEnum.Batch =>
      parsed <- liftOutcome (parseBatch entry) ;;
      let invocation := fst parsed in
      let batchStart := decodedBatchStart (snd parsed) in
      let batchEnd := decodedBatchEnd (snd parsed) in
      if negb (skipDbCheck mode)
         && negb (skipApplyingDbCheckBatchOnSecondary settings)
      then dbCheckBatchOnSecondary catalog opCtx opTime invocation batchStart
             batchEnd
      else
        (fun w => (Returned tt, logDebug w (mkLogLine 8888500 3))) ;;;
        log (skippedBatchEntry settings mode type invocation batchStart batchEnd) ;;;
        ret Status_OK
  | OplogEntriesEnum.Collection => ret Status_OK
  | OplogEntriesEnum.Start | OplogEntriesEnum.Stop =>
      invocation <- liftOutcome (parseStartStop entry) ;;
      log (startStopEntry mode type invocation) ;;;
      ret Status_OK
  end.

(** *** What a scan leaves in the logs *)

Definition exitWorld (x : LoopExit) : World :=
  match x with
  | ExitEOF _ w | ExitBreak _ w | ExitReturn _ _ w | ExitThrow _ _ w => w
  end.

(** The rehydrated _id keys of the items of a cursor that have a record, in
    cursor order. *)
Definition fetchedKeys (collPtr : Collection) (exec : PlanExecutorScript)
  : list BSONObj :=
  flat_map (fun g =>
              match g with
              | Advanced objId rid =>
                  match findRecord collPtr rid with
                  | Some _ => [rehydrateKey idKeyPattern objId]
                  | None => []
                  end
              | GetNextThrows _ => []
              end) exec.

(** The entries logged for the items of a cursor that have no record, in
    cursor order. *)
Definition missingRecordEntries (h : DbCheckHasher) (collPtr : Collection)
  (exec : PlanExecutorScript) : list HealthLogEntry :=
  flat_map (fun g =>
              match g with
              | Advanced objId rid =>
                  match findRecord collPtr rid with
                  | Some _ => []
                  | None =>
                      [missingRecordEntry h collPtr rid
                         (rehydrateKey idKeyPattern objId)]
                  end
              | GetNextThrows _ => []
              end) exec.

(** An entry whose data end with the parameters of the check, when the
    check has parameters. *)
Definition carriesParameters
  (parameters : option SecondaryIndexCheckParameters) (e : HealthLogEntry)
  : Prop :=
  forall p,
    parameters = Some p ->
    exists fields,
      getData e
      = Some (BObject (fields ++ [("dbCheckParameters"%string, BParameters p)])).

(** What every entry a scan of a collection range logs has in common: it is
    filed for the batch operation under the namespace and UUID of the
    collection, as an Error on a document, or as a Warning on the cluster
    when it reports BSON that does not conform, and it carries the
    parameters of the check. *)
Definition scanEntryShape (collPtr : Collection)
  (parameters : option SecondaryIndexCheckParameters) (e : HealthLogEntry)
  : Prop :=
  getOperation e = "dbCheckBatch"%string
  /\ getLogNss e = Some (ns collPtr)
  /\ getCollectionUUID e = Some (uuid collPtr)
  /\ ((getSeverity e = SeverityEnum.Error /\ getScope e = ScopeEnum.Document)
      \/ (getSeverity e = SeverityEnum.Warning
          /\ getScope e = ScopeEnum.Cluster
          /\ getMsg e = "Document is not well-formed BSON"%string))
  /\ carriesParameters parameters e.

(** What every entry the verifier logs for a batch has in common. *)
Definition batchEntryShape (entry : DbCheckOplogBatch) (e : HealthLogEntry)
  : Prop :=
  getOperation e = "dbCheckBatch"%string
  /\ carriesParameters (getSecondaryIndexCheckParameters entry) e.

(** *** Index tables in key-string order *)

(** Every entry of the table is strictly before the ones after it. *)
Fixpoint strictlySorted (table : SortedData) : Prop :=
  match table with
  | [] => True
  | e :: rest =>
      Forall (fun e' => compareKeyString (keyString e) (keyString e') = Lt) rest
      /\ strictlySorted rest
  end.

(** Whether the key bytes of an entry lie between two keys, both included. *)
Definition inBounds (startKey endKey : list byte) (e : KeyStringEntry) : bool :=
  match key_string_compare (entryBytes e) startKey with
  | Lt => false
  | _ =>
      match key_string_compare (entryBytes e) endKey with
      | Gt => false
      | _ => true
      end
  end.

(** A record id behind which the scan finds nothing to report: the record
    is there and, in the missing-index-keys mode, it passes [validateBSON]
    and every expected key of every index the check probes is found. *)
Definition nothingToReport (collPtr : Collection) (h : DbCheckHasher)
  (rid : RecordId) : Prop :=
  exists record,
    findRecord collPtr rid = Some record
    /\ forall p,
         _secondaryIndexCheckParameters h = Some p ->
         getValidateMode p
         = DbCheckValidationModeEnum.dataConsistencyAndMissingIndexKeysCheck ->
         isOK (validateBSON record (getBsonValidateMode p)) = true
         /\ forall entry key,
              In entry (_indexes h) ->
              skipsPartial entry record = false ->
              skipsUnsupported entry = false ->
              In key (expectedKeys entry record rid) ->
              keyIsMissing (sortedData entry) key rid = false.

(** Simplification of the fields of a hasher under its setters. *)

Ltac hasher_fields :=
  cbn [md5_append set_missingIndexKeys set_lastKeySeen set_countDocsSeen
       set_countKeysSeen set_bytesSeen set_nConsecutive set_exec
       set_maxCount set_maxBytes
       _state _maxKey _indexName _maxCount _maxBytes
       _secondaryIndexCheckParameters _exec _indexes _missingIndexKeys
       _lastKeySeen _countDocsSeen _countKeysSeen _bytesSeen
       _nConsecutiveIdenticalIndexKeysSeenAtEnd];
  simpl.

(** For equations between hashers whose record has been destructed. *)
Ltac hasher_unfold :=
  unfold md5_append, set_missingIndexKeys, set_lastKeySeen, set_countDocsSeen,
    set_countKeysSeen, set_bytesSeen, set_nConsecutive, set_exec,
    set_maxCount, set_maxBytes; simpl.

(** Drops from the context the libraries and defaults a statement does not
    mention, so that a decision procedure cannot pick them up. *)
Ltac forget_libraries :=
  try clear validateBSON; try clear hasField; try clear objsize;
  try clear rehydrateKey; try clear keyStringToBson; try clear bsonToKeyString;
  try clear RecordId_toString; try clear md5_finish;
  try clear defaultMaxCount; try clear defaultMaxBytes;
  try clear defaultDeadline; try clear BSON_id.

(** ** Properties *)

(** *** Key-string comparison *)

Lemma to_N_inj (a b : byte) : Byte.to_N a = Byte.to_N b -> a = b.
Proof.
  intro H.
  assert (E : Some a = Some b).
  { rewrite <- (Byte.of_to_N a), <- (Byte.of_to_N b), H. reflexivity. }
  congruence.
Qed.

Lemma key_string_compare_refl (l : list byte) : key_string_compare l l = Eq.
Proof.
  induction l as [|a l IH]; simpl; [reflexivity|].
  rewrite N.compare_refl. exact IH.
Qed.

Lemma key_string_compare_eq (l r : list byte) :
  key_string_compare l r = Eq -> l = r.
Proof.
  revert r. induction l as [|a l IH]; intros [|b r]; simpl; try congruence.
  destruct (N.compare (Byte.to_N a) (Byte.to_N b)) eqn:E; try congruence.
  intro H. apply N.compare_eq in E. apply to_N_inj in E.
  f_equal; auto.
Qed.

Lemma key_string_compare_eq_iff (l r : list byte) :
  key_string_compare l r = Eq <-> l = r.
Proof.
  split; [apply key_string_compare_eq|].
  intros ->. apply key_string_compare_refl.
Qed.

Lemma set_exec_same (h : DbCheckHasher) : set_exec h (_exec h) = h.
Proof. destruct h; reflexivity. Qed.

(** *** The index-range loop *)

Lemma absorbEntry_fold_state (endKey : list byte) (l : SortedData) (h : DbCheckHasher) :
  _state (fold_left (absorbEntry endKey) l h) = _state h ++ flat_map entryBytes l.
Proof.
  revert h. induction l as [|e l IH]; intro h; simpl.
  - now rewrite app_nil_r.
  - rewrite IH. unfold absorbEntry, entryBytes.
    destruct (key_string_compare _ _); hasher_fields; now rewrite <- app_assoc.
Qed.

Lemma absorbEntry_fold_keys (endKey : list byte) (l : SortedData) (h : DbCheckHasher) :
  _countKeysSeen (fold_left (absorbEntry endKey) l h)
  = _countKeysSeen h + Z.of_nat (List.length l).
Proof.
  revert h. induction l as [|e l IH]; intro h.
  - simpl. lia.
  - cbn [fold_left List.length]. rewrite IH. unfold absorbEntry.
    destruct (key_string_compare _ _); hasher_fields; lia.
Qed.

Lemma absorbEntry_fold_bytes (endKey : list byte) (l : SortedData) (h : DbCheckHasher) :
  _bytesSeen (fold_left (absorbEntry endKey) l h)
  = _bytesSeen h + sumZ (map entrySize l).
Proof.
  revert h. induction l as [|e l IH]; intro h.
  - simpl. lia.
  - cbn [fold_left map sumZ fold_right]. rewrite IH. unfold absorbEntry, entrySize.
    destruct (key_string_compare _ _); hasher_fields; unfold sumZ; lia.
Qed.

Lemma absorbEntry_fold_docs (endKey : list byte) (l : SortedData) (h : DbCheckHasher) :
  _countDocsSeen (fold_left (absorbEntry endKey) l h) = _countDocsSeen h.
Proof.
  revert h. induction l as [|e l IH]; intro h; simpl; [reflexivity|].
  rewrite IH. unfold absorbEntry.
  destruct (key_string_compare _ _); reflexivity.
Qed.

Lemma absorbEntry_fold_maxKey (endKey : list byte) (l : SortedData) (h : DbCheckHasher) :
  _maxKey (fold_left (absorbEntry endKey) l h) = _maxKey h.
Proof.
  revert h. induction l as [|e l IH]; intro h; simpl; [reflexivity|].
  rewrite IH. unfold absorbEntry.
  destruct (key_string_compare _ _); reflexivity.
Qed.

Lemma absorbEntry_fold_ceilings (endKey : list byte) (l : SortedData) (h : DbCheckHasher) :
  _maxCount (fold_left (absorbEntry endKey) l h) = _maxCount h
  /\ _maxBytes (fold_left (absorbEntry endKey) l h) = _maxBytes h.
Proof.
  revert h. induction l as [|e l IH]; intro h; simpl; [split; reflexivity|].
  destruct (IH (absorbEntry endKey h e)) as [-> ->]. unfold absorbEntry.
  destruct (key_string_compare _ _); split; reflexivity.
Qed.

Lemma absorbEntry_fold_nConsecutive (endKey : list byte) (l : SortedData)
  (h : DbCheckHasher) :
  _nConsecutiveIdenticalIndexKeysSeenAtEnd (fold_left (absorbEntry endKey) l h)
  = _nConsecutiveIdenticalIndexKeysSeenAtEnd h + Z.of_nat (countEqual endKey l).
Proof.
  revert h. induction l as [|e l IH]; intro h.
  - simpl. unfold countEqual. simpl. lia.
  - cbn [fold_left]. rewrite IH. unfold absorbEntry, countEqual, entryBytes.
    cbn [filter].
    destruct (key_string_compare _ _); hasher_fields; lia.
Qed.

Lemma absorbEntry_fold_lastKeySeen (endKey : list byte) (l : SortedData)
  (h : DbCheckHasher) :
  _lastKeySeen (fold_left (absorbEntry endKey) l h)
  = match rev l with
    | [] => _lastKeySeen h
    | e :: _ => keyStringToBson (keyString e)
    end.
Proof.
  revert h. induction l as [|e l IH]; intro h; [reflexivity|].
  cbn [fold_left rev]. rewrite IH.
  destruct (rev l) as [|e' r]; simpl; [|reflexivity].
  unfold absorbEntry. destruct (key_string_compare _ _); reflexivity.
Qed.

(** With no interruption the loop absorbs, in cursor order, the entries of
    the range up to the ceiling. *)
Lemma extraIndexKeysLoop_absorbs (opCtx : OperationContext) (endKey : list byte)
  (endPos : EndPosition) :
  (forall j, isOK (checkForInterruptNoAssert opCtx j) = true) ->
  forall (pos : SortedData) (i : nat) (h : DbCheckHasher) (w : World),
    let h' :=
      fold_left (absorbEntry endKey)
        (untilCeiling endKey
           (dbCheckMaxConsecutiveIdenticalIndexKeysPerSnapshot opCtx)
           (_nConsecutiveIdenticalIndexKeysSeenAtEnd h)
           (entriesWithinEnd endPos pos)) h in
    exists w',
      healthLog w' = healthLog w
      /\ (extraIndexKeysLoop opCtx endKey endPos i h w pos = ExitEOF h' w'
          \/ extraIndexKeysLoop opCtx endKey endPos i h w pos = ExitBreak h' w').
Proof.
  intros Hint pos. induction pos as [|e rest IH]; intros i h w; cbn zeta.
  - exists w. split; [reflexivity|]. left. reflexivity.
  - cbn [extraIndexKeysLoop entriesWithinEnd].
    destruct (withinEnd endPos e) eqn:Hend.
    + unfold extraIndexKeysBody. rewrite Hint. cbn [negb].
      cbn [untilCeiling].
      destruct (key_string_compare (keyBytes (keyString e)) endKey) eqn:Hcmp.
      * hasher_fields.
        destruct (_nConsecutiveIdenticalIndexKeysSeenAtEnd h + 1
                  >=? dbCheckMaxConsecutiveIdenticalIndexKeysPerSnapshot opCtx) eqn:Hc.
        -- eexists. split; [|right; cbn [fold_left]; unfold absorbEntry;
                              rewrite Hcmp; reflexivity]. reflexivity.
        -- cbn [fold_left].
           match goal with
           | |- context [extraIndexKeysLoop _ _ _ _ ?h1 ?w1 rest] =>
               destruct (IH (S i) h1 w1) as [w' [Hw Hrun]]
           end.
           exists w'. split; [exact Hw|].
           unfold absorbEntry. rewrite Hcmp. exact Hrun.
      * cbn [fold_left].
        match goal with
        | |- context [extraIndexKeysLoop _ _ _ _ ?h1 ?w1 rest] =>
            destruct (IH (S i) h1 w1) as [w' [Hw Hrun]]
        end.
        exists w'. split; [exact Hw|].
        unfold absorbEntry. rewrite Hcmp. exact Hrun.
      * cbn [fold_left].
        match goal with
        | |- context [extraIndexKeysLoop _ _ _ _ ?h1 ?w1 rest] =>
            destruct (IH (S i) h1 w1) as [w' [Hw Hrun]]
        end.
        exists w'. split; [exact Hw|].
        unfold absorbEntry. rewrite Hcmp. exact Hrun.
    + exists w. split; [reflexivity|]. left. reflexivity.
Qed.

Lemma untilCeiling_prefix (endKey : list byte) (ceiling : Z) (range : SortedData) :
  forall n, exists post, range = untilCeiling endKey ceiling n range ++ post.
Proof.
  induction range as [|e rest IH]; intro n; simpl.
  - exists []. reflexivity.
  - destruct (key_string_compare _ _).
    + destruct (n + 1 >=? ceiling).
      * exists rest. reflexivity.
      * destruct (IH (n + 1)) as [post Hp]. exists post. simpl. now f_equal.
    + destruct (IH n) as [post Hp]. exists post. simpl. now f_equal.
    + destruct (IH n) as [post Hp]. exists post. simpl. now f_equal.
Qed.

Lemma untilCeiling_below (endKey : list byte) (ceiling : Z) (range : SortedData) :
  forall n,
    n + Z.of_nat (countEqual endKey range) < ceiling ->
    untilCeiling endKey ceiling n range = range.
Proof.
  induction range as [|e rest IH]; intros n Hn; simpl; [reflexivity|].
  unfold countEqual, entryBytes in Hn. cbn [filter] in Hn.
  destruct (key_string_compare (keyBytes (keyString e)) endKey) eqn:Hcmp.
  - cbn [List.length] in Hn.
    destruct (n + 1 >=? ceiling) eqn:Hc; [lia|].
    f_equal. apply IH. unfold countEqual, entryBytes. lia.
  - f_equal. apply IH. exact Hn.
  - f_equal. apply IH. exact Hn.
Qed.

Lemma untilCeiling_before (endKey : list byte) (ceiling : Z)
  (before run : SortedData) :
  Forall (fun e => entryBytes e <> endKey) before ->
  forall n,
    untilCeiling endKey ceiling n (before ++ run)
    = before ++ untilCeiling endKey ceiling n run.
Proof.
  induction 1 as [|e before He _ IH]; intro n; [reflexivity|].
  cbn [app untilCeiling].
  destruct (key_string_compare (keyBytes (keyString e)) endKey) eqn:Hcmp.
  - apply key_string_compare_eq in Hcmp. contradiction.
  - now rewrite IH.
  - now rewrite IH.
Qed.

Lemma untilCeiling_run (endKey : list byte) (ceiling : Z) (run : SortedData) :
  Forall (fun e => entryBytes e = endKey) run ->
  forall n,
    untilCeiling endKey ceiling n run
    = firstn (Z.to_nat (Z.max 1 (ceiling - n))) run.
Proof.
  induction 1 as [|e run He _ IH]; intro n.
  - now rewrite firstn_nil.
  - cbn [untilCeiling]. unfold entryBytes in He. rewrite He.
    rewrite key_string_compare_refl.
    destruct (n + 1 >=? ceiling) eqn:Hc.
    + replace (Z.max 1 (ceiling - n)) with 1 by lia. reflexivity.
    + rewrite IH.
      replace (Z.to_nat (Z.max 1 (ceiling - n)))
        with (S (Z.to_nat (Z.max 1 (ceiling - (n + 1))))) by lia.
      reflexivity.
Qed.

Lemma countEqual_app (endKey : list byte) (a b : SortedData) :
  countEqual endKey (a ++ b) = (countEqual endKey a + countEqual endKey b)%nat.
Proof. unfold countEqual. now rewrite filter_app, length_app. Qed.

Lemma countEqual_none (endKey : list byte) (l : SortedData) :
  Forall (fun e => entryBytes e <> endKey) l -> countEqual endKey l = 0%nat.
Proof.
  induction 1 as [|e l He _ IH]; [reflexivity|].
  unfold countEqual in *. cbn [filter].
  destruct (key_string_compare (entryBytes e) endKey) eqn:Hcmp; auto.
  apply key_string_compare_eq in Hcmp. contradiction.
Qed.

Lemma countEqual_all (endKey : list byte) (l : SortedData) :
  Forall (fun e => entryBytes e = endKey) l -> countEqual endKey l = List.length l.
Proof.
  induction 1 as [|e l He _ IH]; [reflexivity|].
  unfold countEqual in *. cbn [filter]. rewrite He, key_string_compare_refl.
  cbn [List.length]. now rewrite IH.
Qed.

Lemma Forall_firstn {A : Type} (P : A -> Prop) (n : nat) (l : list A) :
  Forall P l -> Forall P (firstn n l).
Proof.
  intro H. revert n. induction H as [|a l Ha _ IH]; intros [|n]; simpl; auto.
Qed.

(** What the whole call does when it is not interrupted. *)
Lemma hashForExtraIndexKeysCheck_absorbs (opCtx : OperationContext)
  (iam : IndexCatalogEntry) (batchStartBson batchEndBson : BSONObj)
  (h : DbCheckHasher) (w : World) :
  (forall j, isOK (checkForInterruptNoAssert opCtx j) = true) ->
  let endKey := bsonToKeyString batchEndBson in
  let consumed :=
    untilCeiling endKey
      (dbCheckMaxConsecutiveIdenticalIndexKeysPerSnapshot opCtx) 0
      (scannedRange (sortedData iam) (bsonToKeyString batchStartBson) endKey) in
  let h1 := fold_left (absorbEntry endKey) consumed (set_nConsecutive h 0) in
  exists w',
    healthLog w' = healthLog w
    /\ hashForExtraIndexKeysCheck opCtx iam batchStartBson batchEndBson h w
       = (Returned Status_OK,
          (if _countKeysSeen h1 =? 0 then set_lastKeySeen h1 (_maxKey h1) else h1),
          w').
Proof.
  intros Hint endKey consumed h1.
  unfold hashForExtraIndexKeysCheck.
  destruct (extraIndexKeysLoop_absorbs opCtx endKey (Some (endKey, true)) Hint
              (seekPosition (sortedData iam)
                 (mkKeyString (bsonToKeyString batchStartBson) None))
              0%nat (set_nConsecutive h 0) (logDebug w (mkLogLine 8065400 3)))
    as [w' [Hw [Hrun | Hrun]]];
    fold endKey; rewrite Hrun; unfold extraIndexKeysFinish;
    eexists; (split; [|reflexivity]); simpl; exact Hw.
Qed.

Lemma extraIndexKeysLoop_empty (opCtx : OperationContext) (endKey : list byte)
  (endPos : EndPosition) (i : nat) (h : DbCheckHasher) (w : World)
  (pos : SortedData) :
  entriesWithinEnd endPos pos = [] ->
  extraIndexKeysLoop opCtx endKey endPos i h w pos = ExitEOF h w.
Proof.
  destruct pos as [|e rest]; simpl; [reflexivity|].
  destruct (withinEnd endPos e); [discriminate|reflexivity].
Qed.

(** The scanned range is a window of the table: what precedes it is before
    the seek key, and the first entry after it, if any, is past the end
    key. *)
Lemma seekPosition_split (table : SortedData) (q : KeyString) :
  exists skipped,
    table = skipped ++ seekPosition table q
    /\ Forall (fun e => compareKeyString (keyString e) q = Lt) skipped.
Proof.
  induction table as [|e rest IH].
  - exists []. split; [reflexivity|constructor].
  - cbn [seekPosition].
    destruct (compareKeyString (keyString e) q) eqn:Hcmp.
    + exists []. split; [reflexivity|constructor].
    + destruct IH as [skipped [Hsplit Hall]].
      exists (e :: skipped). split; [simpl; now f_equal|].
      constructor; assumption.
    + exists []. split; [reflexivity|constructor].
Qed.

Lemma entriesWithinEnd_split (endKey : list byte) (pos : SortedData) :
  exists beyond,
    pos = entriesWithinEnd (Some (endKey, true)) pos ++ beyond
    /\ match beyond with
       | [] => True
       | e :: _ => key_string_compare (entryBytes e) endKey = Gt
       end.
Proof.
  induction pos as [|e rest IH].
  - exists []. split; [reflexivity|exact I].
  - cbn [entriesWithinEnd withinEnd]. unfold entryBytes.
    destruct (key_string_compare (keyBytes (keyString e)) endKey) eqn:Hcmp.
    + destruct IH as [beyond [Hsplit Hb]]. exists beyond.
      split; [simpl; now f_equal|exact Hb].
    + destruct IH as [beyond [Hsplit Hb]]. exists beyond.
      split; [simpl; now f_equal|exact Hb].
    + exists (e :: rest). split; [reflexivity|exact Hcmp].
Qed.

Lemma scannedRange_window (table : SortedData) (startKey endKey : list byte) :
  exists skipped beyond,
    table = skipped ++ scannedRange table startKey endKey ++ beyond
    /\ Forall (fun e => key_string_compare (entryBytes e) startKey = Lt) skipped
    /\ match beyond with
       | [] => True
       | e :: _ => key_string_compare (entryBytes e) endKey = Gt
       end.
Proof.
  unfold scannedRange.
  destruct (seekPosition_split table (mkKeyString startKey None))
    as [skipped [Hs Hall]].
  destruct (entriesWithinEnd_split endKey
              (seekPosition table (mkKeyString startKey None)))
    as [beyond [Hb Hgt]].
  exists skipped, beyond. split; [now rewrite <- Hb|]. split; [|exact Hgt].
  eapply Forall_impl; [|exact Hall].
  intros e He. unfold compareKeyString, entryBytes in *. cbn in He.
  destruct (key_string_compare (keyBytes (keyString e)) startKey);
    try reflexivity; try discriminate.
  destruct (ksRecordId (keyString e)); discriminate.
Qed.

(** *** Properties of hashForExtraIndexKeysCheck *)

(** C7. Duplicate-run absorption.  When the scanned range ends in a run of
    entries whose key bytes (without RecordId) are identical to the batch end
    key, a scan that is not interrupted consumes everything before the run
    and the run itself up to the ceiling
    [dbCheckMaxConsecutiveIdenticalIndexKeysPerSnapshot] (at least one entry
    of the run is always consumed): a run no longer than the ceiling is
    consumed whole, a longer one is cut at the ceiling, and
    [nConsecutiveIdenticalIndexKeysSeenAtEnd] is the number of entries of
    the run that were consumed.  The end position does not cut the run: the
    first entry of the index after it, if any, has a key past the end key.
    [_maxCount] plays no part. *)
Theorem duplicate_run_absorbed (opCtx : OperationContext)
  (iam : IndexCatalogEntry) (batchStartBson batchEndBson : BSONObj)
  (h : DbCheckHasher) (w : World) (before run : SortedData) :
  (forall j, isOK (checkForInterruptNoAssert opCtx j) = true) ->
  scannedRange (sortedData iam) (bsonToKeyString batchStartBson)
    (bsonToKeyString batchEndBson) = before ++ run ->
  Forall (fun e => entryBytes e <> bsonToKeyString batchEndBson) before ->
  Forall (fun e => entryBytes e = bsonToKeyString batchEndBson) run ->
  let ceiling := Z.max 1 (dbCheckMaxConsecutiveIdenticalIndexKeysPerSnapshot opCtx) in
  let taken := firstn (Z.to_nat ceiling) run in
  exists h' w',
    hashForExtraIndexKeysCheck opCtx iam batchStartBson batchEndBson h w
    = (Returned Status_OK, h', w')
    /\ _state h' = _state h ++ flat_map entryBytes (before ++ taken)
    /\ keysSeen h' = keysSeen h + Z.of_nat (List.length (before ++ taken))
    /\ nConsecutiveIdenticalIndexKeysSeenAtEnd h' = Z.of_nat (List.length taken)
    /\ (Z.of_nat (List.length run) <= ceiling -> taken = run)
    /\ (ceiling < Z.of_nat (List.length run) ->
        Z.of_nat (List.length taken) = ceiling)
    /\ (exists skipped beyond,
          sortedData iam = skipped ++ (before ++ run) ++ beyond
          /\ Forall (fun e =>
                       key_string_compare (entryBytes e)
                         (bsonToKeyString batchStartBson) = Lt) skipped
          /\ match beyond with
             | [] => True
             | e :: _ =>
                 key_string_compare (entryBytes e)
                   (bsonToKeyString batchEndBson) = Gt
             end).
Proof.
  intros Hint Hrange Hbefore Hrun ceiling taken.
  destruct (hashForExtraIndexKeysCheck_absorbs opCtx iam batchStartBson
              batchEndBson h w Hint) as [w' [_ Hcall]].
  cbn zeta in Hcall. rewrite Hrange in Hcall.
  rewrite (untilCeiling_before _ _ _ _ Hbefore) in Hcall.
  rewrite (untilCeiling_run _ _ _ Hrun) in Hcall.
  rewrite Z.sub_0_r in Hcall. fold ceiling in Hcall. fold taken in Hcall.
  eexists. exists w'. split; [exact Hcall|].
  set (h1 := fold_left _ _ _).
  assert (Hst : _state h1 = _state h ++ flat_map entryBytes (before ++ taken)).
  { unfold h1. now rewrite absorbEntry_fold_state. }
  assert (Hk : _countKeysSeen h1
               = _countKeysSeen h + Z.of_nat (List.length (before ++ taken))).
  { unfold h1. now rewrite absorbEntry_fold_keys. }
  assert (Hn : _nConsecutiveIdenticalIndexKeysSeenAtEnd h1
               = Z.of_nat (List.length taken)).
  { unfold h1. rewrite absorbEntry_fold_nConsecutive, countEqual_app.
    rewrite (countEqual_none _ _ Hbefore).
    rewrite (countEqual_all _ taken) by (apply Forall_firstn; exact Hrun).
    simpl. lia. }
  unfold keysSeen, nConsecutiveIdenticalIndexKeysSeenAtEnd.
  repeat split.
  - destruct (_countKeysSeen h1 =? 0); exact Hst.
  - destruct (_countKeysSeen h1 =? 0); exact Hk.
  - destruct (_countKeysSeen h1 =? 0); exact Hn.
  - intro Hle. unfold taken. apply firstn_all2. lia.
  - intro Hlt. unfold taken. rewrite length_firstn. lia.
  - rewrite <- Hrange. apply scannedRange_window.
Qed.

(** C8. Empty index range.  A hasher built for an index with upper key
    [end_] that sees no entry between the seek position and the end position
    returns OK with no key counted and [lastKeySeen] set to [_maxKey], the
    upper key [end_] it was built with. *)
Theorem empty_range_lastKeySeen_is_maxKey (opCtx : OperationContext)
  (collection : Collection) (start end_ : BSONObj)
  (parameters : option SecondaryIndexCheckParameters) (name : string)
  (maxCount maxBytes : Z) (iam : IndexCatalogEntry)
  (batchStartBson batchEndBson : BSONObj) (w : World) :
  scannedRange (sortedData iam) (bsonToKeyString batchStartBson)
    (bsonToKeyString batchEndBson) = [] ->
  exists h h' w',
    newDbCheckHasher collection start end_ parameters (Some name) maxCount maxBytes
    = Returned h
    /\ hashForExtraIndexKeysCheck opCtx iam batchStartBson batchEndBson h w
       = (Returned Status_OK, h', w')
    /\ keysSeen h' = 0
    /\ _maxKey h' = end_
    /\ lastKeySeen h' = end_.
Proof.
  intro Hrange. unfold newDbCheckHasher.
  eexists. eexists. eexists. split; [reflexivity|].
  unfold hashForExtraIndexKeysCheck.
  rewrite extraIndexKeysLoop_empty by exact Hrange.
  unfold extraIndexKeysFinish. simpl. repeat split; reflexivity.
Qed.

(** C10. No count or byte ceiling on an index range.  Whatever [_maxCount]
    and [_maxBytes] are, a scan that is not interrupted returns OK having
    folded into the digest, in cursor order, the key bytes (without RecordId)
    of every entry from the seek position through the inclusive end
    position, and having counted each of them; it stops before the end
    position only at the entry that brings the number of keys equal to the
    end key up to [dbCheckMaxConsecutiveIdenticalIndexKeysPerSnapshot]. *)
Theorem extra_index_keys_ignore_ceilings (opCtx : OperationContext)
  (iam : IndexCatalogEntry) (batchStartBson batchEndBson : BSONObj)
  (h : DbCheckHasher) (w : World) (maxCount maxBytes : Z) :
  (forall j, isOK (checkForInterruptNoAssert opCtx j) = true) ->
  let endKey := bsonToKeyString batchEndBson in
  let range := scannedRange (sortedData iam) (bsonToKeyString batchStartBson) endKey in
  let consumed :=
    untilCeiling endKey
      (dbCheckMaxConsecutiveIdenticalIndexKeysPerSnapshot opCtx) 0 range in
  exists h' w',
    hashForExtraIndexKeysCheck opCtx iam batchStartBson batchEndBson
      (set_maxCount (set_maxBytes h maxBytes) maxCount) w
    = (Returned Status_OK, h', w')
    /\ _state h' = _state h ++ flat_map entryBytes consumed
    /\ keysSeen h' = keysSeen h + Z.of_nat (List.length consumed)
    /\ bytesSeen h' = bytesSeen h + sumZ (map entrySize consumed)
    /\ _maxCount h' = maxCount /\ _maxBytes h' = maxBytes
    /\ (exists post, range = consumed ++ post)
    /\ (Z.of_nat (countEqual endKey range)
        < dbCheckMaxConsecutiveIdenticalIndexKeysPerSnapshot opCtx ->
        consumed = range).
Proof.
  intros Hint endKey range consumed.
  destruct (hashForExtraIndexKeysCheck_absorbs opCtx iam batchStartBson
              batchEndBson (set_maxCount (set_maxBytes h maxBytes) maxCount)
              w Hint) as [w' [_ Hcall]].
  cbn zeta in Hcall. fold endKey range consumed in Hcall.
  eexists. exists w'. split; [exact Hcall|].
  set (h1 := fold_left _ _ _).
  assert (Hst : _state h1 = _state h ++ flat_map entryBytes consumed).
  { unfold h1. now rewrite absorbEntry_fold_state. }
  assert (Hk : _countKeysSeen h1 = _countKeysSeen h + Z.of_nat (List.length consumed)).
  { unfold h1. now rewrite absorbEntry_fold_keys. }
  assert (Hb : _bytesSeen h1 = _bytesSeen h + sumZ (map entrySize consumed)).
  { unfold h1. now rewrite absorbEntry_fold_bytes. }
  assert (Hc : _maxCount h1 = maxCount /\ _maxBytes h1 = maxBytes).
  { unfold h1. destruct (absorbEntry_fold_ceilings endKey consumed
      (set_nConsecutive (set_maxCount (set_maxBytes h maxBytes) maxCount) 0))
      as [-> ->]. split; reflexivity. }
  destruct Hc as [Hc1 Hc2].
  unfold keysSeen, bytesSeen.
  repeat split.
  - destruct (_countKeysSeen h1 =? 0); exact Hst.
  - destruct (_countKeysSeen h1 =? 0); exact Hk.
  - destruct (_countKeysSeen h1 =? 0); exact Hb.
  - destruct (_countKeysSeen h1 =? 0); exact Hc1.
  - destruct (_countKeysSeen h1 =? 0); exact Hc2.
  - apply untilCeiling_prefix.
  - intro Hlt. apply untilCeiling_below. lia.
Qed.

(** *** The missing index keys check *)

Lemma probeKeys_spec (entry : IndexCatalogEntry) (currentRecordId : RecordId) :
  forall (keys : list KeyString) (h : DbCheckHasher),
    probeKeys entry currentRecordId h keys
    = set_missingIndexKeys
        (set_countKeysSeen h (_countKeysSeen h + Z.of_nat (List.length keys)))
        (_missingIndexKeys h
           ++ map (fun key => missingKeyReport (descriptor entry) key currentRecordId)
                (filter (fun key => keyIsMissing (sortedData entry) key currentRecordId)
                   keys)).
Proof.
  induction keys as [|key keys IH]; intro h.
  - destruct h; hasher_unfold. now rewrite Z.add_0_r, app_nil_r.
  - cbn [probeKeys]. rewrite IH. cbn [filter List.length].
    destruct (keyIsMissing (sortedData entry) key currentRecordId);
      destruct h; hasher_unfold; f_equal; try lia.
    now rewrite <- app_assoc.
Qed.

Lemma validateMissingKeysLoop_spec (currentObj : BSONObj) (currentRecordId : RecordId) :
  forall (indexes : list IndexCatalogEntry) (h : DbCheckHasher) (w : World),
    validateMissingKeysLoop currentObj currentRecordId h w indexes
    = (set_missingIndexKeys
         (set_countKeysSeen h
            (_countKeysSeen h
             + Z.of_nat (probeCount currentObj currentRecordId indexes)))
         (_missingIndexKeys h ++ missingReports currentObj currentRecordId indexes),
       mkWorld (healthLog w)
         (serverLog w
            ++ map (fun _ => mkLogLine 8033900 3)
                 (unsupportedIndexes currentObj indexes))
         (batchesProcessed w)).
Proof.
  induction indexes as [|entry rest IH]; intros h w.
  - destruct h, w. unfold probeCount, missingReports. hasher_unfold.
    now rewrite Z.add_0_r, !app_nil_r.
  - cbn [validateMissingKeysLoop].
    unfold probeCount, missingReports, checkedIndexes, unsupportedIndexes in *.
    cbn [filter].
    destruct (skipsPartial entry currentObj) eqn:Hp; cbn [negb andb].
    + apply IH.
    + destruct (skipsUnsupported entry) eqn:Hu; cbn [negb andb].
      * rewrite IH. destruct h, w. hasher_unfold. unfold logDebug. simpl.
        now rewrite <- app_assoc.
      * rewrite IH, probeKeys_spec. cbn [flat_map].
        unfold missingReportsOf, expectedKeys.
        destruct h, w. hasher_unfold. rewrite length_app, Nat2Z.inj_add.
        f_equal. f_equal; try lia. now rewrite <- app_assoc.
Qed.

Lemma validateMissingKeys_spec (currentObj : BSONObj) (currentRecordId : RecordId)
  (h : DbCheckHasher) (w : World) :
  let h' :=
    set_missingIndexKeys
      (set_countKeysSeen h
         (_countKeysSeen h
          + Z.of_nat (probeCount currentObj currentRecordId (_indexes h))))
      (_missingIndexKeys h
         ++ missingReports currentObj currentRecordId (_indexes h)) in
  let w' :=
    mkWorld (healthLog w)
      (serverLog w
         ++ map (fun _ => mkLogLine 8033900 3)
              (unsupportedIndexes currentObj (_indexes h)))
      (batchesProcessed w) in
  validateMissingKeys currentObj currentRecordId h w
  = (match _missingIndexKeys h' with
     | [] => Status_OK
     | _ :: _ => mkStatus ErrorCodes.NoSuchKey "Document has missing index keys"
     end, h', w').
Proof.
  cbn zeta. unfold validateMissingKeys. rewrite validateMissingKeysLoop_spec.
  hasher_fields.
  destruct (_missingIndexKeys h
              ++ missingReports currentObj currentRecordId (_indexes h));
    reflexivity.
Qed.

Lemma checkMissingKeys_hasher (h : DbCheckHasher) (w : World)
  (collPtr : Collection) (currentObj : BSONObj) (currentRecordId : RecordId)
  (rehydratedObjId : BSONObj) :
  fst (checkMissingKeys h w collPtr currentObj currentRecordId rehydratedObjId)
  = if isMissingIndexKeysMode (_secondaryIndexCheckParameters h)
    then probedHasher currentObj currentRecordId h
    else h.
Proof.
  unfold checkMissingKeys.
  destruct (isMissingIndexKeysMode (_secondaryIndexCheckParameters h));
    [|reflexivity].
  rewrite validateMissingKeys_spec. cbn zeta.
  match goal with
  | |- fst (if ?c then _ else _) = _ => destruct c
  end; destruct h; reflexivity.
Qed.

(** *** The collection-range loop body *)

Lemma collectionCheckBody_effect (opCtx : OperationContext)
  (collPtr : Collection) (deadline : Date_t) (i : nat) (h : DbCheckHasher)
  (w : World) (currentObjId : BSONObj) (currentRecordId : RecordId) :
  exists w',
    collectionCheckBody opCtx collPtr deadline i h w currentObjId currentRecordId
    = controlOf (checkForInterruptNoAssert opCtx i)
        (itemEffect collPtr h currentObjId currentRecordId)
        (now opCtx i >? deadline) h w'.
Proof.
  unfold collectionCheckBody, controlOf, itemEffect.
  destruct (negb (isOK (checkForInterruptNoAssert opCtx i))).
  - eexists. reflexivity.
  - destruct (findRecord collPtr currentRecordId) as [record|].
    + destruct (negb (hasField record "_id")).
      * eexists. reflexivity.
      * destruct (negb (_canHashForCollectionCheck h record)).
        -- eexists. reflexivity.
        -- pose proof (checkMissingKeys_hasher h
                         (validateRecord h w collPtr record currentRecordId
                            (rehydrateKey idKeyPattern currentObjId))
                         collPtr record currentRecordId
                         (rehydrateKey idKeyPattern currentObjId)) as Hh.
           destruct (checkMissingKeys _ _ _ _ _ _) as [h2 w2].
           cbn [fst] in Hh. rewrite Hh.
           exists w2. unfold missingIdStatus.
           destruct (now opCtx i >? deadline); reflexivity.
    + eexists. reflexivity.
Qed.

(** *** Properties of validateMissingKeys *)

Lemma in_missingReports (currentObj : BSONObj) (currentRecordId : RecordId)
  (indexes : list IndexCatalogEntry) (r : BSONValue) :
  In r (missingReports currentObj currentRecordId indexes)
  <-> exists entry key,
        In entry indexes
        /\ skipsPartial entry currentObj = false
        /\ skipsUnsupported entry = false
        /\ In key (expectedKeys entry currentObj currentRecordId)
        /\ keyIsMissing (sortedData entry) key currentRecordId = true
        /\ r = missingKeyReport (descriptor entry) key currentRecordId.
Proof.
  unfold missingReports, checkedIndexes, missingReportsOf.
  rewrite in_flat_map. split.
  - intros [entry [Hin Hr]]. apply filter_In in Hin. destruct Hin as [Hin Hc].
    apply andb_prop in Hc. destruct Hc as [Hp Hu].
    apply negb_true_iff in Hp. apply negb_true_iff in Hu.
    apply in_map_iff in Hr. destruct Hr as [key [Hr Hk]].
    apply filter_In in Hk. destruct Hk as [Hk Hm].
    exists entry, key. repeat split; auto.
  - intros [entry [key [Hin [Hp [Hu [Hk [Hm Hr]]]]]]].
    exists entry. split.
    + apply filter_In. split; [exact Hin|]. now rewrite Hp, Hu.
    + apply in_map_iff. exists key. split; [now symmetry|].
      apply filter_In. split; assumption.
Qed.


(** *** Properties of hashForCollectionCheck *)

(** C6. Missing record.  At an item whose interruption check passes and
    whose RecordId has no record in the record store, the loop body logs
    exactly one entry, of severity Error, leaves the hasher as it was (the
    item is neither hashed nor counted), and the loop goes on with the next
    answer of the cursor. *)
Theorem missing_record_skipped (opCtx : OperationContext)
  (collPtr : Collection) (deadline : Date_t) (i : nat) (h : DbCheckHasher)
  (w : World) (currentObjId : BSONObj) (currentRecordId : RecordId)
  (rest : PlanExecutorScript) :
  isOK (checkForInterruptNoAssert opCtx i) = true ->
  findRecord collPtr currentRecordId = None ->
  let e :=
    missingRecordEntry h collPtr currentRecordId
      (rehydrateKey idKeyPattern currentObjId) in
  collectionCheckBody opCtx collPtr deadline i h w currentObjId currentRecordId
  = Continue h (logHealth w e)
  /\ healthLog (logHealth w e) = healthLog w ++ [e]
  /\ getSeverity e = SeverityEnum.Error
  /\ getMsg e = "Error fetching record from record id"%string
  /\ collectionCheckLoop opCtx collPtr deadline i h w
       (Advanced currentObjId currentRecordId :: rest)
     = collectionCheckLoop opCtx collPtr deadline (S i) (set_exec h rest)
         (logHealth w e) rest.
Proof.
  intros Hint Hrec e.
  assert (Hbody : forall g,
             collectionCheckBody opCtx collPtr deadline i g w currentObjId
               currentRecordId
             = Continue g
                 (logHealth w
                    (missingRecordEntry g collPtr currentRecordId
                       (rehydrateKey idKeyPattern currentObjId)))).
  { intro g. unfold collectionCheckBody. rewrite Hint, Hrec. reflexivity. }
  split; [apply Hbody|]. split; [reflexivity|]. split; [reflexivity|].
  split; [reflexivity|].
  cbn [collectionCheckLoop]. rewrite Hbody. reflexivity.
Qed.

Lemma validateRecord_log (h : DbCheckHasher) (w : World) (collPtr : Collection)
  (record : RecordData) (currentRecordId : RecordId) (rehydratedObjId : BSONObj) :
  healthLog (validateRecord h w collPtr record currentRecordId rehydratedObjId)
  = healthLog w
      ++ match _secondaryIndexCheckParameters h with
         | Some p =>
             if isMissingIndexKeysMode (Some p)
                && negb (isOK (validateBSON record (getBsonValidateMode p)))
             then [malformedEntry h collPtr
                     (validateBSON record (getBsonValidateMode p))
                     currentRecordId rehydratedObjId]
             else []
         | None => []
         end.
Proof.
  unfold validateRecord.
  destruct (_secondaryIndexCheckParameters h) as [p|]; [|now rewrite app_nil_r].
  destruct (isMissingIndexKeysMode (Some p)); cbn [andb]; [|now rewrite app_nil_r].
  destruct (negb (isOK (validateBSON record (getBsonValidateMode p))));
    [reflexivity|now rewrite app_nil_r].
Qed.

Lemma checkMissingKeys_log (h : DbCheckHasher) (w : World)
  (collPtr : Collection) (currentObj : BSONObj) (currentRecordId : RecordId)
  (rehydratedObjId : BSONObj) :
  exists suffix,
    healthLog
      (snd (checkMissingKeys h w collPtr currentObj currentRecordId rehydratedObjId))
    = healthLog w ++ suffix.
Proof.
  unfold checkMissingKeys.
  destruct (isMissingIndexKeysMode (_secondaryIndexCheckParameters h)).
  - rewrite validateMissingKeys_spec. cbn zeta.
    match goal with
    | |- context [if ?c then _ else _] => destruct c
    end; simpl; eexists; try reflexivity.
    now rewrite app_nil_r.
  - exists []. simpl. now rewrite app_nil_r.
Qed.

(** C5, as the code has it.  In the missing-index-keys mode, at an item
    whose interruption check passes and whose record fails [validateBSON],
    the loop body appends to the health log an entry "Document is not
    well-formed BSON" of severity Error (Warning when the failure is
    NonConformantBSON) and then treats the item like any other: when the
    record has an _id field and the ceilings accept it, its raw bytes are
    folded into the digest, it is counted, [lastKeySeen] moves to it, and
    the loop continues (or breaks on the deadline). *)
Theorem malformed_document_logged_and_hashed (opCtx : OperationContext)
  (collPtr : Collection) (deadline : Date_t) (i : nat) (h : DbCheckHasher)
  (w : World) (currentObjId : BSONObj) (currentRecordId : RecordId)
  (record : RecordData) (p : SecondaryIndexCheckParameters) :
  isOK (checkForInterruptNoAssert opCtx i) = true ->
  findRecord collPtr currentRecordId = Some record ->
  _secondaryIndexCheckParameters h = Some p ->
  getValidateMode p
  = DbCheckValidationModeEnum.dataConsistencyAndMissingIndexKeysCheck ->
  isOK (validateBSON record (getBsonValidateMode p)) = false ->
  let status := validateBSON record (getBsonValidateMode p) in
  let e :=
    malformedEntry h collPtr status currentRecordId
      (rehydrateKey idKeyPattern currentObjId) in
  let result :=
    collectionCheckBody opCtx collPtr deadline i h w currentObjId
      currentRecordId in
  getMsg e = "Document is not well-formed BSON"%string
  /\ getSeverity e
     = (if ErrorCodes.eqb (code status) ErrorCodes.NonConformantBSON
        then SeverityEnum.Warning else SeverityEnum.Error)
  /\ (exists suffix,
        healthLog (controlWorld result) = healthLog w ++ e :: suffix)
  /\ (hasField record "_id" = true ->
      _canHashForCollectionCheck h record = true ->
      exists h' w',
        (result = Continue h' w' \/ result = Break h' w')
        /\ _state h' = _state h ++ record
        /\ docsSeen h' = docsSeen h + 1
        /\ bytesSeen h' = bytesSeen h + objsize record
        /\ lastKeySeen h' = rehydrateKey idKeyPattern currentObjId).
Proof.
  intros Hint Hrec Hp Hmode Hbad status e result.
  assert (Hm : isMissingIndexKeysMode (Some p) = true).
  { unfold isMissingIndexKeysMode. now rewrite Hmode. }
  assert (Hlog1 :
            healthLog
              (validateRecord h w collPtr record currentRecordId
                 (rehydrateKey idKeyPattern currentObjId))
            = healthLog w ++ [e]).
  { rewrite validateRecord_log, Hp, Hm, Hbad. reflexivity. }
  split.
  { unfold e, malformedEntry.
    destruct (negb (ErrorCodes.eqb (code status) ErrorCodes.NonConformantBSON));
      reflexivity. }
  split.
  { unfold e, malformedEntry.
    destruct (ErrorCodes.eqb (code status) ErrorCodes.NonConformantBSON);
      reflexivity. }
  unfold result, collectionCheckBody. rewrite Hint, Hrec. cbn [negb].
  destruct (hasField record "_id") eqn:Hid; cbn [negb].
  2:{ split; [|discriminate]. cbn [controlWorld]. rewrite Hlog1.
      exists []. reflexivity. }
  destruct (_canHashForCollectionCheck h record) eqn:Hcan; cbn [negb].
  2:{ split; [|discriminate]. cbn [controlWorld]. rewrite Hlog1.
      exists []. reflexivity. }
  pose proof (checkMissingKeys_hasher h
                (validateRecord h w collPtr record currentRecordId
                   (rehydrateKey idKeyPattern currentObjId))
                collPtr record currentRecordId
                (rehydrateKey idKeyPattern currentObjId)) as Hh.
  destruct (checkMissingKeys_log h
              (validateRecord h w collPtr record currentRecordId
                 (rehydrateKey idKeyPattern currentObjId))
              collPtr record currentRecordId
              (rehydrateKey idKeyPattern currentObjId)) as [suffix Hlog2].
  destruct (checkMissingKeys _ _ _ _ _ _) as [h2 w2].
  cbn [fst] in Hh. cbn [snd] in Hlog2. rewrite Hlog1 in Hlog2.
  rewrite Hp, Hm in Hh. subst h2.
  split.
  { exists suffix. rewrite <- app_assoc in Hlog2.
    destruct (now opCtx i >? deadline); exact Hlog2. }
  intros _ _. eexists. exists w2. split.
  { destruct (now opCtx i >? deadline); [right|left]; reflexivity. }
  repeat split.
Qed.

(** *** The effect of one item *)

Lemma itemEffect_Skipped (collPtr : Collection) (h : DbCheckHasher)
  (currentObjId : BSONObj) (currentRecordId : RecordId) :
  itemEffect collPtr h currentObjId currentRecordId = Skipped ->
  findRecord collPtr currentRecordId = None.
Proof.
  unfold itemEffect.
  destruct (findRecord collPtr currentRecordId) as [record|]; [|reflexivity].
  destruct (negb (hasField record "_id")); [discriminate|].
  destruct (negb (_canHashForCollectionCheck h record)); discriminate.
Qed.

Lemma itemEffect_Refused (collPtr : Collection) (h : DbCheckHasher)
  (currentObjId : BSONObj) (currentRecordId : RecordId) (s : Status) :
  itemEffect collPtr h currentObjId currentRecordId = Refused s ->
  exists record,
    findRecord collPtr currentRecordId = Some record
    /\ ((hasField record "_id" = false /\ s = missingIdStatus currentRecordId)
        \/ (hasField record "_id" = true
            /\ _canHashForCollectionCheck h record = false
            /\ s = Status_OK)).
Proof.
  unfold itemEffect.
  destruct (findRecord collPtr currentRecordId) as [record|]; [|discriminate].
  intro H. exists record. split; [reflexivity|].
  destruct (hasField record "_id"); cbn [negb] in H.
  - destruct (_canHashForCollectionCheck h record); cbn [negb] in H;
      [discriminate|].
    right. inversion H. auto.
  - left. inversion H. auto.
Qed.

Lemma itemEffect_Hashed (collPtr : Collection) (h h' : DbCheckHasher)
  (currentObjId : BSONObj) (currentRecordId : RecordId) :
  itemEffect collPtr h currentObjId currentRecordId = Hashed h' ->
  exists record,
    findRecord collPtr currentRecordId = Some record
    /\ hasField record "_id" = true
    /\ _canHashForCollectionCheck h record = true
    /\ _state h' = _state h ++ record
    /\ _countDocsSeen h' = _countDocsSeen h + 1
    /\ _bytesSeen h' = _bytesSeen h + objsize record
    /\ _countKeysSeen h <= _countKeysSeen h'
    /\ _exec h' = _exec h
    /\ _maxCount h' = _maxCount h
    /\ _maxBytes h' = _maxBytes h.
Proof.
  unfold itemEffect.
  destruct (findRecord collPtr currentRecordId) as [record|]; [|discriminate].
  destruct (hasField record "_id") eqn:Hid; cbn [negb]; [|discriminate].
  destruct (_canHashForCollectionCheck h record) eqn:Hcan; cbn [negb];
    [|discriminate].
  intro H. inversion H. clear H. exists record.
  destruct (isMissingIndexKeysMode (_secondaryIndexCheckParameters h));
    unfold probedHasher; hasher_fields; repeat split; auto; lia.
Qed.

Lemma missingIdStatus_not_OK (currentRecordId : RecordId) :
  missingIdStatus currentRecordId <> Status_OK.
Proof. unfold missingIdStatus, Status_OK. discriminate. Qed.

(** One step of the loop, through the effect of its item. *)
Lemma collectionCheckLoop_step (opCtx : OperationContext)
  (collPtr : Collection) (deadline : Date_t) (i : nat) (h : DbCheckHasher)
  (w : World) (currentObjId : BSONObj) (currentRecordId : RecordId)
  (rest : PlanExecutorScript) :
  exists w',
    collectionCheckLoop opCtx collPtr deadline i h w
      (Advanced currentObjId currentRecordId :: rest)
    = if negb (isOK (checkForInterruptNoAssert opCtx i))
      then ExitThrow (checkForInterruptNoAssert opCtx i) (set_exec h rest) w'
      else
        match itemEffect collPtr (set_exec h rest) currentObjId currentRecordId with
        | Skipped =>
            collectionCheckLoop opCtx collPtr deadline (S i) (set_exec h rest) w' rest
        | Refused s => ExitReturn s (set_exec h rest) w'
        | Hashed h' =>
            if now opCtx i >? deadline then ExitBreak h' w'
            else collectionCheckLoop opCtx collPtr deadline (S i) h' w' rest
        end.
Proof.
  cbn [collectionCheckLoop].
  destruct (collectionCheckBody_effect opCtx collPtr deadline i (set_exec h rest)
              w currentObjId currentRecordId) as [w' Hb].
  exists w'. rewrite Hb. unfold controlOf.
  destruct (negb (isOK (checkForInterruptNoAssert opCtx i))); [reflexivity|].
  destruct (itemEffect collPtr (set_exec h rest) currentObjId currentRecordId);
    try reflexivity.
  destruct (now opCtx i >? deadline); reflexivity.
Qed.

(** Any run agrees with the reference scan unless it threw or was stopped by
    its deadline before the end of the cursor. *)
Lemma collectionCheckLoop_reference (opCtx : OperationContext)
  (collPtr : Collection) (deadline : Date_t) :
  forall (exec : PlanExecutorScript) (i : nat) (h : DbCheckHasher) (w : World),
    match collectionCheckLoop opCtx collPtr deadline i h w exec with
    | ExitEOF ha _ => referenceScan collPtr h exec = (EndEOF, ha)
    | ExitReturn s ha _ => referenceScan collPtr h exec = (EndRefused s, ha)
    | ExitBreak ha _ =>
        (exists j, now opCtx j > deadline)
        /\ (_exec ha = [] -> referenceScan collPtr h exec = (EndEOF, ha))
    | ExitThrow _ _ _ => True
    end.
Proof.
  induction exec as [|g rest IH]; intros i h w.
  - reflexivity.
  - destruct g as [objId rid|e]; [|exact I].
    destruct (collectionCheckLoop_step opCtx collPtr deadline i h w objId rid rest)
      as [w' Hstep].
    rewrite Hstep. clear Hstep. cbn [referenceScan].
    destruct (negb (isOK (checkForInterruptNoAssert opCtx i))); [exact I|].
    destruct (itemEffect collPtr (set_exec h rest) objId rid) as [|s|h'] eqn:He.
    + apply IH.
    + reflexivity.
    + destruct (now opCtx i >? deadline) eqn:Hd.
      * split; [exists i; lia|].
        intro Hex. apply itemEffect_Hashed in He.
        destruct He as [record [_ [_ [_ [_ [_ [_ [_ [He _]]]]]]]]].
        cbn [set_exec _exec] in He. rewrite Hex in He. subst rest.
        cbn [referenceScan]. f_equal.
        rewrite <- Hex at 1. apply set_exec_same.
      * apply IH.
Qed.

(** The digest input after any run is the input before it followed by the
    records of a prefix of the cursor, in cursor order. *)
Lemma collectionCheckLoop_order (opCtx : OperationContext)
  (collPtr : Collection) (deadline : Date_t) :
  forall (exec : PlanExecutorScript) (i : nat) (h : DbCheckHasher) (w : World),
  exists pre post,
    exec = pre ++ post
    /\ _state (exitHasher (collectionCheckLoop opCtx collPtr deadline i h w exec))
       = _state h ++ List.concat (fetchedRecords collPtr pre).
Proof.
  induction exec as [|g rest IH]; intros i h w.
  - exists [], []. split; [reflexivity|]. simpl. now rewrite app_nil_r.
  - destruct g as [objId rid|e].
    2:{ exists [], (GetNextThrows e :: rest). split; [reflexivity|].
        simpl. now rewrite app_nil_r. }
    destruct (collectionCheckLoop_step opCtx collPtr deadline i h w objId rid rest)
      as [w' Hstep].
    rewrite Hstep. clear Hstep.
    destruct (negb (isOK (checkForInterruptNoAssert opCtx i))).
    { exists [], (Advanced objId rid :: rest). split; [reflexivity|].
      simpl. now rewrite app_nil_r. }
    destruct (itemEffect collPtr (set_exec h rest) objId rid) as [|s|h'] eqn:He.
    + apply itemEffect_Skipped in He.
      destruct (IH (S i) (set_exec h rest) w') as [pre [post [Hsplit Hst]]].
      exists (Advanced objId rid :: pre), post. split; [simpl; now f_equal|].
      rewrite Hst. unfold fetchedRecords. cbn [flat_map]. rewrite He.
      reflexivity.
    + exists [], (Advanced objId rid :: rest). split; [reflexivity|].
      simpl. now rewrite app_nil_r.
    + apply itemEffect_Hashed in He.
      destruct He as [record [Hrec [_ [_ [Hstate _]]]]].
      cbn [set_exec _state] in Hstate.
      destruct (now opCtx i >? deadline).
      * exists [Advanced objId rid], rest. split; [reflexivity|].
        cbn [exitHasher]. rewrite Hstate. unfold fetchedRecords.
        cbn [flat_map]. rewrite Hrec. simpl. now rewrite !app_nil_r.
      * destruct (IH (S i) h' w') as [pre [post [Hsplit Hst]]].
        exists (Advanced objId rid :: pre), post. split; [simpl; now f_equal|].
        rewrite Hst, Hstate. unfold fetchedRecords. cbn [flat_map].
        rewrite Hrec. simpl. now rewrite <- app_assoc.
Qed.

(** *** Ceilings *)

Lemma canHash_first (h : DbCheckHasher) (obj : BSONObj) :
  countSeen h = 0 -> _canHashForCollectionCheck h obj = true.
Proof.
  intro H. unfold _canHashForCollectionCheck. now rewrite H.
Qed.

Lemma canHash_over (h : DbCheckHasher) (obj : BSONObj) :
  0 <= keysSeen h ->
  countSeen h <> 0 ->
  bytesSeen h + objsize obj > _maxBytes h \/ docsSeen h + 1 > _maxCount h ->
  _canHashForCollectionCheck h obj = false.
Proof.
  unfold _canHashForCollectionCheck, countSeen, docsSeen, keysSeen, bytesSeen.
  intros Hk Hc Hover.
  destruct (_countDocsSeen h + _countKeysSeen h =? 0) eqn:E0; [lia|].
  destruct (_bytesSeen h + objsize obj >? _maxBytes h) eqn:Eb; [reflexivity|].
  destruct (_countDocsSeen h + _countKeysSeen h + 1 >? _maxCount h) eqn:Ec;
    [reflexivity|lia].
Qed.

Lemma canHash_true (h : DbCheckHasher) (obj : BSONObj) :
  _canHashForCollectionCheck h obj = true ->
  countSeen h = 0
  \/ (_bytesSeen h + objsize obj <= _maxBytes h
      /\ countSeen h + 1 <= _maxCount h).
Proof.
  unfold _canHashForCollectionCheck.
  destruct (countSeen h =? 0) eqn:E0; [lia|].
  destruct (_bytesSeen h + objsize obj >? _maxBytes h) eqn:Eb; [discriminate|].
  destruct (countSeen h + 1 >? _maxCount h) eqn:Ec; [discriminate|].
  intros _. right. lia.
Qed.

Lemma canHash_false (h : DbCheckHasher) (obj : BSONObj) :
  _canHashForCollectionCheck h obj = false -> countSeen h <> 0.
Proof.
  unfold _canHashForCollectionCheck.
  destruct (countSeen h =? 0) eqn:E0; [discriminate|lia].
Qed.

Lemma ceilingInvariant_Hashed (collPtr : Collection) (h h' : DbCheckHasher)
  (currentObjId : BSONObj) (currentRecordId : RecordId) :
  (forall rid record, findRecord collPtr rid = Some record -> 0 <= objsize record) ->
  ceilingInvariant h ->
  itemEffect collPtr h currentObjId currentRecordId = Hashed h' ->
  ceilingInvariant h' /\ 1 <= _countDocsSeen h'
  /\ _countDocsSeen h <= _countDocsSeen h'.
Proof.
  intros Hsize Hinv He. apply itemEffect_Hashed in He.
  destruct He as [record [Hrec [_ [Hcan [_ [Hd [Hb [Hk [_ [Hmc Hmb]]]]]]]]]].
  apply Hsize in Hrec. apply canHash_true in Hcan.
  unfold ceilingInvariant, countSeen, docsSeen, keysSeen in *.
  rewrite Hmc, Hmb. lia.
Qed.

Lemma ceilingInvariant_set_exec (h : DbCheckHasher) (exec : PlanExecutorScript) :
  ceilingInvariant h -> ceilingInvariant (set_exec h exec).
Proof. exact (fun H => H). Qed.

(** The counters through a run that starts within the invariant. *)
Lemma collectionCheckLoop_ceilings (opCtx : OperationContext)
  (collPtr : Collection) (deadline : Date_t) :
  (forall rid record, findRecord collPtr rid = Some record -> 0 <= objsize record) ->
  forall (exec : PlanExecutorScript) (i : nat) (h : DbCheckHasher) (w : World),
    ceilingInvariant h ->
    let x := collectionCheckLoop opCtx collPtr deadline i h w exec in
    ceilingInvariant (exitHasher x)
    /\ _countDocsSeen h <= _countDocsSeen (exitHasher x)
    /\ match x with
       | ExitEOF h' _ =>
           1 <= _countDocsSeen h'
           \/ (forall objId rid,
                 In (Advanced objId rid) exec -> findRecord collPtr rid = None)
       | ExitBreak h' _ => 1 <= _countDocsSeen h'
       | ExitReturn s h' _ => s = Status_OK -> 1 <= _countDocsSeen h'
       | ExitThrow _ _ _ => True
       end.
Proof.
  intros Hsize. induction exec as [|g rest IH]; intros i h w Hinv; cbn zeta.
  - cbn [collectionCheckLoop exitHasher]. split; [exact Hinv|].
    split; [simpl; lia|]. right. intros objId rid [].
  - destruct g as [objId rid|e].
    2:{ cbn [collectionCheckLoop exitHasher]. split; [exact Hinv|].
        split; [simpl; lia|exact I]. }
    destruct (collectionCheckLoop_step opCtx collPtr deadline i h w objId rid rest)
      as [w' Hstep].
    rewrite Hstep. clear Hstep.
    destruct (negb (isOK (checkForInterruptNoAssert opCtx i))).
    { cbn [exitHasher]. split; [exact Hinv|]. split; [simpl; lia|exact I]. }
    destruct (itemEffect collPtr (set_exec h rest) objId rid) as [|s|h'] eqn:He.
    + apply itemEffect_Skipped in He.
      destruct (IH (S i) (set_exec h rest) w' Hinv) as [Hi [Hm Hx]].
      split; [exact Hi|]. split; [exact Hm|].
      destruct (collectionCheckLoop opCtx collPtr deadline (S i) (set_exec h rest)
                  w' rest); auto.
      destruct Hx as [Hx|Hx]; [left; exact Hx|right].
      intros objId' rid' [Heq|Hin]; [inversion Heq; subst; exact He|eauto].
    + cbn [exitHasher]. split; [exact Hinv|]. split; [simpl; lia|].
      intro Hs. subst s. apply itemEffect_Refused in He.
      destruct He as [record [_ [[_ Hbad]|[_ [Hcan _]]]]].
      * symmetry in Hbad. now apply missingIdStatus_not_OK in Hbad.
      * apply canHash_false in Hcan.
        unfold ceilingInvariant, countSeen, docsSeen, keysSeen in *.
        cbn [set_exec _countDocsSeen _countKeysSeen] in *. lia.
    + destruct (ceilingInvariant_Hashed collPtr (set_exec h rest) h' objId rid
                  Hsize Hinv He) as [Hi' [H1 Hm']].
      cbn [set_exec _countDocsSeen] in Hm'.
      destruct (now opCtx i >? deadline).
      * cbn [exitHasher]. auto.
      * destruct (IH (S i) h' w' Hi') as [Hi [Hm Hx]].
        split; [exact Hi|]. split; [lia|].
        destruct (collectionCheckLoop opCtx collPtr deadline (S i) h' w' rest);
          cbn [exitHasher] in Hm; auto; try (intros; lia).
Qed.

Lemma collectionCheckLoop_maxima (opCtx : OperationContext)
  (collPtr : Collection) (deadline : Date_t) :
  forall (exec : PlanExecutorScript) (i : nat) (h : DbCheckHasher) (w : World),
    let x := collectionCheckLoop opCtx collPtr deadline i h w exec in
    _maxCount (exitHasher x) = _maxCount h
    /\ _maxBytes (exitHasher x) = _maxBytes h
    /\ _maxKey (exitHasher x) = _maxKey h.
Proof.
  induction exec as [|g rest IH]; intros i h w; cbn zeta.
  - repeat split.
  - destruct g as [objId rid|e]; [|repeat split].
    destruct (collectionCheckLoop_step opCtx collPtr deadline i h w objId rid rest)
      as [w' Hstep].
    rewrite Hstep. clear Hstep.
    destruct (negb (isOK (checkForInterruptNoAssert opCtx i))); [repeat split|].
    destruct (itemEffect collPtr (set_exec h rest) objId rid) as [|s|h'] eqn:He.
    + apply (IH (S i) (set_exec h rest) w').
    + repeat split.
    + assert (Hk : _maxCount h' = _maxCount h /\ _maxBytes h' = _maxBytes h
                   /\ _maxKey h' = _maxKey h).
      { unfold itemEffect in He.
        destruct (findRecord collPtr rid) as [record|]; [|discriminate].
        destruct (negb (hasField record "_id")); [discriminate|].
        destruct (negb (_canHashForCollectionCheck (set_exec h rest) record));
          [discriminate|].
        injection He as <-. unfold probedHasher. hasher_fields.
        destruct (isMissingIndexKeysMode (_secondaryIndexCheckParameters h));
          hasher_fields; repeat split. }
      destruct Hk as [Hk1 [Hk2 Hk3]].
      destruct (now opCtx i >? deadline); [cbn [exitHasher]; auto|].
      destruct (IH (S i) h' w') as [H1 [H2 H3]].
      rewrite H1, H2, H3. auto.
Qed.

(** C3, as the code has it.  [_canHashForCollectionCheck] accepts any item
    while nothing has been counted, and afterwards refuses an item whose
    size would take the bytes over [_maxBytes] or whose count would take the
    documents over [_maxCount].  Consequently, for a hasher that starts from
    zero over records of non-negative size, the batch left by
    [hashForCollectionCheck] consists of at most the one always-accepted
    first document, or else has at most [_maxCount] documents and at most
    [_maxBytes] bytes; and a batch that completes with OK over a range in
    which some key has a record holds at least one document. *)
Theorem collection_batch_within_ceilings (opCtx : OperationContext)
  (collPtr : Collection) (deadline : Date_t) (h : DbCheckHasher) (w : World) :
  docsSeen h = 0 -> keysSeen h = 0 -> bytesSeen h = 0 ->
  (forall rid record, findRecord collPtr rid = Some record -> 0 <= objsize record) ->
  let '(outcome, h', w') := hashForCollectionCheck opCtx collPtr deadline h w in
  (forall g obj, countSeen g = 0 -> _canHashForCollectionCheck g obj = true)
  /\ (forall g obj,
        0 <= keysSeen g -> countSeen g <> 0 ->
        bytesSeen g + objsize obj > _maxBytes g \/ docsSeen g + 1 > _maxCount g ->
        _canHashForCollectionCheck g obj = false)
  /\ (docsSeen h' <= 1
      \/ (docsSeen h' <= _maxCount h /\ bytesSeen h' <= _maxBytes h))
  /\ (docsSeen h' = 0 -> bytesSeen h' = 0)
  /\ (outcome = Returned Status_OK ->
      (exists objId rid record,
          In (Advanced objId rid) (_exec h)
          /\ findRecord collPtr rid = Some record) ->
      1 <= docsSeen h').
Proof.
  clear defaultMaxCount defaultMaxBytes defaultDeadline.
  intros Hd Hk Hb Hsize.
  unfold docsSeen, keysSeen, bytesSeen in Hd, Hk, Hb.
  assert (Hinv : ceilingInvariant h).
  { unfold ceilingInvariant. lia. }
  unfold hashForCollectionCheck.
  pose proof (collectionCheckLoop_ceilings opCtx collPtr deadline Hsize
                (_exec h) 0%nat h w Hinv) as Hloop.
  pose proof (collectionCheckLoop_maxima opCtx collPtr deadline
                (_exec h) 0%nat h w) as Hmax.
  cbn zeta in Hloop, Hmax.
  destruct (collectionCheckLoop opCtx collPtr deadline 0 h w (_exec h))
    as [h' w'|h' w'|s h' w'|e h' w'];
    cbn [exitHasher] in Hloop, Hmax;
    destruct Hloop as [Hi [_ Hx]]; destruct Hmax as [Hmc [Hmb _]];
    (split; [exact canHash_first|]); (split; [exact canHash_over|]);
    unfold ceilingInvariant in Hi; unfold docsSeen, bytesSeen;
    cbn [set_lastKeySeen _countDocsSeen _bytesSeen];
    rewrite <- Hmc, <- Hmb;
    (split; [tauto|]); (split; [tauto|]).
  - intros _ [objId [rid [record [Hin Hrec]]]].
    destruct Hx as [Hx|Hx]; [exact Hx|].
    rewrite (Hx _ _ Hin) in Hrec. discriminate.
  - intros _ _. exact Hx.
  - intros Hs _. apply Hx. congruence.
  - intros Hs. discriminate.
Qed.

(** *** Anomalies and early ends *)



(** *** Determinism *)

Lemma extraIndexKeysBody_absorb (opCtx : OperationContext) (endKey : list byte)
  (i : nat) (h : DbCheckHasher) (w : World) (e : KeyStringEntry) :
  extraIndexKeysBody opCtx endKey i h w e
  = if negb (isOK (checkForInterruptNoAssert opCtx i))
    then Throw (checkForInterruptNoAssert opCtx i) h w
    else
      match key_string_compare (keyBytes (keyString e)) endKey with
      | Eq =>
          if _nConsecutiveIdenticalIndexKeysSeenAtEnd h + 1
             >=? dbCheckMaxConsecutiveIdenticalIndexKeysPerSnapshot opCtx
          then Break (absorbEntry endKey h e) (logDebug w (mkLogLine 7844907 3))
          else Continue (absorbEntry endKey h e) (logDebug w (mkLogLine 7844907 3))
      | _ => Continue (absorbEntry endKey h e) (logDebug w (mkLogLine 7844907 3))
      end.
Proof.
  unfold extraIndexKeysBody, absorbEntry.
  destruct (negb (isOK (checkForInterruptNoAssert opCtx i))); [reflexivity|].
  destruct (key_string_compare (keyBytes (keyString e)) endKey); reflexivity.
Qed.

Lemma absorbEntry_nConsecutive (endKey : list byte) (h : DbCheckHasher)
  (e : KeyStringEntry) :
  _nConsecutiveIdenticalIndexKeysSeenAtEnd (absorbEntry endKey h e)
  = match key_string_compare (keyBytes (keyString e)) endKey with
    | Eq => _nConsecutiveIdenticalIndexKeysSeenAtEnd h + 1
    | _ => _nConsecutiveIdenticalIndexKeysSeenAtEnd h
    end.
Proof.
  unfold absorbEntry.
  destruct (key_string_compare (keyBytes (keyString e)) endKey); reflexivity.
Qed.

(** A loop over an index range that does not throw has absorbed the range up
    to the ceiling, whatever the operation context observed. *)
Lemma extraIndexKeysLoop_returned (opCtx : OperationContext) (endKey : list byte)
  (endPos : EndPosition) :
  forall (pos : SortedData) (i : nat) (h : DbCheckHasher) (w : World),
    match extraIndexKeysLoop opCtx endKey endPos i h w pos with
    | ExitEOF ha _ | ExitBreak ha _ =>
        ha = fold_left (absorbEntry endKey)
               (untilCeiling endKey
                  (dbCheckMaxConsecutiveIdenticalIndexKeysPerSnapshot opCtx)
                  (_nConsecutiveIdenticalIndexKeysSeenAtEnd h)
                  (entriesWithinEnd endPos pos)) h
    | ExitReturn _ _ _ => False
    | ExitThrow _ _ _ => True
    end.
Proof.
  induction pos as [|e rest IH]; intros i h w.
  - reflexivity.
  - cbn [extraIndexKeysLoop entriesWithinEnd].
    destruct (withinEnd endPos e) eqn:Hend; [|reflexivity].
    rewrite extraIndexKeysBody_absorb.
    destruct (negb (isOK (checkForInterruptNoAssert opCtx i))); [exact I|].
    cbn [untilCeiling].
    specialize (IH (S i) (absorbEntry endKey h e)
                  (logDebug w (mkLogLine 7844907 3))).
    rewrite absorbEntry_nConsecutive in IH.
    destruct (key_string_compare (keyBytes (keyString e)) endKey) eqn:Hcmp.
    + destruct (_nConsecutiveIdenticalIndexKeysSeenAtEnd h + 1
                >=? dbCheckMaxConsecutiveIdenticalIndexKeysPerSnapshot opCtx).
      * reflexivity.
      * exact IH.
    + exact IH.
    + exact IH.
Qed.

(** The digest input after any loop over an index range is the input before
    it followed by the key bytes of a prefix of the range, in cursor order. *)
Lemma extraIndexKeysLoop_order (opCtx : OperationContext) (endKey : list byte)
  (endPos : EndPosition) :
  forall (pos : SortedData) (i : nat) (h : DbCheckHasher) (w : World),
  exists pre post,
    entriesWithinEnd endPos pos = pre ++ post
    /\ _state (exitHasher (extraIndexKeysLoop opCtx endKey endPos i h w pos))
       = _state h ++ flat_map entryBytes pre.
Proof.
  induction pos as [|e rest IH]; intros i h w.
  - exists [], []. split; [reflexivity|]. simpl. now rewrite app_nil_r.
  - cbn [extraIndexKeysLoop entriesWithinEnd].
    destruct (withinEnd endPos e) eqn:Hend.
    2:{ exists [], []. split; [reflexivity|]. simpl. now rewrite app_nil_r. }
    unfold extraIndexKeysBody.
    destruct (negb (isOK (checkForInterruptNoAssert opCtx i))).
    { exists [], (e :: entriesWithinEnd endPos rest). split; [reflexivity|].
      simpl. now rewrite app_nil_r. }
    assert (Hcont : forall h1 w1,
               _state h1 = _state h ++ entryBytes e ->
               exists pre post,
                 e :: entriesWithinEnd endPos rest = pre ++ post
                 /\ _state (exitHasher
                              (extraIndexKeysLoop opCtx endKey endPos (S i) h1 w1 rest))
                    = _state h ++ flat_map entryBytes pre).
    { intros h1 w1 Hst. destruct (IH (S i) h1 w1) as [pre [post [Hsplit Hs]]].
      exists (e :: pre), post. split; [simpl; now f_equal|].
      rewrite Hs, Hst. simpl. now rewrite <- app_assoc. }
    destruct (key_string_compare (keyBytes (keyString e)) endKey).
    + hasher_fields.
      destruct (_nConsecutiveIdenticalIndexKeysSeenAtEnd h + 1
                >=? dbCheckMaxConsecutiveIdenticalIndexKeysPerSnapshot opCtx).
      * exists [e], (entriesWithinEnd endPos rest). split; [reflexivity|].
        simpl. now rewrite app_nil_r.
      * apply Hcont. reflexivity.
    + apply Hcont. reflexivity.
    + apply Hcont. reflexivity.
Qed.

(** What a run over a collection range that returned and was not cut by its
    deadline is, in terms of the reference scan. *)
Lemma hashForCollectionCheck_reference (opCtx : OperationContext)
  (collPtr : Collection) (deadline : Date_t) (h : DbCheckHasher) (w : World) :
  let '(outcome, h', _) := hashForCollectionCheck opCtx collPtr deadline h w in
  forall s,
    outcome = Returned s ->
    notCutByDeadline opCtx deadline h' ->
    exists ha,
      _state h' = _state ha
      /\ _countDocsSeen h' = _countDocsSeen ha
      /\ _countKeysSeen h' = _countKeysSeen ha
      /\ _bytesSeen h' = _bytesSeen ha
      /\ ((referenceScan collPtr h (_exec h) = (EndEOF, ha) /\ s = Status_OK)
          \/ referenceScan collPtr h (_exec h) = (EndRefused s, ha)).
Proof.
  unfold hashForCollectionCheck.
  pose proof (collectionCheckLoop_reference opCtx collPtr deadline (_exec h)
                0%nat h w) as Href.
  destruct (collectionCheckLoop opCtx collPtr deadline 0 h w (_exec h))
    as [ha wa|ha wa|s0 ha wa|e ha wa]; intros s Hs Hcut.
  - exists ha. inversion Hs. repeat split. left. auto.
  - exists ha. inversion Hs. repeat split. left. split; [|reflexivity].
    destruct Href as [[j Hj] Hex]. destruct Hcut as [Hnever|Hdone].
    + specialize (Hnever j). lia.
    + auto.
  - exists ha. inversion Hs. subst s0. repeat split. right. exact Href.
  - discriminate.
Qed.

(** C1. Determinism of the digest.  Whatever the operation context, the
    deadline and the state of the logs, a run of [hashForCollectionCheck]
    folds into the digest the records of a prefix of the cursor, in cursor
    order, and a run of [hashForExtraIndexKeysCheck] the key bytes of a
    prefix of the index range, in index order.  Two runs from the same
    hasher over the same data that both return and are not stopped by their
    deadline before the end of the cursor (for an index range: that read the
    same duplicate-key ceiling) return the same status and leave the same
    digest input, hence the same digest, and the same counters. *)
Theorem hasher_digest_deterministic :
  (forall (opCtx1 opCtx2 : OperationContext) (deadline1 deadline2 : Date_t)
          (collPtr : Collection) (h : DbCheckHasher) (w1 w2 : World),
      let '(o1, h1, _) := hashForCollectionCheck opCtx1 collPtr deadline1 h w1 in
      let '(o2, h2, _) := hashForCollectionCheck opCtx2 collPtr deadline2 h w2 in
      (exists pre post,
          _exec h = pre ++ post
          /\ _state h1 = _state h ++ List.concat (fetchedRecords collPtr pre))
      /\ (forall s1 s2,
            o1 = Returned s1 -> o2 = Returned s2 ->
            notCutByDeadline opCtx1 deadline1 h1 ->
            notCutByDeadline opCtx2 deadline2 h2 ->
            s1 = s2 /\ _state h1 = _state h2 /\ total h1 = total h2
            /\ docsSeen h1 = docsSeen h2 /\ keysSeen h1 = keysSeen h2
            /\ bytesSeen h1 = bytesSeen h2))
  /\ (forall (opCtx1 opCtx2 : OperationContext) (iam : IndexCatalogEntry)
             (batchStartBson batchEndBson : BSONObj) (h : DbCheckHasher)
             (w1 w2 : World),
         let '(o1, h1, _) :=
           hashForExtraIndexKeysCheck opCtx1 iam batchStartBson batchEndBson h w1 in
         let '(o2, h2, _) :=
           hashForExtraIndexKeysCheck opCtx2 iam batchStartBson batchEndBson h w2 in
         (exists pre post,
             scannedRange (sortedData iam) (bsonToKeyString batchStartBson)
               (bsonToKeyString batchEndBson) = pre ++ post
             /\ _state h1 = _state h ++ flat_map entryBytes pre)
         /\ (forall s1 s2,
               o1 = Returned s1 -> o2 = Returned s2 ->
               dbCheckMaxConsecutiveIdenticalIndexKeysPerSnapshot opCtx1
               = dbCheckMaxConsecutiveIdenticalIndexKeysPerSnapshot opCtx2 ->
               s1 = s2 /\ h1 = h2 /\ total h1 = total h2)).
Proof.
  split.
  - intros opCtx1 opCtx2 deadline1 deadline2 collPtr h w1 w2.
    pose proof (hashForCollectionCheck_reference opCtx1 collPtr deadline1 h w1) as R1.
    pose proof (hashForCollectionCheck_reference opCtx2 collPtr deadline2 h w2) as R2.
    assert (Hord :
              exists pre post,
                _exec h = pre ++ post
                /\ _state (snd (fst (hashForCollectionCheck opCtx1 collPtr
                                       deadline1 h w1)))
                   = _state h ++ List.concat (fetchedRecords collPtr pre)).
    { unfold hashForCollectionCheck.
      destruct (collectionCheckLoop_order opCtx1 collPtr deadline1 (_exec h)
                  0%nat h w1) as [pre [post [Hsplit Hst]]].
      exists pre, post. split; [exact Hsplit|].
      destruct (collectionCheckLoop opCtx1 collPtr deadline1 0 h w1 (_exec h));
        exact Hst. }
    destruct (hashForCollectionCheck opCtx1 collPtr deadline1 h w1)
      as [[o1 h1] w1'].
    destruct (hashForCollectionCheck opCtx2 collPtr deadline2 h w2)
      as [[o2 h2] w2'].
    split; [exact Hord|].
    intros s1 s2 Ho1 Ho2 Hc1 Hc2.
    destruct (R1 s1 Ho1 Hc1) as [ha [Hs1 [Hd1 [Hk1 [Hb1 Hr1]]]]].
    destruct (R2 s2 Ho2 Hc2) as [hb [Hs2 [Hd2 [Hk2 [Hb2 Hr2]]]]].
    assert (Hsame : ha = hb /\ s1 = s2).
    { destruct Hr1 as [[Hr1 He1]|Hr1]; destruct Hr2 as [[Hr2 He2]|Hr2];
        rewrite Hr1 in Hr2; inversion Hr2; subst; auto. }
    destruct Hsame as [-> ->].
    unfold total, docsSeen, keysSeen, bytesSeen.
    rewrite Hs1, Hs2, Hd1, Hd2, Hk1, Hk2, Hb1, Hb2. repeat split.
  - intros opCtx1 opCtx2 iam batchStartBson batchEndBson h w1 w2.
    unfold hashForExtraIndexKeysCheck.
    set (endKey := bsonToKeyString batchEndBson).
    set (pos := seekPosition (sortedData iam)
                  (mkKeyString (bsonToKeyString batchStartBson) None)).
    pose proof (extraIndexKeysLoop_returned opCtx1 endKey (Some (endKey, true))
                  pos 0%nat (set_nConsecutive h 0)
                  (logDebug w1 (mkLogLine 8065400 3))) as R1.
    pose proof (extraIndexKeysLoop_returned opCtx2 endKey (Some (endKey, true))
                  pos 0%nat (set_nConsecutive h 0)
                  (logDebug w2 (mkLogLine 8065400 3))) as R2.
    destruct (extraIndexKeysLoop_order opCtx1 endKey (Some (endKey, true))
                pos 0%nat (set_nConsecutive h 0)
                (logDebug w1 (mkLogLine 8065400 3))) as [pre [post [Hsplit Hst]]].
    cbn zeta in R1, R2.
    destruct (extraIndexKeysLoop opCtx1 endKey (Some (endKey, true)) 0
                (set_nConsecutive h 0) (logDebug w1 (mkLogLine 8065400 3)) pos)
      as [ha wa|ha wa|s0 ha wa|e ha wa];
      destruct (extraIndexKeysLoop opCtx2 endKey (Some (endKey, true)) 0
                  (set_nConsecutive h 0) (logDebug w2 (mkLogLine 8065400 3)) pos)
        as [hb wb|hb wb|t0 hb wb|e' hb wb];
      try contradiction;
      unfold extraIndexKeysFinish; cbn [exitHasher] in Hst;
      (split;
       [exists pre, post; split; [exact Hsplit|];
        try (destruct (_countKeysSeen ha =? 0)); exact Hst
       |intros s1 s2 Ho1 Ho2 Hceil; try discriminate;
        inversion Ho1; inversion Ho2;
        rewrite R1, R2, Hceil; repeat split]).
Qed.

(** *** The verifier *)

Lemma dbCheckBatchOnSecondaryBody_returns_OK (catalog : Catalog)
  (opCtx : OperationContext) (optime : OpTime) (entry : DbCheckOplogBatch)
  (batchStart batchEnd : BSONObj) (w w1 : World) (s : Status) :
  dbCheckBatchOnSecondaryBody catalog opCtx optime entry batchStart batchEnd w
  = (Returned s, w1) ->
  s = Status_OK.
Proof.
  unfold dbCheckBatchOnSecondaryBody, bind, liftOutcome.
  destruct (catalog (getNss entry) (getReadTimestamp entry)) as [[collection|]|e];
    [| |discriminate].
  - destruct (selectModeAndHash opCtx entry collection batchStart batchEnd w)
      as [[[[hasher indexDescriptor]|]|e] w0]; [| |discriminate].
    + unfold compareAndLog.
      match goal with
      | |- context [if ?c then _ else _] => destruct c
      end; unfold ret; intro H; inversion H; reflexivity.
    + unfold ret. intro H. inversion H. reflexivity.
  - unfold log, ret. intro H. inversion H. reflexivity.
Qed.

Lemma acquisition_error_is_thrown (catalog : Catalog)
  (opCtx : OperationContext) (optime : OpTime) (entry : DbCheckOplogBatch)
  (batchStart batchEnd : BSONObj) (w : World) (e : Status) :
  catalog (getNss entry) (getReadTimestamp entry) = Thrown e ->
  dbCheckBatchOnSecondaryBody catalog opCtx optime entry batchStart batchEnd w
  = (Thrown e, w).
Proof.
  intro H. unfold dbCheckBatchOnSecondaryBody, bind, liftOutcome.
  now rewrite H.
Qed.

(** In the modes that hash the collection, an exception of the hasher's
    construction or of the hashing, and a non-OK status of the hashing, leave
    the block under [try] as an exception. *)
Lemma hashing_error_is_thrown (catalog : Catalog)
  (opCtx : OperationContext) (optime : OpTime) (entry : DbCheckOplogBatch)
  (batchStart batchEnd : BSONObj) (w : World) (collection : Collection)
  (p : SecondaryIndexCheckParameters) :
  catalog (getNss entry) (getReadTimestamp entry) = Returned (Some collection) ->
  getSecondaryIndexCheckParameters entry = Some p ->
  getValidateMode p <> DbCheckValidationModeEnum.extraIndexKeysCheck ->
  match newDbCheckHasher collection batchStart batchEnd (Some p) None
          defaultMaxCount defaultMaxBytes with
  | Thrown e =>
      dbCheckBatchOnSecondaryBody catalog opCtx optime entry batchStart batchEnd w
      = (Thrown e, w)
  | Returned hasher =>
      match hashForCollectionCheck opCtx collection defaultDeadline hasher w with
      | (Thrown e, _, w1) =>
          dbCheckBatchOnSecondaryBody catalog opCtx optime entry batchStart
            batchEnd w
          = (Thrown e, w1)
      | (Returned s, _, w1) =>
          isOK s = false ->
          dbCheckBatchOnSecondaryBody catalog opCtx optime entry batchStart
            batchEnd w
          = (Thrown s, w1)
      end
  end.
Proof.
  intros Hcat Hp Hmode.
  unfold dbCheckBatchOnSecondaryBody, bind, liftOutcome. rewrite Hcat.
  unfold selectModeAndHash, bind, liftOutcome. rewrite Hp.
  destruct (newDbCheckHasher collection batchStart batchEnd (Some p) None
              defaultMaxCount defaultMaxBytes) as [hasher|e] eqn:Hnew.
  - destruct (hashForCollectionCheck opCtx collection defaultDeadline hasher w)
      as [[[s|e] h1] w1] eqn:Hrun.
    + intro Hbad.
      destruct (getValidateMode p); try congruence;
        rewrite Hrun; cbn [callHasher fst]; unfold uassertStatusOK;
        rewrite Hbad; reflexivity.
    + destruct (getValidateMode p); try congruence;
        rewrite Hrun; reflexivity.
  - destruct (getValidateMode p); try congruence; reflexivity.
Qed.

(** C2. The secondary-side verifier always returns OK.  Whatever the
    acquisition, the construction of the hasher, the hashing and the
    comparison do, [dbCheckBatchOnSecondary] returns [Status::OK()].  An
    exception that leaves the block under [try] is caught: one entry is
    appended to the health log as it was when the exception was thrown, of
    severity Error, whose data carry the status of the exception and, as
    context, the batch descriptor.  Exceptions of the acquisition, of the
    hasher's construction and of the hashing, and a non-OK status of the
    hashing, do leave the block as exceptions. *)
Theorem verifier_always_returns_OK (catalog : Catalog)
  (opCtx : OperationContext) (optime : OpTime) (entry : DbCheckOplogBatch)
  (batchStart batchEnd : BSONObj) (w : World) :
  let body :=
    dbCheckBatchOnSecondaryBody catalog opCtx optime entry batchStart batchEnd in
  let '(outcome, w') :=
    dbCheckBatchOnSecondary catalog opCtx optime entry batchStart batchEnd w in
  outcome = Returned Status_OK
  /\ (forall e w1,
        body w = (Thrown e, w1) ->
        w' = logHealth w1 (caughtEntry entry e)
        /\ healthLog w' = healthLog w1 ++ [caughtEntry entry e])
  /\ (forall s w1, body w = (Returned s, w1) -> w' = w1)
  /\ (forall e,
        getSeverity (caughtEntry entry e) = SeverityEnum.Error
        /\ getLogNss (caughtEntry entry e) = Some (getNss entry)
        /\ getOperation (caughtEntry entry e) = "dbCheckBatch"%string
        /\ exists more,
             getData (caughtEntry entry e)
             = Some (BObject
                       ([("success"%string, BBool false);
                         ("error"%string, BStatus e);
                         ("context"%string, BOplogBatch entry)] ++ more)))
  /\ (forall e,
        catalog (getNss entry) (getReadTimestamp entry) = Thrown e ->
        body w = (Thrown e, w))
  /\ (forall collection p,
        catalog (getNss entry) (getReadTimestamp entry)
        = Returned (Some collection) ->
        getSecondaryIndexCheckParameters entry = Some p ->
        getValidateMode p <> DbCheckValidationModeEnum.extraIndexKeysCheck ->
        match newDbCheckHasher collection batchStart batchEnd (Some p) None
                defaultMaxCount defaultMaxBytes with
        | Thrown e => body w = (Thrown e, w)
        | Returned hasher =>
            match hashForCollectionCheck opCtx collection defaultDeadline
                    hasher w with
            | (Thrown e, _, w1) => body w = (Thrown e, w1)
            | (Returned s, _, w1) => isOK s = false -> body w = (Thrown s, w1)
            end
        end).
Proof.
  cbn zeta. unfold dbCheckBatchOnSecondary, tryCatch.
  destruct (dbCheckBatchOnSecondaryBody catalog opCtx optime entry batchStart
              batchEnd w) as [[s|e] w1] eqn:Hbody.
  - apply dbCheckBatchOnSecondaryBody_returns_OK in Hbody as Hs. subst s.
    split; [reflexivity|]. split; [intros e w2 H; discriminate|].
    split; [intros s w2 H; now inversion H|].
    split.
    { intro e. unfold caughtEntry, dbCheckErrorHealthLogEntry,
        dbCheckHealthLogEntry. cbn.
      repeat split.
      destruct (getSecondaryIndexCheckParameters entry) as [q|];
        [exists [("dbCheckParameters"%string, BParameters q)]|exists []];
        reflexivity. }
    split; [intros e He; rewrite <- Hbody;
            now apply acquisition_error_is_thrown|].
    intros collection p Hcat Hp Hmode. rewrite <- Hbody.
    now apply hashing_error_is_thrown.
  - unfold bind, log, ret. cbn.
    split; [reflexivity|].
    split; [intros e' w2 H; inversion H; subst; split; reflexivity|].
    split; [intros s w2 H; discriminate|].
    split.
    { intro e'. unfold caughtEntry, dbCheckErrorHealthLogEntry,
        dbCheckHealthLogEntry. cbn.
      repeat split.
      destruct (getSecondaryIndexCheckParameters entry) as [q|];
        [exists [("dbCheckParameters"%string, BParameters q)]|exists []];
        reflexivity. }
    split; [intros e' He; rewrite <- Hbody;
            now apply acquisition_error_is_thrown|].
    intros collection p Hcat Hp Hmode. rewrite <- Hbody.
    now apply hashing_error_is_thrown.
Qed.

(** *** The batch entry and the logging policy *)

(** X1. The severity of a batch entry.  [dbCheckBatchEntry] files a batch
    as Info exactly when the expected and the found digest are the same
    string, with the message "dbCheck batch consistent".  A batch whose
    digests differ has the message "dbCheck batch inconsistent" and is a
    Warning exactly when the namespace is a change-stream pre-images, config
    images or change collection or the collection is capped, and an Error
    otherwise.  Either way the entry is for the cluster scope and the batch
    operation, and its data carry both digests under [md5]. *)
Theorem batch_entry_severity
  (parameters : option SecondaryIndexCheckParameters) (batchId : option UUID)
  (nss : NamespaceString) (collectionUUID : option UUID) (count bytes : Z)
  (expectedHash foundHash : string) (batchStart batchEnd : BSONObj)
  (nConsecutive : Z) (readTimestamp : option Timestamp) (optime : OpTime)
  (options : option CollectionOptions) (indexSpec : option BSONObj) :
  let e :=
    dbCheckBatchEntry parameters batchId nss collectionUUID count bytes
      expectedHash foundHash batchStart batchEnd nConsecutive readTimestamp
      optime options indexSpec in
  let relaxed :=
    isChangeStreamPreImagesCollection nss || isConfigImagesCollection nss
    || isChangeCollection nss
    || match options with Some o => capped o | None => false end in
  (getSeverity e = SeverityEnum.Info <-> expectedHash = foundHash)
  /\ (getMsg e = "dbCheck batch consistent"%string <-> expectedHash = foundHash)
  /\ (getMsg e = "dbCheck batch inconsistent"%string <-> expectedHash <> foundHash)
  /\ (getSeverity e = SeverityEnum.Warning
      <-> expectedHash <> foundHash /\ relaxed = true)
  /\ (getSeverity e = SeverityEnum.Error
      <-> expectedHash <> foundHash /\ relaxed = false)
  /\ getScope e = ScopeEnum.Cluster
  /\ getOperation e = "dbCheckBatch"%string
  /\ exists before after,
       getData e
       = Some (BObject
                 (before
                    ++ ("md5"%string,
                         BObject [("expected"%string, BString expectedHash);
                                  ("found"%string, BString foundHash)])
                    :: after)).
Proof.
  forget_libraries.
  cbn zeta.
  unfold dbCheckBatchEntry, dbCheckHealthLogEntry, expectedFound, batchSeverity.
  cbn [getSeverity getMsg getScope getOperation getData fst snd].
  destruct (String.eqb_spec expectedHash foundHash) as [Heq|Hne].
  - repeat split; try tauto; try discriminate; try (intros [H _]; tauto).
    destruct parameters as [p|];
      cbn [addField renderForHealthLog];
      eexists (optionalField "batchId" BInt batchId
                 ++ [("success"%string, BBool true); ("count"%string, BInt count);
                     ("bytes"%string, BInt bytes)]), _;
      rewrite <- !app_assoc; cbn [app]; reflexivity.
  - destruct (isChangeStreamPreImagesCollection nss || isConfigImagesCollection nss
              || isChangeCollection nss
              || match options with Some o => capped o | None => false end);
      (repeat split; try tauto; try discriminate;
       try (intros [_ H]; discriminate); try (intro H; now elim Hne);
       [destruct parameters as [p|];
        cbn [addField renderForHealthLog];
        eexists (optionalField "batchId" BInt batchId
                   ++ [("success"%string, BBool true); ("count"%string, BInt count);
                       ("bytes"%string, BInt bytes)]), _;
        rewrite <- !app_assoc; cbn [app]; reflexivity]).
Qed.


(** *** The early returns of the verifier *)

(** X3. A collection that no longer exists.  When the acquisition finds no
    collection, the verifier appends one Info entry "dbCheck failed" whose
    data say that the collection under dbCheck no longer exists, and returns
    OK: no hasher is built, nothing is written to the server log and the
    counter of processed batches does not move. *)
Theorem verifier_collection_gone (catalog : Catalog)
  (opCtx : OperationContext) (optime : OpTime) (entry : DbCheckOplogBatch)
  (batchStart batchEnd : BSONObj) (w : World) :
  catalog (getNss entry) (getReadTimestamp entry) = Returned None ->
  let e := collectionGoneEntry entry in
  dbCheckBatchOnSecondary catalog opCtx optime entry batchStart batchEnd w
  = (Returned Status_OK,
     mkWorld (healthLog w ++ [e]) (serverLog w) (batchesProcessed w))
  /\ getSeverity e = SeverityEnum.Info
  /\ getMsg e = "dbCheck failed"%string
  /\ getLogNss e = Some (getNss entry)
  /\ getCollectionUUID e = None.
Proof.
  forget_libraries.
  intros Hcat e.
  unfold dbCheckBatchOnSecondary, tryCatch, dbCheckBatchOnSecondaryBody, bind,
    liftOutcome.
  rewrite Hcat. repeat split.
Qed.

(** X4. An index that cannot be found.  In the extra-index-keys mode, when
    the catalog of the collection has no index of the name the entry gives,
    the verifier appends one Error entry "dbCheck failed" of scope Index
    that names the index and the namespace, and returns OK: nothing is
    hashed, nothing is written to the server log and the counter of
    processed batches does not move. *)
Theorem verifier_index_not_found (catalog : Catalog)
  (opCtx : OperationContext) (optime : OpTime) (entry : DbCheckOplogBatch)
  (batchStart batchEnd : BSONObj) (w : World) (collection : Collection)
  (p : SecondaryIndexCheckParameters) :
  catalog (getNss entry) (getReadTimestamp entry) = Returned (Some collection) ->
  getSecondaryIndexCheckParameters entry = Some p ->
  getValidateMode p = DbCheckValidationModeEnum.extraIndexKeysCheck ->
  findIndexByName collection (getSecondaryIndex p) = None ->
  let e := indexNotFoundEntry entry (getSecondaryIndex p) in
  dbCheckBatchOnSecondary catalog opCtx optime entry batchStart batchEnd w
  = (Returned Status_OK,
     mkWorld (healthLog w ++ [e]) (serverLog w) (batchesProcessed w))
  /\ getSeverity e = SeverityEnum.Error
  /\ getScope e = ScopeEnum.Index
  /\ getMsg e = "dbCheck failed"%string
  /\ getData e
     = Some (BObject
               [("success"%string, BBool false);
                ("info"%string,
                  BString ("cannot find index " ++ getSecondaryIndex p
                             ++ " for ns " ++ nssName (getNss entry)));
                ("dbCheckParameters"%string, BParameters p)]).
Proof.
  forget_libraries.
  intros Hcat Hp Hmode Hidx e.
  unfold dbCheckBatchOnSecondary, tryCatch, dbCheckBatchOnSecondaryBody, bind,
    liftOutcome.
  rewrite Hcat. unfold selectModeAndHash, bind, liftOutcome.
  rewrite Hp, Hmode. unfold newDbCheckHasher. rewrite Hidx.
  unfold e, indexNotFoundEntry, dbCheckHealthLogEntry. rewrite Hp.
  repeat split.
Qed.

(** *** Construction of a hasher *)

(** X5. What the constructor refuses and what it builds.  Building a hasher
    throws in exactly two cases, both without an index name: the collection
    is not clustered and has no _id index (IndexNotFound, "dbCheck needs _id
    index"), or it is clustered and the bounds of the collection scan are
    rejected.  A hasher that is built has an empty digest input, all its
    counters at zero, the end key as [_maxKey] and the ceilings it was
    given; the indexes it will probe never include the _id index and are
    none outside the missing-index-keys mode; with an index name it has no
    executor. *)
Theorem hasher_construction (collection : Collection) (start end_ : BSONObj)
  (parameters : option SecondaryIndexCheckParameters)
  (name : option string) (maxCount maxBytes : Z) :
  let built :=
    newDbCheckHasher collection start end_ parameters name maxCount maxBytes in
  (forall e,
      built = Thrown e
      <-> name = None
          /\ ((isClustered collection = false
               /\ findIdIndex collection = None
               /\ e = mkStatus ErrorCodes.IndexNotFound "dbCheck needs _id index")
              \/ (isClustered collection = true
                  /\ collectionScan collection start end_ = Thrown e)))
  /\ (forall h,
        built = Returned h ->
        _state h = []
        /\ docsSeen h = 0 /\ keysSeen h = 0 /\ bytesSeen h = 0
        /\ nConsecutiveIdenticalIndexKeysSeenAtEnd h = 0
        /\ _missingIndexKeys h = []
        /\ _maxKey h = end_ /\ _maxCount h = maxCount /\ _maxBytes h = maxBytes
        /\ _indexName h = name
        /\ Forall (fun entry => isIdIndex (descriptor entry) = false) (_indexes h)
        /\ (forall entry,
              In entry (_indexes h) <->
              isMissingIndexKeysMode parameters = true
              /\ In entry (readyIndexes collection)
              /\ isIdIndex (descriptor entry) = false)
        /\ (name <> None -> _exec h = [])).
Proof.
  forget_libraries.
  cbn zeta. unfold newDbCheckHasher. split.
  - intro e. destruct name as [n|].
    + split; [discriminate|]. intros [H _]. discriminate.
    + destruct (isClustered collection); cbn [negb].
      * destruct (collectionScan collection start end_) as [exec|e'].
        -- split; [discriminate|].
           intros [_ [[H _]|[_ H]]]; discriminate.
        -- split.
           ++ intro H. inversion H. subst. split; [reflexivity|]. right. auto.
           ++ intros [_ [[H _]|[_ H]]]; [discriminate|]. inversion H. reflexivity.
      * destruct (findIdIndex collection) as [desc|].
        -- split; [discriminate|].
           intros [_ [[_ [H _]]|[H _]]]; discriminate.
        -- split.
           ++ intro H. inversion H. split; [reflexivity|]. left. auto.
           ++ intros [_ [[_ [_ H]]|[H _]]]; [|discriminate]. now subst.
  - intros h Hbuilt.
    assert (Hidx : Forall (fun entry => isIdIndex (descriptor entry) = false)
                     (if isMissingIndexKeysMode parameters
                      then filter (fun entry => negb (isIdIndex (descriptor entry)))
                             (readyIndexes collection)
                      else [])).
    { destruct (isMissingIndexKeysMode parameters); [|constructor].
      apply Forall_forall. intros entry Hin. apply filter_In in Hin.
      destruct Hin as [_ Hin]. now apply negb_true_iff in Hin. }
    assert (Hmem : forall entry,
               In entry (if isMissingIndexKeysMode parameters
                         then filter (fun entry => negb (isIdIndex (descriptor entry)))
                                (readyIndexes collection)
                         else [])
               <-> isMissingIndexKeysMode parameters = true
                   /\ In entry (readyIndexes collection)
                   /\ isIdIndex (descriptor entry) = false).
    { intro entry. destruct (isMissingIndexKeysMode parameters).
      - rewrite filter_In, negb_true_iff. tauto.
      - split; [intros []|intros [H _]; discriminate]. }
    destruct name as [n|].
    + inversion Hbuilt. subst h. cbn.
      repeat (split; [reflexivity|]).
      split; [exact Hidx|]. split; [exact Hmem|]. reflexivity.
    + destruct (isClustered collection); cbn [negb] in Hbuilt.
      * destruct (collectionScan collection start end_) as [exec|e'];
          [|discriminate].
        inversion Hbuilt. subst h. cbn.
        repeat (split; [reflexivity|]).
        split; [exact Hidx|]. split; [exact Hmem|]. intro H. now elim H.
      * destruct (findIdIndex collection) as [desc|]; [|discriminate].
        inversion Hbuilt. subst h. cbn.
        repeat (split; [reflexivity|]).
        split; [exact Hidx|]. split; [exact Hmem|]. intro H. now elim H.
Qed.

(** *** The trace of a scan of a collection range *)

Lemma last_cons_default {A : Type} (l : list A) :
  forall a d : A, last (a :: l) d = last l a.
Proof.
  forget_libraries.
  induction l as [|b l IH]; intros a d; [reflexivity|].
  change (last (a :: b :: l) d) with (last (b :: l) d).
  now rewrite (IH b d), (IH b a).
Qed.

(** An entry built over an object carries the parameters it was given. *)
Lemma dbCheckHealthLogEntry_carries
  (parameters : option SecondaryIndexCheckParameters)
  (nss : option NamespaceString) (collectionUUID : option UUID)
  (severity : SeverityEnum.t) (msg : string) (scope : ScopeEnum.t)
  (operation : OplogEntriesEnum.t) (fields : list (string * BSONValue)) :
  carriesParameters parameters
    (dbCheckHealthLogEntry parameters nss collectionUUID severity msg scope
       operation (Some (BObject fields))).
Proof.
  forget_libraries.
  intros p Hp. subst parameters. exists fields. reflexivity.
Qed.

Lemma shape_missingRecordEntry (h : DbCheckHasher) (collPtr : Collection)
  (currentRecordId : RecordId) (rehydratedObjId : BSONObj) :
  scanEntryShape collPtr (_secondaryIndexCheckParameters h)
    (missingRecordEntry h collPtr currentRecordId rehydratedObjId).
Proof.
  forget_libraries.
  unfold scanEntryShape.
  split; [reflexivity|]. split; [reflexivity|]. split; [reflexivity|].
  split; [left; split; reflexivity|].
  apply dbCheckHealthLogEntry_carries.
Qed.

Lemma shape_malformedEntry (h : DbCheckHasher) (collPtr : Collection)
  (status : Status) (currentRecordId : RecordId) (rehydratedObjId : BSONObj) :
  scanEntryShape collPtr (_secondaryIndexCheckParameters h)
    (malformedEntry h collPtr status currentRecordId rehydratedObjId).
Proof.
  forget_libraries.
  unfold scanEntryShape, malformedEntry.
  destruct (negb (ErrorCodes.eqb (code status) ErrorCodes.NonConformantBSON));
    (split; [reflexivity|]); (split; [reflexivity|]); (split; [reflexivity|]).
  - split; [left; split; reflexivity|].
    apply dbCheckHealthLogEntry_carries.
  - split; [right; repeat split|].
    apply dbCheckHealthLogEntry_carries.
Qed.

Lemma shape_missingKeysEntry (h : DbCheckHasher) (collPtr : Collection)
  (status : Status) (currentRecordId : RecordId) (rehydratedObjId : BSONObj) :
  scanEntryShape collPtr (_secondaryIndexCheckParameters h)
    (missingKeysEntry h collPtr status currentRecordId rehydratedObjId).
Proof.
  forget_libraries.
  unfold scanEntryShape.
  split; [reflexivity|]. split; [reflexivity|]. split; [reflexivity|].
  split; [left; split; reflexivity|].
  apply dbCheckHealthLogEntry_carries.
Qed.

Lemma validateRecord_trace (h : DbCheckHasher) (w : World) (collPtr : Collection)
  (record : RecordData) (currentRecordId : RecordId) (rehydratedObjId : BSONObj) :
  exists added,
    healthLog (validateRecord h w collPtr record currentRecordId rehydratedObjId)
    = healthLog w ++ added
    /\ batchesProcessed
         (validateRecord h w collPtr record currentRecordId rehydratedObjId)
       = batchesProcessed w
    /\ Forall (scanEntryShape collPtr (_secondaryIndexCheckParameters h)) added
    /\ (isMissingIndexKeysMode (_secondaryIndexCheckParameters h) = false ->
        added = []).
Proof.
  forget_libraries.
  unfold validateRecord.
  pose proof (shape_malformedEntry h collPtr) as Hshape.
  destruct (_secondaryIndexCheckParameters h) as [p|].
  - destruct (isMissingIndexKeysMode (Some p)).
    + destruct (negb (isOK (validateBSON record (getBsonValidateMode p)))).
      * eexists. split; [reflexivity|]. split; [reflexivity|].
        split; [|discriminate].
        constructor; [apply Hshape|constructor].
      * exists []. rewrite app_nil_r. repeat split. constructor.
    + exists []. rewrite app_nil_r. repeat split. constructor.
  - exists []. rewrite app_nil_r. repeat split. constructor.
Qed.

(** The missing index keys check of one document, as the loop runs it: the
    list of misses is cleared first, so the entry logged lists the misses of
    this document only. *)
Lemma checkMissingKeys_world (h : DbCheckHasher) (w : World)
  (collPtr : Collection) (currentObj : BSONObj) (currentRecordId : RecordId)
  (rehydratedObjId : BSONObj) :
  let r := checkMissingKeys h w collPtr currentObj currentRecordId
             rehydratedObjId in
  healthLog (snd r)
  = healthLog w
      ++ (if isMissingIndexKeysMode (_secondaryIndexCheckParameters h)
          then
            match missingReports currentObj currentRecordId (_indexes h) with
            | [] => []
            | _ :: _ =>
                [missingKeysEntry (fst r) collPtr
                   (mkStatus ErrorCodes.NoSuchKey "Document has missing index keys")
                   currentRecordId rehydratedObjId]
            end
          else [])
  /\ batchesProcessed (snd r) = batchesProcessed w.
Proof.
  forget_libraries.
  cbn zeta. unfold checkMissingKeys.
  destruct (isMissingIndexKeysMode (_secondaryIndexCheckParameters h)).
  - rewrite validateMissingKeys_spec. cbn zeta. hasher_fields.
    destruct (missingReports currentObj currentRecordId (_indexes h));
      cbn [isOK code ErrorCodes.eqb Status_OK negb fst snd logHealth healthLog
           batchesProcessed].
    + rewrite app_nil_r. split; reflexivity.
    + split; reflexivity.
  - cbn [snd]. rewrite app_nil_r. split; reflexivity.
Qed.

Lemma checkMissingKeys_trace (h : DbCheckHasher) (w : World)
  (collPtr : Collection) (currentObj : BSONObj) (currentRecordId : RecordId)
  (rehydratedObjId : BSONObj) :
  exists added,
    healthLog
      (snd (checkMissingKeys h w collPtr currentObj currentRecordId
              rehydratedObjId))
    = healthLog w ++ added
    /\ batchesProcessed
         (snd (checkMissingKeys h w collPtr currentObj currentRecordId
                 rehydratedObjId))
       = batchesProcessed w
    /\ Forall (scanEntryShape collPtr (_secondaryIndexCheckParameters h)) added
    /\ (isMissingIndexKeysMode (_secondaryIndexCheckParameters h) = false ->
        added = []).
Proof.
  forget_libraries.
  destruct (checkMissingKeys_world h w collPtr currentObj currentRecordId
              rehydratedObjId) as [Hlog Hbatches].
  pose proof (checkMissingKeys_hasher h w collPtr currentObj currentRecordId
                rehydratedObjId) as Hh.
  assert (Hp : _secondaryIndexCheckParameters
                 (fst (checkMissingKeys h w collPtr currentObj currentRecordId
                         rehydratedObjId))
               = _secondaryIndexCheckParameters h).
  { rewrite Hh.
    destruct (isMissingIndexKeysMode (_secondaryIndexCheckParameters h));
      reflexivity. }
  eexists. split; [exact Hlog|]. split; [exact Hbatches|].
  destruct (isMissingIndexKeysMode (_secondaryIndexCheckParameters h)).
  - split; [|discriminate].
    destruct (missingReports currentObj currentRecordId (_indexes h));
      constructor; [|constructor].
    rewrite <- Hp. apply shape_missingKeysEntry.
  - split; [constructor|reflexivity].
Qed.

(** One pass of the loop body, with what it appends to the health log. *)
Lemma collectionCheckBody_trace (opCtx : OperationContext)
  (collPtr : Collection) (deadline : Date_t) (i : nat) (h : DbCheckHasher)
  (w : World) (currentObjId : BSONObj) (currentRecordId : RecordId) :
  exists w' added,
    collectionCheckBody opCtx collPtr deadline i h w currentObjId currentRecordId
    = controlOf (checkForInterruptNoAssert opCtx i)
        (itemEffect collPtr h currentObjId currentRecordId)
        (now opCtx i >? deadline) h w'
    /\ healthLog w' = healthLog w ++ added
    /\ batchesProcessed w' = batchesProcessed w
    /\ Forall (scanEntryShape collPtr (_secondaryIndexCheckParameters h)) added
    /\ (isOK (checkForInterruptNoAssert opCtx i) = false -> added = [])
    /\ (isOK (checkForInterruptNoAssert opCtx i) = true ->
        isMissingIndexKeysMode (_secondaryIndexCheckParameters h) = false ->
        added
        = match findRecord collPtr currentRecordId with
          | None =>
              [missingRecordEntry h collPtr currentRecordId
                 (rehydrateKey idKeyPattern currentObjId)]
          | Some _ => []
          end).
Proof.
  forget_libraries.
  unfold collectionCheckBody, controlOf, itemEffect.
  destruct (isOK (checkForInterruptNoAssert opCtx i)); cbn [negb].
  2:{ exists w, []. rewrite app_nil_r. repeat split; auto. discriminate. }
  destruct (findRecord collPtr currentRecordId) as [record|].
  2:{ eexists _, _. split; [reflexivity|]. split; [reflexivity|].
      split; [reflexivity|].
      split; [constructor; [apply shape_missingRecordEntry|constructor]|].
      split; [discriminate|reflexivity]. }
  destruct (validateRecord_trace h w collPtr record currentRecordId
              (rehydrateKey idKeyPattern currentObjId))
    as [added1 [Hlog1 [Hb1 [Hshape1 Hoff1]]]].
  destruct (negb (hasField record "_id")).
  { eexists _, added1. split; [reflexivity|]. repeat split; auto. discriminate. }
  destruct (negb (_canHashForCollectionCheck h record)).
  { eexists _, added1. split; [reflexivity|]. repeat split; auto. discriminate. }
  pose proof (checkMissingKeys_hasher h
                (validateRecord h w collPtr record currentRecordId
                   (rehydrateKey idKeyPattern currentObjId))
                collPtr record currentRecordId
                (rehydrateKey idKeyPattern currentObjId)) as Hh.
  destruct (checkMissingKeys_trace h
              (validateRecord h w collPtr record currentRecordId
                 (rehydrateKey idKeyPattern currentObjId))
              collPtr record currentRecordId
              (rehydrateKey idKeyPattern currentObjId))
    as [added2 [Hlog2 [Hb2 [Hshape2 Hoff2]]]].
  destruct (checkMissingKeys _ _ _ _ _ _) as [h2 w2].
  cbn [fst] in Hh. cbn [snd] in Hlog2, Hb2. rewrite Hh.
  exists w2, (added1 ++ added2).
  split; [destruct (now opCtx i >? deadline); reflexivity|].
  split; [now rewrite Hlog2, Hlog1, app_assoc|].
  split; [congruence|].
  split; [now apply Forall_app|].
  split; [discriminate|].
  intros _ Hoff. now rewrite Hoff1, Hoff2.
Qed.

Lemma itemEffect_Hashed_key (collPtr : Collection) (h h' : DbCheckHasher)
  (currentObjId : BSONObj) (currentRecordId : RecordId) :
  itemEffect collPtr h currentObjId currentRecordId = Hashed h' ->
  _lastKeySeen h' = rehydrateKey idKeyPattern currentObjId
  /\ _secondaryIndexCheckParameters h' = _secondaryIndexCheckParameters h.
Proof.
  forget_libraries.
  unfold itemEffect.
  destruct (findRecord collPtr currentRecordId) as [record|]; [|discriminate].
  destruct (negb (hasField record "_id")); [discriminate|].
  destruct (negb (_canHashForCollectionCheck h record)); [discriminate|].
  intro H. inversion H. clear H.
  destruct (isMissingIndexKeysMode (_secondaryIndexCheckParameters h));
    unfold probedHasher; hasher_fields; split; reflexivity.
Qed.

Lemma missingRecordEntries_parameters (h g : DbCheckHasher)
  (collPtr : Collection) (exec : PlanExecutorScript) :
  _secondaryIndexCheckParameters h = _secondaryIndexCheckParameters g ->
  missingRecordEntries h collPtr exec = missingRecordEntries g collPtr exec.
Proof.
  forget_libraries.
  intro H. unfold missingRecordEntries, missingRecordEntry. now rewrite H.
Qed.

(** Any run of the loop, with the prefix of the cursor it has processed:
    the digest input, the counters, [_lastKeySeen] and the health log are
    those of that prefix. *)
Lemma collectionCheckLoop_trace (opCtx : OperationContext)
  (collPtr : Collection) (deadline : Date_t) :
  forall (exec : PlanExecutorScript) (i : nat) (h : DbCheckHasher) (w : World),
  exists pre post added,
    exec = pre ++ post
    /\ _state (exitHasher (collectionCheckLoop opCtx collPtr deadline i h w exec))
       = _state h ++ List.concat (fetchedRecords collPtr pre)
    /\ _countDocsSeen
         (exitHasher (collectionCheckLoop opCtx collPtr deadline i h w exec))
       = _countDocsSeen h + Z.of_nat (List.length (fetchedRecords collPtr pre))
    /\ _bytesSeen
         (exitHasher (collectionCheckLoop opCtx collPtr deadline i h w exec))
       = _bytesSeen h + sumZ (map objsize (fetchedRecords collPtr pre))
    /\ _lastKeySeen
         (exitHasher (collectionCheckLoop opCtx collPtr deadline i h w exec))
       = last (fetchedKeys collPtr pre) (_lastKeySeen h)
    /\ match collectionCheckLoop opCtx collPtr deadline i h w exec with
       | ExitEOF ha _ => post = [] /\ _exec ha = []
       | _ => True
       end
    /\ healthLog (exitWorld (collectionCheckLoop opCtx collPtr deadline i h w exec))
       = healthLog w ++ added
    /\ batchesProcessed
         (exitWorld (collectionCheckLoop opCtx collPtr deadline i h w exec))
       = batchesProcessed w
    /\ Forall (scanEntryShape collPtr (_secondaryIndexCheckParameters h)) added
    /\ (isMissingIndexKeysMode (_secondaryIndexCheckParameters h) = false ->
        added = missingRecordEntries h collPtr pre).
Proof.
  forget_libraries.
  induction exec as [|g rest IH]; intros i h w.
  - exists [], [], []. cbn. rewrite !app_nil_r.
    repeat split; auto; lia.
  - destruct g as [objId rid|e].
    2:{ exists [], (GetNextThrows e :: rest), []. cbn. rewrite !app_nil_r.
        repeat split; auto; lia. }
    cbn [collectionCheckLoop].
    destruct (collectionCheckBody_trace opCtx collPtr deadline i (set_exec h rest)
                w objId rid)
      as [w' [added [Hb [Hlog [Hbatches [Hshape [Hbad Hoff]]]]]]].
    rewrite Hb. clear Hb. unfold controlOf.
    cbn [set_exec _secondaryIndexCheckParameters] in Hoff.
    destruct (isOK (checkForInterruptNoAssert opCtx i)) eqn:Hint; cbn [negb].
    2:{ exists [], (Advanced objId rid :: rest), []. cbn.
        rewrite (Hbad eq_refl) in Hlog. rewrite !app_nil_r in *.
        repeat split; auto; lia. }
    specialize (Hoff eq_refl). clear Hbad.
    destruct (itemEffect collPtr (set_exec h rest) objId rid) as [|s|h'] eqn:He.
    + apply itemEffect_Skipped in He.
      destruct (IH (S i) (set_exec h rest) w')
        as [pre [post [added' [Hsplit [Hst [Hdocs [Hbytes [Hkey [Heof
             [Hlog' [Hbatches' [Hshape' Hoff']]]]]]]]]]]].
      cbn [set_exec _state _countDocsSeen _bytesSeen _lastKeySeen
           _secondaryIndexCheckParameters] in *.
      exists (Advanced objId rid :: pre), post, (added ++ added').
      unfold fetchedRecords, fetchedKeys, missingRecordEntries.
      cbn [flat_map]. rewrite He. cbn [app].
      split; [now rewrite Hsplit|].
      split; [exact Hst|]. split; [exact Hdocs|]. split; [exact Hbytes|].
      split; [exact Hkey|]. split; [exact Heof|].
      split; [now rewrite Hlog', Hlog, app_assoc|].
      split; [congruence|].
      split; [now apply Forall_app|].
      intro Hmode. rewrite (Hoff Hmode), He, (Hoff' Hmode). cbn [app].
      f_equal.
    + exists [], (Advanced objId rid :: rest), added. cbn.
      rewrite !app_nil_r.
      split; [reflexivity|]. split; [reflexivity|]. split; [lia|].
      split; [lia|]. split; [reflexivity|]. split; [exact I|].
      split; [exact Hlog|]. split; [exact Hbatches|]. split; [exact Hshape|].
      intro Hmode. rewrite (Hoff Hmode).
      apply itemEffect_Refused in He. destruct He as [record [Hrec _]].
      now rewrite Hrec.
    + pose proof (itemEffect_Hashed_key _ _ _ _ _ He) as [Hk Hp].
      apply itemEffect_Hashed in He.
      destruct He as [record [Hrec [_ [_ [Hstate [Hd [Hby _]]]]]]].
      cbn [set_exec _state _countDocsSeen _bytesSeen _lastKeySeen
           _secondaryIndexCheckParameters] in *.
      assert (Hadded : isMissingIndexKeysMode (_secondaryIndexCheckParameters h)
                       = false -> added = []).
      { intro Hmode. rewrite (Hoff Hmode), Hrec. reflexivity. }
      destruct (now opCtx i >? deadline).
      * exists [Advanced objId rid], rest, added.
        unfold fetchedRecords, fetchedKeys, missingRecordEntries.
        cbn [flat_map exitHasher exitWorld]. rewrite Hrec.
        cbn [app List.concat List.length map sumZ fold_right last].
        rewrite !app_nil_r.
        split; [reflexivity|]. split; [exact Hstate|].
        split; [lia|]. split; [unfold sumZ; cbn; lia|].
        split; [exact Hk|]. split; [exact I|].
        split; [exact Hlog|]. split; [exact Hbatches|].
        split; [exact Hshape|exact Hadded].
      * destruct (IH (S i) h' w')
          as [pre [post [added' [Hsplit [Hst [Hdocs [Hbytes [Hkey [Heof
               [Hlog' [Hbatches' [Hshape' Hoff']]]]]]]]]]]].
        rewrite Hp in Hshape', Hoff'.
        exists (Advanced objId rid :: pre), post, (added ++ added').
        unfold fetchedRecords, fetchedKeys, missingRecordEntries.
        cbn [flat_map]. rewrite Hrec. cbn [app].
        fold (fetchedRecords collPtr pre). fold (fetchedKeys collPtr pre).
        fold (missingRecordEntries h collPtr pre).
        split; [now rewrite Hsplit|].
        split; [rewrite Hst, Hstate; cbn [List.concat]; now rewrite app_assoc|].
        split; [rewrite Hdocs, Hd; cbn [List.length]; lia|].
        split; [rewrite Hbytes, Hby; unfold sumZ; cbn [map fold_right]; lia|].
        split; [rewrite Hkey, Hk; now rewrite last_cons_default|].
        split; [exact Heof|].
        split; [now rewrite Hlog', Hlog, app_assoc|].
        split; [congruence|].
        split; [now apply Forall_app|].
        intro Hmode. rewrite (Hadded Hmode). cbn [app].
        rewrite (Hoff' Hmode).
        now apply missingRecordEntries_parameters.
Qed.

Lemma length_concat_sum (l : list (list byte)) :
  Z.of_nat (List.length (List.concat l))
  = sumZ (map (fun r => Z.of_nat (List.length r)) l).
Proof.
  forget_libraries.
  induction l as [|r l IH]; [reflexivity|].
  cbn [List.concat map]. rewrite length_app, Nat2Z.inj_add, IH. reflexivity.
Qed.

(** The errors a run of the loop can end in. *)
Lemma collectionCheckLoop_errors (opCtx : OperationContext)
  (collPtr : Collection) (deadline : Date_t) :
  forall (exec : PlanExecutorScript) (i : nat) (h : DbCheckHasher) (w : World),
    match collectionCheckLoop opCtx collPtr deadline i h w exec with
    | ExitThrow e _ _ =>
        In (GetNextThrows e) exec
        \/ exists j, e = checkForInterruptNoAssert opCtx j /\ isOK e = false
    | ExitReturn s _ _ =>
        s = Status_OK
        \/ exists objId rid record,
             In (Advanced objId rid) exec
             /\ findRecord collPtr rid = Some record
             /\ hasField record "_id" = false
             /\ s = missingIdStatus rid
    | _ => True
    end.
Proof.
  forget_libraries.
  induction exec as [|g rest IH]; intros i h w.
  - exact I.
  - destruct g as [objId rid|e]; [|left; left; reflexivity].
    destruct (collectionCheckLoop_step opCtx collPtr deadline i h w objId rid rest)
      as [w' Hstep].
    rewrite Hstep. clear Hstep.
    destruct (isOK (checkForInterruptNoAssert opCtx i)) eqn:Hint; cbn [negb].
    2:{ right. exists i. auto. }
    assert (Hrest : forall h1 w1,
               match collectionCheckLoop opCtx collPtr deadline (S i) h1 w1 rest with
               | ExitThrow e _ _ =>
                   In (GetNextThrows e) (Advanced objId rid :: rest)
                   \/ exists j, e = checkForInterruptNoAssert opCtx j
                                /\ isOK e = false
               | ExitReturn s _ _ =>
                   s = Status_OK
                   \/ exists objId0 rid0 record,
                        In (Advanced objId0 rid0) (Advanced objId rid :: rest)
                        /\ findRecord collPtr rid0 = Some record
                        /\ hasField record "_id" = false
                        /\ s = missingIdStatus rid0
               | _ => True
               end).
    { intros h1 w1. specialize (IH (S i) h1 w1).
      destruct (collectionCheckLoop opCtx collPtr deadline (S i) h1 w1 rest)
        as [| |s ha wa|e ha wa]; auto.
      - destruct IH as [IH|[o [r [record [Hin IH]]]]]; [now left|].
        right. exists o, r, record. split; [now right|exact IH].
      - destruct IH as [IH|IH]; [left; now right|now right]. }
    destruct (itemEffect collPtr (set_exec h rest) objId rid) as [|s|h'] eqn:He.
    + apply Hrest.
    + apply itemEffect_Refused in He.
      destruct He as [record [Hrec [[Hid Hs]|[_ [_ Hs]]]]]; [|now left].
      right. exists objId, rid, record. split; [now left|auto].
    + destruct (now opCtx i >? deadline); [exact I|apply Hrest].
Qed.

(** *** Properties of a scan of a collection range *)

(** X6. What the counters and the last key of a collection scan account
    for.  However a call of [hashForCollectionCheck] ends, there is a
    prefix of the cursor such that the digest input has grown by the
    records behind that prefix, in order; [docsSeen] has grown by their
    number; [bytesSeen] has grown by the sum of their [objsize], which is
    the number of bytes hashed whenever every record is as long as its
    [objsize] says; and [lastKeySeen] is the rehydrated _id key of the last
    item of the prefix that has a record (unchanged when there is none),
    unless the cursor ran out, in which case the call returns OK with
    nothing left in the cursor and [lastKeySeen] is the end key. *)
Theorem collection_scan_accounting (opCtx : OperationContext)
  (collPtr : Collection) (deadline : Date_t) (h : DbCheckHasher) (w : World) :
  let '(outcome, h', _) := hashForCollectionCheck opCtx collPtr deadline h w in
  exists pre post,
    let hashed := fetchedRecords collPtr pre in
    _exec h = pre ++ post
    /\ _state h' = _state h ++ List.concat hashed
    /\ docsSeen h' = docsSeen h + Z.of_nat (List.length hashed)
    /\ bytesSeen h' = bytesSeen h + sumZ (map objsize hashed)
    /\ ((forall record, In record hashed ->
           objsize record = Z.of_nat (List.length record)) ->
        bytesSeen h' - bytesSeen h
        = Z.of_nat (List.length (_state h')) - Z.of_nat (List.length (_state h)))
    /\ (lastKeySeen h' = last (fetchedKeys collPtr pre) (lastKeySeen h)
        \/ (outcome = Returned Status_OK /\ post = [] /\ _exec h' = []
            /\ lastKeySeen h' = _maxKey h)).
Proof.
  forget_libraries.
  unfold hashForCollectionCheck, docsSeen, bytesSeen, lastKeySeen.
  destruct (collectionCheckLoop_trace opCtx collPtr deadline (_exec h) 0 h w)
    as [pre [post [added [Hsplit [Hst [Hdocs [Hbytes [Hkey [Heof _]]]]]]]]].
  pose proof (collectionCheckLoop_maxima opCtx collPtr deadline (_exec h) 0 h w)
    as [_ [_ Hmax]].
  assert (Hlen : forall h1,
             _state h1 = _state h ++ List.concat (fetchedRecords collPtr pre) ->
             _bytesSeen h1
             = _bytesSeen h + sumZ (map objsize (fetchedRecords collPtr pre)) ->
             (forall record, In record (fetchedRecords collPtr pre) ->
                objsize record = Z.of_nat (List.length record)) ->
             _bytesSeen h1 - _bytesSeen h
             = Z.of_nat (List.length (_state h1))
               - Z.of_nat (List.length (_state h))).
  { intros h1 Hs Hb Hsize. rewrite Hs, Hb, length_app, Nat2Z.inj_add.
    rewrite length_concat_sum.
    enough (E : sumZ (map objsize (fetchedRecords collPtr pre))
                = sumZ (map (fun r : list byte => Z.of_nat (List.length r))
                          (fetchedRecords collPtr pre))) by lia.
    f_equal. apply map_ext_in. exact Hsize. }
  destruct (collectionCheckLoop opCtx collPtr deadline 0 h w (_exec h))
    as [ha wa|ha wa|s ha wa|e ha wa];
    cbn [exitHasher] in *; exists pre, post; cbn zeta;
    (split; [exact Hsplit|]); hasher_fields;
    (split; [exact Hst|]); (split; [exact Hdocs|]); (split; [exact Hbytes|]).
  - split.
    + intro Hsize.
      pose proof (Hlen (set_lastKeySeen ha (_maxKey ha)) Hst Hbytes Hsize) as H.
      exact H.
    + right. destruct Heof as [Hpost Hexec]. rewrite Hmax. auto.
  - split; [now apply Hlen|now left].
  - split; [now apply Hlen|now left].
  - split; [now apply Hlen|now left].
Qed.

(** X7. What a collection scan writes to the health log.  A call of
    [hashForCollectionCheck] only appends to the health log and never
    touches the counter of processed batches.  Every entry it appends is
    filed for the batch operation under the namespace and UUID of the
    collection, as an Error of scope Document, except that BSON which does
    not conform is a Warning of scope Cluster, and its data end with the
    parameters of the check when the hasher has them.  Outside the
    missing-index-keys mode the entries are exactly one "Error fetching
    record from record id" for each item without a record among the prefix
    of the cursor whose records were hashed, in cursor order. *)
Theorem collection_scan_health_log (opCtx : OperationContext)
  (collPtr : Collection) (deadline : Date_t) (h : DbCheckHasher) (w : World) :
  let '(_, h', w') := hashForCollectionCheck opCtx collPtr deadline h w in
  exists added,
    healthLog w' = healthLog w ++ added
    /\ batchesProcessed w' = batchesProcessed w
    /\ Forall (scanEntryShape collPtr (_secondaryIndexCheckParameters h)) added
    /\ (isMissingIndexKeysMode (_secondaryIndexCheckParameters h) = false ->
        exists pre post,
          _exec h = pre ++ post
          /\ _state h' = _state h ++ List.concat (fetchedRecords collPtr pre)
          /\ added = missingRecordEntries h collPtr pre
          /\ Forall (fun e => getMsg e = "Error fetching record from record id"%string
                              /\ getSeverity e = SeverityEnum.Error) added).
Proof.
  forget_libraries.
  unfold hashForCollectionCheck.
  destruct (collectionCheckLoop_trace opCtx collPtr deadline (_exec h) 0 h w)
    as [pre [post [added [Hsplit [Hst [_ [_ [_ [_ [Hlog [Hb [Hshape Hoff]]]]]]]]]]]].
  assert (Hmsg : Forall (fun e => getMsg e = "Error fetching record from record id"%string
                                  /\ getSeverity e = SeverityEnum.Error)
                   (missingRecordEntries h collPtr pre)).
  { unfold missingRecordEntries. apply Forall_forall. intros e Hin.
    apply in_flat_map in Hin. destruct Hin as [g [_ Hin]].
    destruct g as [objId rid|e']; [|destruct Hin].
    destruct (findRecord collPtr rid); [destruct Hin|].
    destruct Hin as [Hin|[]]. subst e. split; reflexivity. }
  destruct (collectionCheckLoop opCtx collPtr deadline 0 h w (_exec h))
    as [ha wa|ha wa|s ha wa|e ha wa];
    cbn [exitHasher exitWorld] in *; exists added;
    (split; [exact Hlog|]); (split; [exact Hb|]); (split; [exact Hshape|]);
    intro Hmode; exists pre, post; hasher_fields;
    (split; [exact Hsplit|]); (split; [exact Hst|]);
    rewrite (Hoff Hmode); (split; [reflexivity|exact Hmsg]).
Qed.

(** X8. How a collection scan can fail.  [hashForCollectionCheck] throws
    only an exception of the cursor's [getNext] or the status of an
    interruption check that did not pass.  It returns OK, or NoSuchKey for a
    fetched document that has no _id field; in particular it never returns
    KeyNotFound. *)
Theorem collection_scan_errors (opCtx : OperationContext)
  (collPtr : Collection) (deadline : Date_t) (h : DbCheckHasher) (w : World) :
  let '(outcome, _, _) := hashForCollectionCheck opCtx collPtr deadline h w in
  (forall e,
      outcome = Thrown e ->
      In (GetNextThrows e) (_exec h)
      \/ exists j, e = checkForInterruptNoAssert opCtx j /\ isOK e = false)
  /\ (forall s,
        outcome = Returned s ->
        s = Status_OK
        \/ exists objId rid record,
             In (Advanced objId rid) (_exec h)
             /\ findRecord collPtr rid = Some record
             /\ hasField record "_id" = false
             /\ s = mkStatus ErrorCodes.NoSuchKey
                      ("Document with record ID "
                         ++ RecordId_toString rid ++ " missing _id"))
  /\ (forall s, outcome = Returned s -> code s <> ErrorCodes.KeyNotFound).
Proof.
  forget_libraries.
  unfold hashForCollectionCheck.
  pose proof (collectionCheckLoop_errors opCtx collPtr deadline (_exec h) 0 h w)
    as H.
  destruct (collectionCheckLoop opCtx collPtr deadline 0 h w (_exec h))
    as [ha wa|ha wa|s ha wa|e ha wa].
  - split; [discriminate|].
    split; intros s Hs; inversion Hs; [now left|discriminate].
  - split; [discriminate|].
    split; intros s Hs; inversion Hs; [now left|discriminate].
  - split; [discriminate|].
    split; intros s' Hs; inversion Hs; subst s'; [exact H|].
    destruct H as [H|[o [r [record [_ [_ [_ H]]]]]]]; subst s; discriminate.
  - split; [intros e' He; inversion He; subst e'; exact H|].
    split; discriminate.
Qed.

(** *** Properties of a scan of an index range *)

Lemma extraIndexKeysLoop_world (opCtx : OperationContext) (endKey : list byte)
  (endPos : EndPosition) :
  forall (pos : SortedData) (i : nat) (h : DbCheckHasher) (w : World),
    healthLog (exitWorld (extraIndexKeysLoop opCtx endKey endPos i h w pos))
    = healthLog w
    /\ batchesProcessed
         (exitWorld (extraIndexKeysLoop opCtx endKey endPos i h w pos))
       = batchesProcessed w.
Proof.
  forget_libraries.
  induction pos as [|e rest IH]; intros i h w.
  - split; reflexivity.
  - cbn [extraIndexKeysLoop].
    destruct (withinEnd endPos e); [|split; reflexivity].
    rewrite extraIndexKeysBody_absorb.
    destruct (negb (isOK (checkForInterruptNoAssert opCtx i)));
      [split; reflexivity|].
    specialize (IH (S i) (absorbEntry endKey h e)
                  (logDebug w (mkLogLine 7844907 3))).
    destruct (key_string_compare (keyBytes (keyString e)) endKey);
      try exact IH.
    destruct (_nConsecutiveIdenticalIndexKeysSeenAtEnd h + 1
              >=? dbCheckMaxConsecutiveIdenticalIndexKeysPerSnapshot opCtx);
      [split; reflexivity|exact IH].
Qed.

Lemma extraIndexKeysLoop_errors (opCtx : OperationContext) (endKey : list byte)
  (endPos : EndPosition) :
  forall (pos : SortedData) (i : nat) (h : DbCheckHasher) (w : World),
    match extraIndexKeysLoop opCtx endKey endPos i h w pos with
    | ExitThrow e _ _ =>
        exists j, e = checkForInterruptNoAssert opCtx j /\ isOK e = false
    | _ => True
    end.
Proof.
  forget_libraries.
  induction pos as [|e rest IH]; intros i h w.
  - exact I.
  - cbn [extraIndexKeysLoop].
    destruct (withinEnd endPos e); [|exact I].
    rewrite extraIndexKeysBody_absorb.
    destruct (isOK (checkForInterruptNoAssert opCtx i)) eqn:Hint; cbn [negb].
    2:{ exists i. auto. }
    specialize (IH (S i) (absorbEntry endKey h e)
                  (logDebug w (mkLogLine 7844907 3))).
    destruct (key_string_compare (keyBytes (keyString e)) endKey);
      try exact IH.
    destruct (_nConsecutiveIdenticalIndexKeysSeenAtEnd h + 1
              >=? dbCheckMaxConsecutiveIdenticalIndexKeysPerSnapshot opCtx);
      [exact I|exact IH].
Qed.

(** The keys equal to the end key among what a scan consumes stay within
    the ceiling, which counts for at least one. *)
Lemma untilCeiling_count (endKey : list byte) (ceiling : Z) :
  forall (range : SortedData) (n : Z),
    n + Z.of_nat (countEqual endKey (untilCeiling endKey ceiling n range))
    <= Z.max (n + 1) ceiling.
Proof.
  forget_libraries.
  induction range as [|e rest IH]; intro n.
  - cbn. lia.
  - cbn [untilCeiling]. unfold countEqual in *. unfold entryBytes in *.
    destruct (key_string_compare (keyBytes (keyString e)) endKey) eqn:Hcmp.
    + destruct (n + 1 >=? ceiling) eqn:Hc.
      * cbn [filter]. rewrite Hcmp. cbn. lia.
      * cbn [filter]. rewrite Hcmp. cbn [List.length].
        specialize (IH (n + 1)). lia.
    + cbn [filter]. rewrite Hcmp. specialize (IH n). lia.
    + cbn [filter]. rewrite Hcmp. specialize (IH n). lia.
Qed.

Lemma length_entryBytes (l : SortedData) :
  Z.of_nat (List.length (flat_map entryBytes l)) = sumZ (map entrySize l).
Proof.
  forget_libraries.
  induction l as [|e l IH]; [reflexivity|].
  cbn [flat_map map]. rewrite length_app, Nat2Z.inj_add, IH. reflexivity.
Qed.

(** X9. What the counters of an index scan account for.  When
    [hashForExtraIndexKeysCheck] returns, with [consumed] the entries of the
    range up to the ceiling on keys equal to the end key: [bytesSeen] has
    grown by exactly the number of bytes folded into the digest;
    [nConsecutiveIdenticalIndexKeysSeenAtEnd] is the number of consumed keys
    equal to the end key, counted from zero whatever it was before, and is
    at most the ceiling (at most 1 for a ceiling below 1); [docsSeen] is
    untouched; and, for a hasher whose key counter is not negative,
    [lastKeySeen] is the key of the last consumed entry, the end key when
    nothing has ever been consumed, and unchanged otherwise. *)
Theorem index_scan_accounting (opCtx : OperationContext)
  (iam : IndexCatalogEntry) (batchStartBson batchEndBson : BSONObj)
  (h : DbCheckHasher) (w : World) :
  let endKey := bsonToKeyString batchEndBson in
  let ceiling := dbCheckMaxConsecutiveIdenticalIndexKeysPerSnapshot opCtx in
  let consumed :=
    untilCeiling endKey ceiling 0
      (scannedRange (sortedData iam) (bsonToKeyString batchStartBson) endKey) in
  let '(outcome, h', _) :=
    hashForExtraIndexKeysCheck opCtx iam batchStartBson batchEndBson h w in
  forall s,
    outcome = Returned s ->
    _state h' = _state h ++ flat_map entryBytes consumed
    /\ bytesSeen h' - bytesSeen h
       = Z.of_nat (List.length (_state h')) - Z.of_nat (List.length (_state h))
    /\ keysSeen h' = keysSeen h + Z.of_nat (List.length consumed)
    /\ docsSeen h' = docsSeen h
    /\ nConsecutiveIdenticalIndexKeysSeenAtEnd h'
       = Z.of_nat (countEqual endKey consumed)
    /\ 0 <= nConsecutiveIdenticalIndexKeysSeenAtEnd h' <= Z.max 1 ceiling
    /\ (0 <= keysSeen h ->
        lastKeySeen h'
        = match rev consumed with
          | e :: _ => keyStringToBson (keyString e)
          | [] => if keysSeen h =? 0 then _maxKey h else lastKeySeen h
          end).
Proof.
  forget_libraries.
  cbn zeta.
  unfold hashForExtraIndexKeysCheck, bytesSeen, keysSeen, docsSeen,
    nConsecutiveIdenticalIndexKeysSeenAtEnd, lastKeySeen.
  pose proof (extraIndexKeysLoop_returned opCtx (bsonToKeyString batchEndBson)
                (Some (bsonToKeyString batchEndBson, true))
                (seekPosition (sortedData iam)
                   (mkKeyString (bsonToKeyString batchStartBson) None))
                0 (set_nConsecutive h 0) (logDebug w (mkLogLine 8065400 3)))
    as Hret.
  cbn [set_nConsecutive _nConsecutiveIdenticalIndexKeysSeenAtEnd] in Hret.
  fold (scannedRange (sortedData iam) (bsonToKeyString batchStartBson)
          (bsonToKeyString batchEndBson)) in Hret.
  set (consumed := untilCeiling (bsonToKeyString batchEndBson)
                     (dbCheckMaxConsecutiveIdenticalIndexKeysPerSnapshot opCtx) 0
                     (scannedRange (sortedData iam)
                        (bsonToKeyString batchStartBson)
                        (bsonToKeyString batchEndBson))) in *.
  pose proof (untilCeiling_count (bsonToKeyString batchEndBson)
                (dbCheckMaxConsecutiveIdenticalIndexKeysPerSnapshot opCtx)
                (scannedRange (sortedData iam)
                   (bsonToKeyString batchStartBson)
                   (bsonToKeyString batchEndBson)) 0) as Hcount.
  fold consumed in Hcount.
  set (ha := fold_left (absorbEntry (bsonToKeyString batchEndBson)) consumed
               (set_nConsecutive h 0)) in *.
  assert (Hst : _state ha = _state h ++ flat_map entryBytes consumed).
  { unfold ha. now rewrite absorbEntry_fold_state. }
  assert (Hby : _bytesSeen ha = _bytesSeen h + sumZ (map entrySize consumed)).
  { unfold ha. now rewrite absorbEntry_fold_bytes. }
  assert (Hk : _countKeysSeen ha
               = _countKeysSeen h + Z.of_nat (List.length consumed)).
  { unfold ha. now rewrite absorbEntry_fold_keys. }
  assert (Hd : _countDocsSeen ha = _countDocsSeen h).
  { unfold ha. now rewrite absorbEntry_fold_docs. }
  assert (Hn : _nConsecutiveIdenticalIndexKeysSeenAtEnd ha
               = Z.of_nat (countEqual (bsonToKeyString batchEndBson) consumed)).
  { unfold ha. now rewrite absorbEntry_fold_nConsecutive. }
  assert (Hl : _lastKeySeen ha
               = match rev consumed with
                 | [] => _lastKeySeen h
                 | e :: _ => keyStringToBson (keyString e)
                 end).
  { unfold ha. now rewrite absorbEntry_fold_lastKeySeen. }
  assert (Hm : _maxKey ha = _maxKey h).
  { unfold ha. now rewrite absorbEntry_fold_maxKey. }
  clearbody ha. clearbody consumed.
  assert (Hfinish :
              let h' := if _countKeysSeen ha =? 0
                        then set_lastKeySeen ha (_maxKey ha) else ha in
              _state h' = _state h ++ flat_map entryBytes consumed
              /\ _bytesSeen h' - _bytesSeen h
                 = Z.of_nat (List.length (_state h'))
                   - Z.of_nat (List.length (_state h))
              /\ _countKeysSeen h'
                 = _countKeysSeen h + Z.of_nat (List.length consumed)
              /\ _countDocsSeen h' = _countDocsSeen h
              /\ _nConsecutiveIdenticalIndexKeysSeenAtEnd h'
                 = Z.of_nat (countEqual (bsonToKeyString batchEndBson) consumed)
              /\ 0 <= _nConsecutiveIdenticalIndexKeysSeenAtEnd h'
                 <= Z.max 1
                      (dbCheckMaxConsecutiveIdenticalIndexKeysPerSnapshot opCtx)
              /\ (0 <= _countKeysSeen h ->
                  _lastKeySeen h'
                  = match rev consumed with
                    | e :: _ => keyStringToBson (keyString e)
                    | [] =>
                        if _countKeysSeen h =? 0 then _maxKey h
                        else _lastKeySeen h
                    end)).
  { cbn zeta.
    assert (Hlast : 0 <= _countKeysSeen h ->
                    _lastKeySeen
                      (if _countKeysSeen ha =? 0
                       then set_lastKeySeen ha (_maxKey ha) else ha)
                    = match rev consumed with
                      | e :: _ => keyStringToBson (keyString e)
                      | [] =>
                          if _countKeysSeen h =? 0 then _maxKey h
                          else _lastKeySeen h
                      end).
    { intro Hpos. rewrite Hk.
      destruct consumed as [|e0 rest0] eqn:Hcons.
      - cbn [List.length rev]. rewrite Z.add_0_r.
        destruct (_countKeysSeen h =? 0); hasher_fields; [exact Hm|].
        rewrite Hl. reflexivity.
      - assert (Hnz : (_countKeysSeen h + Z.of_nat (List.length (e0 :: rest0))
                       =? 0) = false).
        { apply Z.eqb_neq. cbn [List.length]. lia. }
        rewrite Hnz, Hl.
        destruct (rev (e0 :: rest0)) eqn:Hrev; [|reflexivity].
        apply (f_equal (@List.length _)) in Hrev.
        rewrite length_rev in Hrev. discriminate. }
    destruct (_countKeysSeen ha =? 0); hasher_fields;
      (split; [exact Hst|]);
      (split; [rewrite Hst, Hby, length_app, Nat2Z.inj_add, length_entryBytes;
               lia|]);
      (split; [exact Hk|]); (split; [exact Hd|]); (split; [exact Hn|]);
      (split; [rewrite Hn; lia|]); exact Hlast. }
  destruct (extraIndexKeysLoop opCtx (bsonToKeyString batchEndBson)
              (Some (bsonToKeyString batchEndBson, true)) 0
              (set_nConsecutive h 0) (logDebug w (mkLogLine 8065400 3))
              (seekPosition (sortedData iam)
                 (mkKeyString (bsonToKeyString batchStartBson) None)))
    as [h1 w1|h1 w1|s1 h1 w1|e1 h1 w1].
  - subst h1. unfold extraIndexKeysFinish. cbv beta iota zeta.
    intros s _. exact Hfinish.
  - subst h1. unfold extraIndexKeysFinish. cbv beta iota zeta.
    intros s _. exact Hfinish.
  - destruct Hret.
  - intros s Hs. discriminate.
Qed.

(** X10. How an index scan can fail, and what it never writes.
    [hashForExtraIndexKeysCheck] returns no status other than OK and throws
    only the status of an interruption check that did not pass; when every
    check passes it returns.  It writes nothing to the health log, whatever
    it finds in the index, and does not touch the counter of processed
    batches; its result does not depend on the run length the hasher held
    before the call. *)
Theorem index_scan_errors (opCtx : OperationContext)
  (iam : IndexCatalogEntry) (batchStartBson batchEndBson : BSONObj)
  (h : DbCheckHasher) (w : World) :
  let '(outcome, _, w') :=
    hashForExtraIndexKeysCheck opCtx iam batchStartBson batchEndBson h w in
  (forall s, outcome = Returned s -> s = Status_OK)
  /\ (forall e,
        outcome = Thrown e ->
        exists j, e = checkForInterruptNoAssert opCtx j /\ isOK e = false)
  /\ ((forall j, isOK (checkForInterruptNoAssert opCtx j) = true) ->
      outcome = Returned Status_OK)
  /\ healthLog w' = healthLog w
  /\ batchesProcessed w' = batchesProcessed w
  /\ (forall n,
        hashForExtraIndexKeysCheck opCtx iam batchStartBson batchEndBson
          (set_nConsecutive h n) w
        = hashForExtraIndexKeysCheck opCtx iam batchStartBson batchEndBson h w).
Proof.
  forget_libraries.
  assert (Hreset : forall n,
             hashForExtraIndexKeysCheck opCtx iam batchStartBson batchEndBson
               (set_nConsecutive h n) w
             = hashForExtraIndexKeysCheck opCtx iam batchStartBson batchEndBson
                 h w).
  { intro n. unfold hashForExtraIndexKeysCheck.
    replace (set_nConsecutive (set_nConsecutive h n) 0)
      with (set_nConsecutive h 0) by (destruct h; reflexivity).
    reflexivity. }
  pose proof (hashForExtraIndexKeysCheck_absorbs opCtx iam batchStartBson
                batchEndBson h w) as Habs.
  cbn zeta in Habs.
  destruct (hashForExtraIndexKeysCheck opCtx iam batchStartBson batchEndBson h w)
    as [[outcome h'] w'] eqn:Hrun.
  unfold hashForExtraIndexKeysCheck in Hrun.
  pose proof (extraIndexKeysLoop_world opCtx (bsonToKeyString batchEndBson)
                (Some (bsonToKeyString batchEndBson, true))
                (seekPosition (sortedData iam)
                   (mkKeyString (bsonToKeyString batchStartBson) None))
                0 (set_nConsecutive h 0) (logDebug w (mkLogLine 8065400 3)))
    as [Hlog Hb].
  pose proof (extraIndexKeysLoop_errors opCtx (bsonToKeyString batchEndBson)
                (Some (bsonToKeyString batchEndBson, true))
                (seekPosition (sortedData iam)
                   (mkKeyString (bsonToKeyString batchStartBson) None))
                0 (set_nConsecutive h 0) (logDebug w (mkLogLine 8065400 3)))
    as Herr.
  pose proof (extraIndexKeysLoop_returned opCtx (bsonToKeyString batchEndBson)
                (Some (bsonToKeyString batchEndBson, true))
                (seekPosition (sortedData iam)
                   (mkKeyString (bsonToKeyString batchStartBson) None))
                0 (set_nConsecutive h 0) (logDebug w (mkLogLine 8065400 3)))
    as Hret.
  destruct (extraIndexKeysLoop opCtx (bsonToKeyString batchEndBson)
              (Some (bsonToKeyString batchEndBson, true)) 0
              (set_nConsecutive h 0) (logDebug w (mkLogLine 8065400 3))
              (seekPosition (sortedData iam)
                 (mkKeyString (bsonToKeyString batchStartBson) None)))
    as [h1 w1|h1 w1|s1 h1 w1|e1 h1 w1];
    cbn [exitWorld] in *.
  - unfold extraIndexKeysFinish in Hrun.
    injection Hrun as Ho Hh Hw. subst outcome h' w'.
    cbn [logDebug healthLog batchesProcessed].
    split; [intros s Hs; now inversion Hs|]. split; [discriminate|].
    split; [reflexivity|]. split; [exact Hlog|]. split; [exact Hb|exact Hreset].
  - unfold extraIndexKeysFinish in Hrun.
    injection Hrun as Ho Hh Hw. subst outcome h' w'.
    cbn [logDebug healthLog batchesProcessed].
    split; [intros s Hs; now inversion Hs|]. split; [discriminate|].
    split; [reflexivity|]. split; [exact Hlog|]. split; [exact Hb|exact Hreset].
  - destruct Hret.
  - injection Hrun as Ho Hh Hw. subst outcome h' w'.
    split; [discriminate|].
    split; [intros e He; inversion He; subst e; exact Herr|].
    split.
    { intro Hok. destruct (Habs Hok) as [w' [_ Habs']]. discriminate. }
    split; [exact Hlog|]. split; [exact Hb|exact Hreset].
Qed.

(** *** The probe of an expected key *)

Lemma compareKeyString_refl (k : KeyString) : compareKeyString k k = Eq.
Proof.
  forget_libraries.
  unfold compareKeyString. rewrite key_string_compare_refl.
  destruct (ksRecordId k); [apply Z.compare_refl|reflexivity].
Qed.

(** A seek lands on the first entry that is not before the search key. *)
Lemma seekPosition_first (key : KeyString) (e : KeyStringEntry)
  (after : SortedData) :
  forall before : SortedData,
    Forall (fun e' => compareKeyString (keyString e') key = Lt) before ->
    compareKeyString (keyString e) key <> Lt ->
    seekPosition (before ++ e :: after) key = e :: after.
Proof.
  forget_libraries.
  induction before as [|a before IH]; intros Hbefore He.
  - cbn [app seekPosition].
    destruct (compareKeyString (keyString e) key); congruence.
  - inversion Hbefore as [|? ? Ha Hrest]. subst.
    cbn [app seekPosition]. rewrite Ha. now apply IH.
Qed.

Lemma keyIsMissing_first (key : KeyString) (rid : RecordId)
  (e : KeyStringEntry) (before after : SortedData) :
  Forall (fun e' => compareKeyString (keyString e') key = Lt) before ->
  compareKeyString (keyString e) key <> Lt ->
  keyIsMissing (before ++ e :: after) key rid = negb (loc e =? rid).
Proof.
  forget_libraries.
  intros Hbefore He. unfold keyIsMissing, seekForKeyString.
  rewrite (seekPosition_first key e after before Hbefore He). reflexivity.
Qed.

Lemma strictlySorted_before (e : KeyStringEntry) (after : SortedData) :
  forall before : SortedData,
    strictlySorted (before ++ e :: after) ->
    Forall (fun e' => compareKeyString (keyString e') (keyString e) = Lt) before.
Proof.
  forget_libraries.
  induction before as [|a before IH]; intro Hsorted; [constructor|].
  cbn [app strictlySorted] in Hsorted. destruct Hsorted as [Ha Hrest].
  constructor; [|now apply IH].
  rewrite Forall_forall in Ha. apply Ha. apply in_or_app. right. now left.
Qed.

Lemma strictlySorted_after (e : KeyStringEntry) (after : SortedData) :
  forall before : SortedData,
    strictlySorted (before ++ e :: after) ->
    Forall (fun e' => compareKeyString (keyString e) (keyString e') = Lt) after.
Proof.
  forget_libraries.
  induction before as [|a before IH]; intro Hsorted.
  - cbn [app strictlySorted] in Hsorted. tauto.
  - cbn [app strictlySorted] in Hsorted. apply IH. tauto.
Qed.

(** X11. A key that is in the index is never reported.  In an index table
    in strict key-string order that holds an entry of the document for an
    expected key, the probe of [validateMissingKeys] does not report the
    key: both for a key searched with the RecordId of the document appended
    (an index that is not unique), and for a key searched without RecordId
    (a unique index) when no other entry of the table has the same key
    bytes. *)
Theorem present_key_not_reported (table : SortedData) (key : KeyString)
  (currentRecordId : RecordId) (e : KeyStringEntry) :
  strictlySorted table ->
  In e table ->
  loc e = currentRecordId ->
  keyBytes (keyString e) = keyBytes key ->
  (ksRecordId key = ksRecordId (keyString e)
   \/ (ksRecordId key = None
       /\ forall e', In e' table ->
                     keyBytes (keyString e') = keyBytes key -> e' = e)) ->
  keyIsMissing table key currentRecordId = false.
Proof.
  forget_libraries.
  intros Hsorted Hin Hloc Hbytes Hrid.
  apply in_split in Hin. destruct Hin as [before [after Htable]].
  assert (Hnot : compareKeyString (keyString e) key <> Lt).
  { unfold compareKeyString. rewrite Hbytes, key_string_compare_refl.
    destruct Hrid as [Hrid|[Hrid _]]; rewrite Hrid.
    - destruct (ksRecordId (keyString e)); [|discriminate].
      rewrite Z.compare_refl. discriminate.
    - destruct (ksRecordId (keyString e)); discriminate. }
  assert (Hbefore : Forall (fun e' => compareKeyString (keyString e') key = Lt)
                      before).
  { rewrite Htable in Hsorted.
    pose proof (strictlySorted_before e after before Hsorted) as Hlt.
    rewrite Forall_forall in *. intros e' Hin'. specialize (Hlt e' Hin').
    destruct Hrid as [Hrid|[Hnone Hunique]].
    - replace key with (keyString e); [exact Hlt|].
      destruct (keyString e), key. cbn in *. congruence.
    - unfold compareKeyString in *. rewrite <- Hbytes.
      destruct (key_string_compare (keyBytes (keyString e'))
                  (keyBytes (keyString e))) eqn:Hcmp;
        [|reflexivity|discriminate].
      apply key_string_compare_eq in Hcmp.
      assert (Heq : e' = e).
      { apply Hunique; [|congruence].
        rewrite Htable. apply in_or_app. now left. }
      subst e'. destruct (ksRecordId (keyString e)) as [r|]; [|discriminate].
      rewrite Z.compare_refl in Hlt. discriminate. }
  rewrite Htable, (keyIsMissing_first key currentRecordId e before after
                     Hbefore Hnot), Hloc, Z.eqb_refl.
  reflexivity.
Qed.

(** X12. A key that is absent can go unreported.  The probe accepts the
    entry the seek lands on when it belongs to the document, without
    comparing its key with the key searched.  So when the entries before
    some entry of the document all sort before an expected key, and that
    entry sorts strictly after it, the expected key is not reported, though
    in a table in strict key-string order no entry holds it. *)
Theorem absent_key_masked_by_next_entry (key : KeyString)
  (currentRecordId : RecordId) (e : KeyStringEntry)
  (before after : SortedData) :
  Forall (fun e' => compareKeyString (keyString e') key = Lt) before ->
  compareKeyString (keyString e) key = Gt ->
  loc e = currentRecordId ->
  keyIsMissing (before ++ e :: after) key currentRecordId = false
  /\ (strictlySorted (before ++ e :: after) ->
      forall e', In e' (before ++ e :: after) -> keyString e' <> key).
Proof.
  forget_libraries.
  intros Hbefore Hgt Hloc. split.
  - rewrite keyIsMissing_first; [|exact Hbefore|congruence].
    now rewrite Hloc, Z.eqb_refl.
  - intros Hsorted e' Hin Heq.
    apply in_app_or in Hin. destruct Hin as [Hin|[Hin|Hin]].
    + rewrite Forall_forall in Hbefore. specialize (Hbefore e' Hin).
      rewrite Heq, compareKeyString_refl in Hbefore. discriminate.
    + subst e'. rewrite Heq, compareKeyString_refl in Hgt. discriminate.
    + pose proof (strictlySorted_after e after before Hsorted) as Hafter.
      rewrite Forall_forall in Hafter. specialize (Hafter e' Hin).
      rewrite Heq in Hafter. congruence.
Qed.

(** X13. The report of a document lists its own misses only.
    [validateMissingKeys] appends to the list of misses the hasher holds and
    answers for the whole list, so with misses left from before it reports
    failure whatever the document.  The loop of [hashForCollectionCheck]
    clears the list before each call: in the missing-index-keys mode, after
    the check of a document the list holds exactly the misses of that
    document, and one entry "Document has missing index keys" with that
    list is appended to the health log exactly when the list is not
    empty. *)
Theorem missing_keys_report_is_per_document (h : DbCheckHasher) (w : World)
  (collPtr : Collection) (currentObj : BSONObj) (currentRecordId : RecordId)
  (rehydratedObjId : BSONObj) (p : SecondaryIndexCheckParameters) :
  _secondaryIndexCheckParameters h = Some p ->
  getValidateMode p
  = DbCheckValidationModeEnum.dataConsistencyAndMissingIndexKeysCheck ->
  let misses := missingReports currentObj currentRecordId (_indexes h) in
  let '(h1, w1) :=
    checkMissingKeys h w collPtr currentObj currentRecordId rehydratedObjId in
  _missingIndexKeys h1 = misses
  /\ (misses = [] -> healthLog w1 = healthLog w)
  /\ (misses <> [] ->
      exists e,
        healthLog w1 = healthLog w ++ [e]
        /\ getMsg e = "Document has missing index keys"%string
        /\ getSeverity e = SeverityEnum.Error
        /\ getData e
           = Some (BObject
                     [("success"%string, BBool false);
                      ("error"%string,
                        BStatus (mkStatus ErrorCodes.NoSuchKey
                                   "Document has missing index keys"));
                      ("context"%string,
                        BObject
                          (itemContext currentRecordId rehydratedObjId
                             ++ [("missingIndexKeys"%string, BArray misses)]));
                      ("dbCheckParameters"%string, BParameters p)]))
  /\ (_missingIndexKeys h <> [] ->
      isOK (fst (fst (validateMissingKeys currentObj currentRecordId h w)))
      = false).
Proof.
  forget_libraries.
  intros Hp Hmode. cbn zeta.
  assert (Hon : isMissingIndexKeysMode (_secondaryIndexCheckParameters h) = true).
  { rewrite Hp. unfold isMissingIndexKeysMode. now rewrite Hmode. }
  pose proof (checkMissingKeys_hasher h w collPtr currentObj currentRecordId
                rehydratedObjId) as Hh.
  pose proof (checkMissingKeys_world h w collPtr currentObj currentRecordId
                rehydratedObjId) as [Hlog _].
  rewrite Hon in Hh, Hlog.
  assert (Hleft : _missingIndexKeys h <> [] ->
                  isOK (fst (fst (validateMissingKeys currentObj
                                    currentRecordId h w))) = false).
  { intro Hne. rewrite validateMissingKeys_spec. cbn zeta. hasher_fields.
    destruct (_missingIndexKeys h) as [|r l]; [now elim Hne|]. reflexivity. }
  destruct (checkMissingKeys h w collPtr currentObj currentRecordId
              rehydratedObjId) as [h1 w1].
  cbn [fst snd] in Hh, Hlog. subst h1.
  split; [reflexivity|].
  split.
  { intro Hnone. rewrite Hnone in Hlog. now rewrite app_nil_r in Hlog. }
  split; [|exact Hleft].
  intro Hsome.
  destruct (missingReports currentObj currentRecordId (_indexes h))
    as [|r l] eqn:Hm; [now elim Hsome|].
  eexists. split; [exact Hlog|].
  unfold missingKeysEntry, dbCheckErrorHealthLogEntry, dbCheckHealthLogEntry,
    probedHasher.
  hasher_fields. rewrite Hp, Hm. repeat split.
Qed.

(** *** The acquisition and the recovery unit *)

(** X14. An acquisition restores what it swapped.  When the constructor of
    [DbCheckAcquisition] returns, it holds what the catalog found, the
    recovery unit has the requested prepare-conflict behaviour and the
    corruption mode LogAndContinue, and a snapshot is open.  Its destructor,
    run on the recovery unit in whatever state the scope left it, abandons
    the snapshot and puts back the prepare-conflict behaviour and the
    corruption mode the recovery unit had before the constructor ran; on a
    recovery unit that had no snapshot open, constructing and destroying
    gives back the recovery unit it started from. *)
Theorem acquisition_round_trip (catalog : Catalog) (nss : NamespaceString)
  (readTimestamp : option Timestamp) (behavior : PrepareConflictBehavior.t)
  (ru : RecoveryUnit) :
  let '(outcome, ru1) :=
    newDbCheckAcquisition catalog nss readTimestamp behavior ru in
  forall acquisition,
    outcome = Returned acquisition ->
    catalog nss readTimestamp = Returned (coll acquisition)
    /\ getPrepareConflictBehavior ru1 = behavior
    /\ getDataCorruptionDetectionMode ru1
       = DataCorruptionDetectionMode.kLogAndContinue
    /\ snapshotOpen ru1 = true
    /\ (forall ru2,
          let ru3 := deleteDbCheckAcquisition acquisition ru2 in
          getPrepareConflictBehavior ru3 = getPrepareConflictBehavior ru
          /\ getDataCorruptionDetectionMode ru3
             = getDataCorruptionDetectionMode ru
          /\ snapshotOpen ru3 = false)
    /\ (snapshotOpen ru = false ->
        deleteDbCheckAcquisition acquisition ru1 = ru).
Proof.
  forget_libraries.
  unfold newDbCheckAcquisition. cbn.
  destruct (catalog nss readTimestamp) as [found|e];
    intros acquisition H; inversion H; subst acquisition; clear H.
  cbn. repeat split.
  intro Hclosed. destruct ru as [b m s]. cbn in *. now subst s.
Qed.

Lemma dbCheckBatchOnSecondaryBody_catalog (catalog catalog' : Catalog)
  (opCtx : OperationContext) (optime : OpTime) (entry : DbCheckOplogBatch)
  (batchStart batchEnd : BSONObj) (w : World) :
  catalog (getNss entry) (getReadTimestamp entry)
  = catalog' (getNss entry) (getReadTimestamp entry) ->
  dbCheckBatchOnSecondaryBody catalog opCtx optime entry batchStart batchEnd w
  = dbCheckBatchOnSecondaryBody catalog' opCtx optime entry batchStart batchEnd w.
Proof.
  forget_libraries.
  intro H. unfold dbCheckBatchOnSecondaryBody, bind, liftOutcome.
  now rewrite H.
Qed.

(** X15. The verifier leaves the recovery unit as it found it.  Run with
    the recovery unit of the operation, [dbCheckBatchOnSecondary] returns
    the status and leaves the logs that it does without it; and whenever
    the collection acquisition itself did not throw, on every way out of
    the [try] block - an early return, the end of the block, or an
    exception that the [catch] block handles - the recovery unit has again
    the prepare-conflict behaviour and the corruption mode it had before
    the call, and no snapshot is left open. *)
Theorem verifier_restores_recovery_unit (catalog : Catalog)
  (opCtx : OperationContext) (optime : OpTime) (entry : DbCheckOplogBatch)
  (batchStart batchEnd : BSONObj) (ru : RecoveryUnit) (w : World) :
  let '(outcome, ru', w') :=
    dbCheckBatchOnSecondaryInScope catalog opCtx optime entry batchStart
      batchEnd ru w in
  (outcome, w')
  = dbCheckBatchOnSecondary catalog opCtx optime entry batchStart batchEnd w
  /\ (forall found,
        catalog (getNss entry) (getReadTimestamp entry) = Returned found ->
        getPrepareConflictBehavior ru' = getPrepareConflictBehavior ru
        /\ getDataCorruptionDetectionMode ru'
           = getDataCorruptionDetectionMode ru
        /\ snapshotOpen ru' = false).
Proof.
  forget_libraries.
  unfold dbCheckBatchOnSecondaryInScope, newDbCheckAcquisition. cbn zeta.
  cbn [swapPrepareConflictBehavior swapDataCorruptionMode].
  destruct (catalog (getNss entry) (getReadTimestamp entry)) as [found|e] eqn:Hcat.
  - cbn [coll].
    assert (Hsame :
              dbCheckBatchOnSecondary (fun _ _ => Returned found) opCtx optime
                entry batchStart batchEnd w
              = dbCheckBatchOnSecondary catalog opCtx optime entry batchStart
                  batchEnd w).
    { unfold dbCheckBatchOnSecondary, tryCatch.
      rewrite (dbCheckBatchOnSecondaryBody_catalog (fun _ _ => Returned found)
                 catalog opCtx optime entry batchStart batchEnd w);
        [reflexivity|now rewrite Hcat]. }
    rewrite <- Hsame.
    destruct (dbCheckBatchOnSecondary (fun _ _ => Returned found) opCtx optime
                entry batchStart batchEnd w) as [outcome w1].
    split; [reflexivity|]. intros found' _. cbn. repeat split.
  - unfold dbCheckBatchOnSecondary, tryCatch.
    rewrite (acquisition_error_is_thrown catalog opCtx optime entry batchStart
               batchEnd w e Hcat).
    unfold bind, log, ret. split; [reflexivity|]. intros found H. discriminate.
Qed.

(** X16. An acquisition that throws leaves its settings behind.  When the
    collection acquisition throws inside the constructor of
    [DbCheckAcquisition], the two swaps before it have been made and no
    destructor undoes them: the verifier still returns OK and files the
    exception as one Error entry, but the recovery unit is left with the
    prepare-conflict behaviour IgnoreConflictsAllowWrites and the corruption
    mode LogAndContinue, whatever it had before. *)
Theorem acquisition_failure_leaves_settings (catalog : Catalog)
  (opCtx : OperationContext) (optime : OpTime) (entry : DbCheckOplogBatch)
  (batchStart batchEnd : BSONObj) (ru : RecoveryUnit) (w : World)
  (e : Status) :
  catalog (getNss entry) (getReadTimestamp entry) = Thrown e ->
  let '(outcome, ru', w') :=
    dbCheckBatchOnSecondaryInScope catalog opCtx optime entry batchStart
      batchEnd ru w in
  outcome = Returned Status_OK
  /\ healthLog w' = healthLog w ++ [caughtEntry entry e]
  /\ getSeverity (caughtEntry entry e) = SeverityEnum.Error
  /\ getPrepareConflictBehavior ru'
     = PrepareConflictBehavior.kIgnoreConflictsAllowWrites
  /\ getDataCorruptionDetectionMode ru'
     = DataCorruptionDetectionMode.kLogAndContinue
  /\ snapshotOpen ru' = snapshotOpen ru.
Proof.
  forget_libraries.
  intro Hcat.
  unfold dbCheckBatchOnSecondaryInScope, newDbCheckAcquisition. cbn zeta.
  cbn [swapPrepareConflictBehavior swapDataCorruptionMode].
  rewrite Hcat. cbn. repeat split.
Qed.

(** *** What the verifier leaves in the logs *)

Lemma ErrorCodes_eqb_eq (a b : ErrorCodes.Error) :
  ErrorCodes.eqb a b = true -> a = b.
Proof. forget_libraries. destruct a, b; cbn; congruence. Qed.

Lemma scanEntryShape_scope (collPtr : Collection)
  (parameters : option SecondaryIndexCheckParameters) (e : HealthLogEntry) :
  scanEntryShape collPtr parameters e -> getScope e <> ScopeEnum.Index.
Proof.
  forget_libraries.
  intros [_ [_ [_ [[[_ H]|[_ [H _]]] _]]]]; rewrite H; discriminate.
Qed.

Lemma scanEntryShape_batch (collPtr : Collection) (entry : DbCheckOplogBatch)
  (e : HealthLogEntry) :
  scanEntryShape collPtr (getSecondaryIndexCheckParameters entry) e ->
  batchEntryShape entry e.
Proof. forget_libraries. intros [Hop [_ [_ [_ Hp]]]]. split; assumption. Qed.

Lemma shape_collectionGoneEntry (entry : DbCheckOplogBatch) :
  batchEntryShape entry (collectionGoneEntry entry).
Proof. forget_libraries. split; [reflexivity|apply dbCheckHealthLogEntry_carries]. Qed.

Lemma shape_indexNotFoundEntry (entry : DbCheckOplogBatch) (name : string) :
  batchEntryShape entry (indexNotFoundEntry entry name).
Proof. forget_libraries. split; [reflexivity|apply dbCheckHealthLogEntry_carries]. Qed.

Lemma shape_caughtEntry (entry : DbCheckOplogBatch) (e : Status) :
  batchEntryShape entry (caughtEntry entry e).
Proof. forget_libraries. split; [reflexivity|apply dbCheckHealthLogEntry_carries]. Qed.

Lemma shape_batchResultEntry (optime : OpTime) (entry : DbCheckOplogBatch)
  (collection : Collection) (batchStart : BSONObj) (hasher : DbCheckHasher)
  (indexDescriptor : option IndexDescriptor) :
  batchEntryShape entry
    (batchResultEntry optime entry collection batchStart hasher indexDescriptor).
Proof. forget_libraries. split; [reflexivity|apply dbCheckHealthLogEntry_carries]. Qed.

Lemma newDbCheckHasher_parameters (collection : Collection)
  (start end_ : BSONObj) (parameters : option SecondaryIndexCheckParameters)
  (name : option string) (maxCount maxBytes : Z) (h : DbCheckHasher) :
  newDbCheckHasher collection start end_ parameters name maxCount maxBytes
  = Returned h ->
  _secondaryIndexCheckParameters h = parameters.
Proof.
  forget_libraries.
  unfold newDbCheckHasher. destruct name as [n|].
  - intro H. inversion H. reflexivity.
  - destruct (negb (isClustered collection)).
    + destruct (findIdIndex collection); intro H; inversion H. reflexivity.
    + destruct (collectionScan collection start end_); intro H; inversion H.
      reflexivity.
Qed.

Lemma hashForCollectionCheck_world (opCtx : OperationContext)
  (collPtr : Collection) (deadline : Date_t) (h h' : DbCheckHasher)
  (w w' : World) (o : Outcome Status) :
  hashForCollectionCheck opCtx collPtr deadline h w = (o, h', w') ->
  exists added,
    healthLog w' = healthLog w ++ added
    /\ batchesProcessed w' = batchesProcessed w
    /\ Forall (scanEntryShape collPtr (_secondaryIndexCheckParameters h)) added
    /\ (forall s, o = Returned s -> code s <> ErrorCodes.KeyNotFound).
Proof.
  forget_libraries.
  unfold hashForCollectionCheck.
  destruct (collectionCheckLoop_trace opCtx collPtr deadline (_exec h) 0 h w)
    as [pre [post [added [_ [_ [_ [_ [_ [_ [Hlog [Hb [Hshape _]]]]]]]]]]]].
  pose proof (collectionCheckLoop_errors opCtx collPtr deadline (_exec h) 0 h w)
    as Herr.
  destruct (collectionCheckLoop opCtx collPtr deadline 0 h w (_exec h))
    as [ha wa|ha wa|s ha wa|e ha wa];
    cbn [exitWorld] in *; intro H; injection H as Ho Hh Hw; subst o h' w';
    exists added; (split; [exact Hlog|]); (split; [exact Hb|]);
    (split; [exact Hshape|]); intros s' Hs; inversion Hs; subst; try discriminate.
  destruct Herr as [Herr|[objId [rid [record [_ [_ [_ Herr]]]]]]];
    rewrite Herr; discriminate.
Qed.

Lemma hashForExtraIndexKeysCheck_world (opCtx : OperationContext)
  (iam : IndexCatalogEntry) (batchStartBson batchEndBson : BSONObj)
  (h h' : DbCheckHasher) (w w' : World) (o : Outcome Status) :
  hashForExtraIndexKeysCheck opCtx iam batchStartBson batchEndBson h w
  = (o, h', w') ->
  healthLog w' = healthLog w /\ batchesProcessed w' = batchesProcessed w.
Proof.
  forget_libraries.
  unfold hashForExtraIndexKeysCheck.
  pose proof (extraIndexKeysLoop_world opCtx (bsonToKeyString batchEndBson)
                (Some (bsonToKeyString batchEndBson, true))
                (seekPosition (sortedData iam)
                   (mkKeyString (bsonToKeyString batchStartBson) None))
                0 (set_nConsecutive h 0) (logDebug w (mkLogLine 8065400 3)))
    as [Hlog Hb].
  destruct (extraIndexKeysLoop opCtx (bsonToKeyString batchEndBson)
              (Some (bsonToKeyString batchEndBson, true)) 0
              (set_nConsecutive h 0) (logDebug w (mkLogLine 8065400 3))
              (seekPosition (sortedData iam)
                 (mkKeyString (bsonToKeyString batchStartBson) None)))
    as [h1 w1|h1 w1|s1 h1 w1|e1 h1 w1];
    cbn [exitWorld extraIndexKeysFinish] in *;
    intro H; injection H as Ho Hh Hw; subst o h' w';
    cbn [logDebug healthLog batchesProcessed] in *; split; assumption.
Qed.

(** The mode switch only appends to the health log, entries filed for the
    batch operation with the parameters of the batch, and leaves the
    counter of processed batches alone; without parameters it appends no
    entry of scope Index and does not return early. *)
Lemma selectModeAndHash_world (opCtx : OperationContext)
  (entry : DbCheckOplogBatch) (collection : Collection)
  (batchStart batchEnd : BSONObj) (w w' : World)
  (o : Outcome (option (DbCheckHasher * option IndexDescriptor))) :
  selectModeAndHash opCtx entry collection batchStart batchEnd w = (o, w') ->
  exists added,
    healthLog w' = healthLog w ++ added
    /\ batchesProcessed w' = batchesProcessed w
    /\ Forall (batchEntryShape entry) added
    /\ (getSecondaryIndexCheckParameters entry = None ->
        Forall (fun e => getScope e <> ScopeEnum.Index) added
        /\ o <> Returned None).
Proof.
  forget_libraries.
  assert (Hcoll : forall hasher (found : option IndexDescriptor),
             _secondaryIndexCheckParameters hasher
             = getSecondaryIndexCheckParameters entry ->
             getSecondaryIndexCheckParameters entry <> None ->
             bind (fun w0 =>
                     callHasher
                       (hashForCollectionCheck opCtx collection defaultDeadline
                          hasher w0))
               (fun r => bind (uassertStatusOK (fst r))
                           (fun _ => ret (Some (snd r, found)))) w
             = (o, w') ->
             exists added,
               healthLog w' = healthLog w ++ added
               /\ batchesProcessed w' = batchesProcessed w
               /\ Forall (batchEntryShape entry) added
               /\ (getSecondaryIndexCheckParameters entry = None ->
                   Forall (fun e => getScope e <> ScopeEnum.Index) added
                   /\ o <> Returned None)).
  { intros hasher found Hparams Hsome. unfold bind.
    destruct (hashForCollectionCheck opCtx collection defaultDeadline hasher w)
      as [[o1 h1] w1] eqn:Hrun.
    apply hashForCollectionCheck_world in Hrun.
    destruct Hrun as [added [Hlog [Hb [Hshape _]]]].
    rewrite Hparams in Hshape.
    assert (Hbatch : Forall (batchEntryShape entry) added).
    { eapply Forall_impl; [|exact Hshape].
      intros e He. eapply scanEntryShape_batch. exact He. }
    destruct o1 as [s|e]; cbn [callHasher fst snd].
    - unfold uassertStatusOK. destruct (isOK s); unfold ret, throw;
        intro H; inversion H; subst; exists added;
        (split; [exact Hlog|]); (split; [exact Hb|]); (split; [exact Hbatch|]);
        intro Hn; now elim Hsome.
    - intro H; inversion H; subst; exists added;
        (split; [exact Hlog|]); (split; [exact Hb|]); (split; [exact Hbatch|]);
        intro Hn; now elim Hsome. }
  unfold selectModeAndHash.
  destruct (getSecondaryIndexCheckParameters entry) as [p|] eqn:Hp.
  - destruct (getValidateMode p).
    + unfold bind at 1. unfold liftOutcome.
      destruct (newDbCheckHasher collection batchStart batchEnd (Some p) None
                  defaultMaxCount defaultMaxBytes) as [hasher|e] eqn:Hnew.
      * apply Hcoll; [|discriminate].
        now apply newDbCheckHasher_parameters in Hnew.
      * intro H. inversion H. subst. exists []. rewrite app_nil_r.
        repeat split; auto; discriminate.
    + unfold bind at 1. unfold liftOutcome.
      destruct (newDbCheckHasher collection batchStart batchEnd (Some p) None
                  defaultMaxCount defaultMaxBytes) as [hasher|e] eqn:Hnew.
      * apply Hcoll; [|discriminate].
        now apply newDbCheckHasher_parameters in Hnew.
      * intro H. inversion H. subst. exists []. rewrite app_nil_r.
        repeat split; auto; discriminate.
    + unfold bind, liftOutcome, newDbCheckHasher.
      destruct (findIndexByName collection (getSecondaryIndex p)) as [iam|].
      * match goal with
        | |- context [hashForExtraIndexKeysCheck ?a ?b ?c ?d ?h0 ?w0] =>
            destruct (hashForExtraIndexKeysCheck a b c d h0 w0)
              as [[o1 h1] w1] eqn:Hrun
        end.
        apply hashForExtraIndexKeysCheck_world in Hrun.
        destruct Hrun as [Hlog Hb].
        destruct o1 as [s|e]; cbn [callHasher fst snd].
        -- unfold uassertStatusOK. destruct (isOK s); unfold ret, throw;
             intro H; inversion H; subst; exists []; rewrite app_nil_r;
             repeat split; auto; discriminate.
        -- intro H; inversion H; subst; exists []; rewrite app_nil_r;
             repeat split; auto; discriminate.
      * unfold log, ret. intro H. inversion H. subst.
        eexists. split; [reflexivity|]. split; [reflexivity|].
        split; [|discriminate].
        constructor; [apply shape_indexNotFoundEntry|constructor].
  - unfold bind at 1. unfold liftOutcome.
    destruct (newDbCheckHasher collection batchStart batchEnd None None
                defaultMaxCount defaultMaxBytes) as [hasher|e] eqn:Hnew.
    2:{ intro H. inversion H. subst. exists []. rewrite app_nil_r.
        repeat split; auto. discriminate. }
    apply newDbCheckHasher_parameters in Hnew.
    unfold bind.
    destruct (hashForCollectionCheck opCtx collection defaultDeadline hasher w)
      as [[o1 h1] w1] eqn:Hrun.
    apply hashForCollectionCheck_world in Hrun.
    destruct Hrun as [added [Hlog [Hb [Hshape Hcode]]]].
    assert (Hscope : Forall (fun e => getScope e <> ScopeEnum.Index) added).
    { eapply Forall_impl; [|exact Hshape].
      intros e He. eapply scanEntryShape_scope. exact He. }
    assert (Hbatch : Forall (batchEntryShape entry) added).
    { eapply Forall_impl; [|exact Hshape].
      intros e [Hop _]. split; [exact Hop|].
      unfold carriesParameters. rewrite Hp. discriminate. }
    destruct o1 as [s|e]; cbn [callHasher fst snd].
    + assert (Hk : ErrorCodes.eqb (code s) ErrorCodes.KeyNotFound = false).
      { destruct (ErrorCodes.eqb (code s) ErrorCodes.KeyNotFound) eqn:Hk;
          [|reflexivity].
        apply ErrorCodes_eqb_eq in Hk. now elim (Hcode s eq_refl). }
      rewrite Hk, andb_false_r.
      unfold uassertStatusOK. destruct (isOK s); unfold ret, throw;
        intro H; inversion H; subst; exists added;
        repeat split; auto; discriminate.
    + intro H; inversion H; subst; exists added;
        repeat split; auto; discriminate.
Qed.

Lemma dbCheckBatchOnSecondary_world (catalog : Catalog)
  (opCtx : OperationContext) (optime : OpTime) (entry : DbCheckOplogBatch)
  (batchStart batchEnd : BSONObj) (w w' : World) (o : Outcome Status) :
  dbCheckBatchOnSecondary catalog opCtx optime entry batchStart batchEnd w
  = (o, w') ->
  o = Returned Status_OK
  /\ exists added,
       healthLog w' = healthLog w ++ added
       /\ (batchesProcessed w' = batchesProcessed w
           \/ batchesProcessed w' = (batchesProcessed w + 1) mod 2 ^ 32)
       /\ Forall (batchEntryShape entry) added
       /\ (getSecondaryIndexCheckParameters entry = None ->
           Forall (fun e => getScope e <> ScopeEnum.Index) added
           /\ forall collection,
                catalog (getNss entry) (getReadTimestamp entry)
                = Returned (Some collection) ->
                batchesProcessed w' = (batchesProcessed w + 1) mod 2 ^ 32
                \/ exists front e, added = front ++ [caughtEntry entry e]).
Proof.
  forget_libraries.
  unfold dbCheckBatchOnSecondary, tryCatch, dbCheckBatchOnSecondaryBody.
  unfold bind at 1. unfold liftOutcome.
  destruct (catalog (getNss entry) (getReadTimestamp entry))
    as [[collection|]|e].
  - unfold bind at 1.
    destruct (selectModeAndHash opCtx entry collection batchStart batchEnd w)
      as [o1 w1] eqn:Hsel.
    apply selectModeAndHash_world in Hsel.
    destruct Hsel as [added [Hlog [Hb [Hshape Hnone]]]].
    destruct o1 as [[[hasher indexDescriptor]|]|e].
    + unfold bind, compareAndLog.
      match goal with
      | |- context [if ?c then _ else _] => destruct c
      end; unfold ret; intro H; inversion H; subst o w'; clear H;
        (split; [reflexivity|]);
        cbn [logHealth incrBatchesProcessed logDebug healthLog batchesProcessed].
      * eexists. split; [rewrite Hlog, <- app_assoc; reflexivity|].
        split; [right; now rewrite Hb|].
        split.
        { apply Forall_app. split; [exact Hshape|].
          constructor; [apply shape_batchResultEntry|constructor]. }
        intro Hn. destruct (Hnone Hn) as [Hscope _]. split.
        -- apply Forall_app. split; [exact Hscope|].
           constructor; [|constructor]. cbn. discriminate.
        -- intros c _. left. now rewrite Hb.
      * exists added. split; [exact Hlog|].
        split; [right; now rewrite Hb|]. split; [exact Hshape|].
        intro Hn. destruct (Hnone Hn) as [Hscope _]. split; [exact Hscope|].
        intros c _. left. now rewrite Hb.
    + unfold ret. intro H. inversion H. subst o w'. clear H.
      split; [reflexivity|]. exists added. split; [exact Hlog|].
      split; [now left|]. split; [exact Hshape|].
      intro Hn. destruct (Hnone Hn) as [_ Hbad]. now elim Hbad.
    + unfold bind, log, ret. intro H. inversion H. subst o w'. clear H.
      split; [reflexivity|].
      cbn [logHealth healthLog batchesProcessed].
      eexists. split; [rewrite Hlog, <- app_assoc; reflexivity|].
      split; [now left|].
      split.
      { apply Forall_app. split; [exact Hshape|].
        constructor; [apply shape_caughtEntry|constructor]. }
      intro Hn. destruct (Hnone Hn) as [Hscope _]. split.
      * apply Forall_app. split; [exact Hscope|].
        constructor; [|constructor]. cbn. discriminate.
      * intros c _. right. eauto.
  - unfold bind, log, ret. intro H. inversion H. subst o w'. clear H.
    split; [reflexivity|].
    cbn [logHealth healthLog batchesProcessed].
    eexists. split; [reflexivity|]. split; [now left|].
    split; [constructor; [apply shape_collectionGoneEntry|constructor]|].
    intro Hn. split.
    + constructor; [|constructor]. cbn. discriminate.
    + intros c Hc. discriminate.
  - unfold bind, log, ret. intro H. inversion H. subst o w'. clear H.
    split; [reflexivity|].
    cbn [logHealth healthLog batchesProcessed].
    eexists. split; [reflexivity|]. split; [now left|].
    split; [constructor; [apply shape_caughtEntry|constructor]|].
    intro Hn. split.
    + constructor; [|constructor]. cbn. discriminate.
    + intros c Hc. discriminate.
Qed.

(** X17. The verifier only appends, and marks what it appends.  Whatever
    [dbCheckBatchOnSecondary] meets, the health log it leaves is the one it
    found followed by the entries of this call; each of them is filed for
    the batch operation and, when the oplog entry has secondary index check
    parameters, ends its data with them.  The counter of processed batches
    is either where it was or one further, wrapping at 2^32. *)
Theorem verifier_appends_only (catalog : Catalog)
  (opCtx : OperationContext) (optime : OpTime) (entry : DbCheckOplogBatch)
  (batchStart batchEnd : BSONObj) (w : World) :
  let '(_, w') :=
    dbCheckBatchOnSecondary catalog opCtx optime entry batchStart batchEnd w in
  (exists added,
      healthLog w' = healthLog w ++ added
      /\ Forall (fun e =>
                   getOperation e = "dbCheckBatch"%string
                   /\ forall p,
                        getSecondaryIndexCheckParameters entry = Some p ->
                        exists fields,
                          getData e
                          = Some (BObject
                                    (fields
                                       ++ [("dbCheckParameters"%string,
                                             BParameters p)]))) added)
  /\ (batchesProcessed w' = batchesProcessed w
      \/ batchesProcessed w' = (batchesProcessed w + 1) mod 2 ^ 32).
Proof.
  forget_libraries.
  destruct (dbCheckBatchOnSecondary catalog opCtx optime entry batchStart
              batchEnd w) as [o w'] eqn:Hrun.
  apply dbCheckBatchOnSecondary_world in Hrun.
  destruct Hrun as [_ [added [Hlog [Hb [Hshape _]]]]].
  split; [|exact Hb].
  exists added. split; [exact Hlog|exact Hshape].
Qed.

(** X18. The KeyNotFound return of the verifier is never taken.  For an
    entry without secondary index check parameters, the verifier has a
    branch that files an Error of scope Index and returns early when the
    hashing returns KeyNotFound.  The hashing never returns that code, so
    for such an entry and an existing collection the call either counts the
    batch or ends in the [catch] block, whose entry is then the last one
    appended; and no entry of scope Index is appended at all. *)
Theorem key_not_found_return_is_dead (catalog : Catalog)
  (opCtx : OperationContext) (optime : OpTime) (entry : DbCheckOplogBatch)
  (batchStart batchEnd : BSONObj) (w : World) (collection : Collection) :
  getSecondaryIndexCheckParameters entry = None ->
  catalog (getNss entry) (getReadTimestamp entry) = Returned (Some collection) ->
  let '(_, w') :=
    dbCheckBatchOnSecondary catalog opCtx optime entry batchStart batchEnd w in
  exists added,
    healthLog w' = healthLog w ++ added
    /\ Forall (fun e => getScope e <> ScopeEnum.Index) added
    /\ (batchesProcessed w' = (batchesProcessed w + 1) mod 2 ^ 32
        \/ exists front e, added = front ++ [caughtEntry entry e]).
Proof.
  forget_libraries.
  intros Hn Hcat.
  destruct (dbCheckBatchOnSecondary catalog opCtx optime entry batchStart
              batchEnd w) as [o w'] eqn:Hrun.
  apply dbCheckBatchOnSecondary_world in Hrun.
  destruct Hrun as [_ [added [Hlog [_ [_ Hnone]]]]].
  destruct (Hnone Hn) as [Hscope Hcount].
  exists added. split; [exact Hlog|]. split; [exact Hscope|].
  exact (Hcount collection Hcat).
Qed.

(** *** Properties of dbCheckOplogCommand *)

(** X19. A batch that is not applied.  When a batch entry is applied in a
    mode other than secondary application, or while the parameter
    [skipApplyingDbCheckBatchOnSecondary] is on, [dbCheckOplogCommand] does
    not run the verifier: it writes the debug line 8888500, appends one
    Warning entry of scope Cluster for the batch operation, and returns OK;
    the counter of processed batches does not move.  The message names the
    parameter when it is on, and the application mode otherwise; the data
    begin with the bounds of the batch, which are the documents of the
    entry when it has them and its legacy keys wrapped as _id otherwise. *)
Theorem oplog_command_skips_batch (catalog : Catalog) (opCtx : OperationContext)
  (settings : ApplierSettings) (entry : OplogEntry)
  (mode : OplogApplication.Mode) (w : World)
  (invocation : DbCheckOplogBatch) (range : BatchRange) :
  parseType entry = Returned OplogEntriesEnum.Batch ->
  parseBatch entry = Returned (invocation, range) ->
  mode <> OplogApplication.kSecondary
  \/ skipApplyingDbCheckBatchOnSecondary settings = true ->
  let batchStart :=
    match getBatchStart range with
    | Some o => o
    | None => BSON_id (getMinKey range)
    end in
  let batchEnd :=
    match getBatchEnd range with
    | Some o => o
    | None => BSON_id (getMaxKey range)
    end in
  exists e,
    dbCheckOplogCommand catalog opCtx settings entry mode w
    = (Returned Status_OK,
       mkWorld (healthLog w ++ [e]) (serverLog w ++ [mkLogLine 8888500 3])
         (batchesProcessed w))
    /\ getSeverity e = SeverityEnum.Warning
    /\ getScope e = ScopeEnum.Cluster
    /\ getOperation e = "dbCheckBatch"%string
    /\ getLogNss e = Some (getNss invocation)
    /\ getMsg e
       = (if skipApplyingDbCheckBatchOnSecondary settings
          then "skipping applying dbcheck batch because the 'skipApplyingDbCheckBatchOnSecondary' parameter is on"%string
          else ("cannot execute dbcheck due to ongoing "
                  ++ oplogApplicationModeName mode)%string)
    /\ exists more,
         getData e
         = Some (BObject
                   ([("batchStart"%string, BSubObj batchStart);
                     ("batchEnd"%string, BSubObj batchEnd)] ++ more)).
Proof.
  forget_libraries.
  intros Htype Hbatch Hskip. cbn zeta.
  exists (skippedBatchEntry settings mode OplogEntriesEnum.Batch invocation
            (decodedBatchStart range) (decodedBatchEnd range)).
  split.
  - unfold dbCheckOplogCommand, bind, liftOutcome.
    rewrite Htype, Hbatch. cbn [fst snd].
    assert (Hoff : negb (skipDbCheck mode)
                   && negb (skipApplyingDbCheckBatchOnSecondary settings)
                   = false).
    { destruct Hskip as [Hmode|Hparam].
      - destruct mode; try reflexivity. now elim Hmode.
      - rewrite Hparam. apply andb_false_r. }
    rewrite Hoff. reflexivity.
  - unfold skippedBatchEntry, dbCheckHealthLogEntry, skippedBatchMessage,
      decodedBatchStart, decodedBatchEnd.
    cbn [getSeverity getScope getOperation getLogNss getMsg getData
         renderForHealthLog].
    repeat (split; [reflexivity|]).
    destruct (getSecondaryIndexCheckParameters invocation) as [p|];
      cbn [addField]; eexists; rewrite <- ?app_assoc; cbn [app]; reflexivity.
Qed.

(** X20. A batch that is applied.  In secondary application with the
    parameter off, [dbCheckOplogCommand] on a batch entry is the verifier
    run on the parsed batch, with the optime of the oplog entry unless
    writes are replicated (then the null optime), and with the bounds of
    the entry, or its legacy keys wrapped as _id when it has no bounds; so
    it returns OK. *)
Theorem oplog_command_applies_batch (catalog : Catalog)
  (opCtx : OperationContext) (settings : ApplierSettings) (entry : OplogEntry)
  (w : World) (invocation : DbCheckOplogBatch) (range : BatchRange) :
  parseType entry = Returned OplogEntriesEnum.Batch ->
  parseBatch entry = Returned (invocation, range) ->
  skipApplyingDbCheckBatchOnSecondary settings = false ->
  let opTime :=
    if writesAreReplicated settings then nullOpTime else getOpTime entry in
  let batchStart :=
    match getBatchStart range with
    | Some o => o
    | None => BSON_id (getMinKey range)
    end in
  let batchEnd :=
    match getBatchEnd range with
    | Some o => o
    | None => BSON_id (getMaxKey range)
    end in
  dbCheckOplogCommand catalog opCtx settings entry OplogApplication.kSecondary w
  = dbCheckBatchOnSecondary catalog opCtx opTime invocation batchStart batchEnd w
  /\ fst (dbCheckOplogCommand catalog opCtx settings entry
            OplogApplication.kSecondary w)
     = Returned Status_OK.
Proof.
  forget_libraries.
  intros Htype Hbatch Hparam. cbn zeta.
  assert (Hrun :
            dbCheckOplogCommand catalog opCtx settings entry
              OplogApplication.kSecondary w
            = dbCheckBatchOnSecondary catalog opCtx
                (if writesAreReplicated settings then nullOpTime
                 else getOpTime entry)
                invocation
                match getBatchStart range with
                | Some o => o
                | None => BSON_id (getMinKey range)
                end
                match getBatchEnd range with
                | Some o => o
                | None => BSON_id (getMaxKey range)
                end w).
  { unfold dbCheckOplogCommand, bind, liftOutcome.
    rewrite Htype, Hbatch, Hparam. cbn [fst snd skipDbCheck negb andb].
    unfold decodedBatchStart, decodedBatchEnd.
    destruct (writesAreReplicated settings); reflexivity. }
  split; [exact Hrun|].
  rewrite Hrun.
  match goal with
  | |- fst ?r = _ => destruct r as [o w'] eqn:Hv
  end.
  apply dbCheckBatchOnSecondary_world in Hv. cbn [fst]. tauto.
Qed.

(** X21. Start and stop entries.  On a start or a stop entry
    [dbCheckOplogCommand] appends one entry of scope Cluster for that
    operation, under the namespace and UUID of the entry, and returns OK,
    whatever the parameter [skipApplyingDbCheckBatchOnSecondary] says.  The
    entry is an Info with an empty message in secondary application, and
    otherwise a Warning that names the application mode. *)
Theorem oplog_command_start_stop (catalog : Catalog) (opCtx : OperationContext)
  (settings : ApplierSettings) (entry : OplogEntry)
  (mode : OplogApplication.Mode) (w : World) (type : OplogEntriesEnum.t)
  (invocation : DbCheckOplogStartStop.t) :
  parseType entry = Returned type ->
  type = OplogEntriesEnum.Start \/ type = OplogEntriesEnum.Stop ->
  parseStartStop entry = Returned invocation ->
  exists e,
    dbCheckOplogCommand catalog opCtx settings entry mode w
    = (Returned Status_OK,
       mkWorld (healthLog w ++ [e]) (serverLog w) (batchesProcessed w))
    /\ getOperation e = renderForHealthLog type
    /\ getScope e = ScopeEnum.Cluster
    /\ getLogNss e = DbCheckOplogStartStop.getNss invocation
    /\ getCollectionUUID e = DbCheckOplogStartStop.getUuid invocation
    /\ (mode = OplogApplication.kSecondary ->
        getSeverity e = SeverityEnum.Info /\ getMsg e = EmptyString)
    /\ (mode <> OplogApplication.kSecondary ->
        getSeverity e = SeverityEnum.Warning
        /\ getMsg e
           = ("cannot execute dbcheck due to ongoing "
                ++ oplogApplicationModeName mode)%string).
Proof.
  forget_libraries.
  intros Htype Hkind Hparse.
  exists (startStopEntry mode type invocation). split.
  - unfold dbCheckOplogCommand, bind, liftOutcome. rewrite Htype.
    destruct Hkind; subst type; rewrite Hparse; reflexivity.
  - unfold startStopEntry, dbCheckHealthLogEntry.
    cbn [getSeverity getScope getOperation getLogNss getMsg
         getCollectionUUID].
    repeat (split; [reflexivity|]).
    split.
    + intro Hmode. subst mode. split; reflexivity.
    + intro Hmode. destruct mode; try (split; reflexivity). now elim Hmode.
Qed.

(** X22. What the command returns and what it throws.  Whatever the oplog
    entry and the mode, [dbCheckOplogCommand] returns no status other than
    OK; it throws only what the parser of the entry type throws, or the
    parser of the batch on a batch entry, or the parser of a start or stop
    entry on such an entry.  A collection entry changes nothing.  The
    health log only grows, and the counter of processed batches moves by
    at most one. *)
Theorem oplog_command_outcome (catalog : Catalog) (opCtx : OperationContext)
  (settings : ApplierSettings) (entry : OplogEntry)
  (mode : OplogApplication.Mode) (w : World) :
  let '(outcome, w') := dbCheckOplogCommand catalog opCtx settings entry mode w in
  (forall s, outcome = Returned s -> s = Status_OK)
  /\ (forall e,
        outcome = Thrown e ->
        parseType entry = Thrown e
        \/ (parseType entry = Returned OplogEntriesEnum.Batch
            /\ parseBatch entry = Thrown e)
        \/ ((parseType entry = Returned OplogEntriesEnum.Start
             \/ parseType entry = Returned OplogEntriesEnum.Stop)
            /\ parseStartStop entry = Thrown e))
  /\ (parseType entry = Returned OplogEntriesEnum.Collection ->
      outcome = Returned Status_OK /\ w' = w)
  /\ (exists added, healthLog w' = healthLog w ++ added)
  /\ (batchesProcessed w' = batchesProcessed w
      \/ batchesProcessed w' = (batchesProcessed w + 1) mod 2 ^ 32).
Proof.
  forget_libraries.
  unfold dbCheckOplogCommand, bind, liftOutcome.
  destruct (parseType entry) as [type|e0].
  2:{ split; [discriminate|].
      split; [intros e He; inversion He; now left|].
      split; [discriminate|].
      split; [exists []; now rewrite app_nil_r|now left]. }
  destruct type.
  - destruct (parseBatch entry) as [[invocation range]|e0].
    2:{ split; [discriminate|].
        split; [intros e He; inversion He; right; left; auto|].
        split; [discriminate|].
        split; [exists []; now rewrite app_nil_r|now left]. }
    cbn [fst snd].
    destruct (negb (skipDbCheck mode)
              && negb (skipApplyingDbCheckBatchOnSecondary settings)).
    + match goal with
      | |- let '(_, _) := ?r in _ => destruct r as [o w'] eqn:Hv
      end.
      apply dbCheckBatchOnSecondary_world in Hv.
      destruct Hv as [Ho [added [Hlog [Hb _]]]]. subst o.
      split; [intros s Hs; now inversion Hs|].
      split; [discriminate|]. split; [discriminate|].
      split; [now exists added|exact Hb].
    + unfold log, ret. cbn [logHealth logDebug healthLog batchesProcessed].
      split; [intros s Hs; now inversion Hs|].
      split; [discriminate|]. split; [discriminate|].
      split; [eexists; reflexivity|now left].
  - unfold ret.
    split; [intros s Hs; now inversion Hs|].
    split; [discriminate|]. split; [auto|].
    split; [exists []; now rewrite app_nil_r|now left].
  - destruct (parseStartStop entry) as [invocation|e0].
    2:{ split; [discriminate|].
        split; [intros e He; inversion He; right; right; auto|].
        split; [discriminate|].
        split; [exists []; now rewrite app_nil_r|now left]. }
    unfold log, ret. cbn [logHealth healthLog batchesProcessed].
    split; [intros s Hs; now inversion Hs|].
    split; [discriminate|]. split; [discriminate|].
    split; [eexists; reflexivity|now left].
  - destruct (parseStartStop entry) as [invocation|e0].
    2:{ split; [discriminate|].
        split; [intros e He; inversion He; right; right; auto|].
        split; [discriminate|].
        split; [exists []; now rewrite app_nil_r|now left]. }
    unfold log, ret. cbn [logHealth healthLog batchesProcessed].
    split; [intros s Hs; now inversion Hs|].
    split; [discriminate|]. split; [discriminate|].
    split; [eexists; reflexivity|now left].
Qed.

(** *** Renderings for the health log *)

(** X23. Operations and validation modes keep their names apart.  No two
    operations are rendered to the same string for the health log, and no
    two validation modes are, so an entry's operation tells which kind of
    oplog entry it is for. *)
Theorem renderForHealthLog_injective :
  (forall a b : OplogEntriesEnum.t,
      renderForHealthLog a = renderForHealthLog b -> a = b)
  /\ (forall a b : DbCheckValidationModeEnum.t,
        renderForHealthLog_validateMode a = renderForHealthLog_validateMode b ->
        a = b).
Proof.
  forget_libraries.
  split; intros a b; destruct a, b; cbn; intro H;
    try reflexivity; discriminate.
Qed.

(** *** The range of an index scan in a table in key-string order *)

Lemma key_string_compare_antisym (l r : list byte) :
  key_string_compare r l = CompOpp (key_string_compare l r).
Proof.
  forget_libraries.
  revert r. induction l as [|a l IH]; intros [|b r]; cbn; try reflexivity.
  rewrite (N.compare_antisym (Byte.to_N a) (Byte.to_N b)).
  destruct (N.compare (Byte.to_N a) (Byte.to_N b)); cbn; auto.
Qed.

Lemma key_string_compare_lt_trans (a b c : list byte) :
  key_string_compare a b = Lt ->
  key_string_compare b c = Lt ->
  key_string_compare a c = Lt.
Proof.
  forget_libraries.
  revert b c. induction a as [|x a IH]; intros [|y b] [|z c]; cbn;
    try congruence.
  destruct (N.compare_spec (Byte.to_N x) (Byte.to_N y)) as [Hxy|Hxy|Hxy];
    destruct (N.compare_spec (Byte.to_N y) (Byte.to_N z)) as [Hyz|Hyz|Hyz];
    try congruence; intros H1 H2.
  - rewrite Hxy, Hyz, N.compare_refl. eauto.
  - rewrite Hxy. now apply N.compare_lt_iff in Hyz as ->.
  - rewrite <- Hyz. now apply N.compare_lt_iff in Hxy as ->.
  - assert (Hxz : (Byte.to_N x < Byte.to_N z)%N) by lia.
    now apply N.compare_lt_iff in Hxz as ->.
Qed.

(** In the order of the key bytes, at most and at most give at most. *)
Lemma key_string_compare_le_trans (a b c : list byte) :
  key_string_compare a b <> Gt ->
  key_string_compare b c <> Gt ->
  key_string_compare a c <> Gt.
Proof.
  forget_libraries.
  intros Hab Hbc.
  destruct (key_string_compare a b) eqn:E1; [| |congruence].
  - apply key_string_compare_eq in E1. now subst b.
  - destruct (key_string_compare b c) eqn:E2; [| |congruence].
    + apply key_string_compare_eq in E2. subst c. rewrite E1. discriminate.
    + rewrite (key_string_compare_lt_trans a b c E1 E2). discriminate.
Qed.

Lemma compareKeyString_bytes (a b : KeyString) :
  compareKeyString a b = Lt ->
  key_string_compare (keyBytes a) (keyBytes b) <> Gt.
Proof.
  forget_libraries.
  unfold compareKeyString.
  destruct (key_string_compare (keyBytes a) (keyBytes b)); congruence.
Qed.

(** Against a search key without RecordId, an entry is before the key
    exactly when its bytes are. *)
Lemma compareKeyString_search (k : KeyString) (bytes : list byte) :
  compareKeyString k (mkKeyString bytes None) = Lt
  <-> key_string_compare (keyBytes k) bytes = Lt.
Proof.
  forget_libraries.
  unfold compareKeyString. cbn [keyBytes ksRecordId].
  destruct (key_string_compare (keyBytes k) bytes); try tauto.
  destruct (ksRecordId k); split; discriminate.
Qed.

Lemma strictlySorted_seekPosition (q : KeyString) :
  forall table : SortedData,
    strictlySorted table -> strictlySorted (seekPosition table q).
Proof.
  forget_libraries.
  induction table as [|a rest IH]; intro Hsorted; [exact I|].
  cbn [seekPosition].
  destruct (compareKeyString (keyString a) q); try exact Hsorted.
  apply IH. cbn [strictlySorted] in Hsorted. tauto.
Qed.

Lemma filter_all {A : Type} (f : A -> bool) (l : list A) :
  Forall (fun x => f x = true) l -> filter f l = l.
Proof.
  forget_libraries.
  induction 1 as [|x l Hx _ IH]; [reflexivity|].
  cbn [filter]. now rewrite Hx, IH.
Qed.

Lemma filter_none {A : Type} (f : A -> bool) (l : list A) :
  Forall (fun x => f x = false) l -> filter f l = [].
Proof.
  forget_libraries.
  induction 1 as [|x l Hx _ IH]; [reflexivity|].
  cbn [filter]. now rewrite Hx.
Qed.

Lemma key_string_compare_le_lt_trans (a b c : list byte) :
  key_string_compare a b <> Gt ->
  key_string_compare b c = Lt ->
  key_string_compare a c = Lt.
Proof.
  forget_libraries.
  intros Hab Hbc.
  destruct (key_string_compare a b) eqn:E1; [| |congruence].
  - apply key_string_compare_eq in E1. now subst b.
  - exact (key_string_compare_lt_trans a b c E1 Hbc).
Qed.

(** In a table in strict key-string order, the entries from the seek
    position on are those whose bytes are not before the start key. *)
Lemma seekPosition_filter (startKey : list byte) :
  forall table : SortedData,
    strictlySorted table ->
    seekPosition table (mkKeyString startKey None)
    = filter (fun e =>
                match key_string_compare (entryBytes e) startKey with
                | Lt => false
                | _ => true
                end) table.
Proof.
  forget_libraries.
  induction table as [|a rest IH]; intro Hsorted; [reflexivity|].
  cbn [strictlySorted] in Hsorted. destruct Hsorted as [Hafter Hrest].
  assert (Hkeep :
            key_string_compare (keyBytes (keyString a)) startKey <> Lt ->
            filter (fun e =>
                      match key_string_compare (entryBytes e) startKey with
                      | Lt => false
                      | _ => true
                      end) rest = rest).
  { intro Hb. apply filter_all.
    eapply Forall_impl; [|exact Hafter]. intros e He.
    apply compareKeyString_bytes in He. unfold entryBytes.
    destruct (key_string_compare (keyBytes (keyString e)) startKey) eqn:Hk;
      try reflexivity.
    exfalso. apply Hb.
    exact (key_string_compare_le_lt_trans _ _ _ He Hk). }
  cbn [seekPosition filter]. unfold entryBytes at 1.
  destruct (compareKeyString (keyString a) (mkKeyString startKey None)) eqn:Hc.
  - assert (Hb : key_string_compare (keyBytes (keyString a)) startKey <> Lt).
    { intro H. apply compareKeyString_search in H. congruence. }
    rewrite (Hkeep Hb).
    destruct (key_string_compare (keyBytes (keyString a)) startKey);
      congruence.
  - apply compareKeyString_search in Hc. rewrite Hc. now apply IH.
  - assert (Hb : key_string_compare (keyBytes (keyString a)) startKey <> Lt).
    { intro H. apply compareKeyString_search in H. congruence. }
    rewrite (Hkeep Hb).
    destruct (key_string_compare (keyBytes (keyString a)) startKey);
      congruence.
Qed.

(** In a list in strict key-string order, the entries up to the first one
    past an inclusive end key are those whose bytes are not after it. *)
Lemma entriesWithinEnd_filter (endKey : list byte) :
  forall pos : SortedData,
    strictlySorted pos ->
    entriesWithinEnd (Some (endKey, true)) pos
    = filter (fun e =>
                match key_string_compare (entryBytes e) endKey with
                | Gt => false
                | _ => true
                end) pos.
Proof.
  forget_libraries.
  induction pos as [|a rest IH]; intro Hsorted; [reflexivity|].
  cbn [strictlySorted] in Hsorted. destruct Hsorted as [Hafter Hrest].
  cbn [entriesWithinEnd filter withinEnd]. unfold entryBytes at 1.
  destruct (key_string_compare (keyBytes (keyString a)) endKey) eqn:Hk.
  - now rewrite IH.
  - now rewrite IH.
  - symmetry. apply filter_none.
    eapply Forall_impl; [|exact Hafter]. intros e He.
    apply compareKeyString_bytes in He. unfold entryBytes.
    destruct (key_string_compare (keyBytes (keyString e)) endKey) eqn:Hk';
      try reflexivity; exfalso;
      apply (key_string_compare_le_trans _ _ endKey He); congruence.
Qed.

Lemma strictlySorted_filter (f : KeyStringEntry -> bool) :
  forall table : SortedData,
    strictlySorted table -> strictlySorted (filter f table).
Proof.
  forget_libraries.
  induction table as [|a rest IH]; intro Hsorted; [exact I|].
  cbn [strictlySorted] in Hsorted. destruct Hsorted as [Hafter Hrest].
  cbn [filter]. destruct (f a); [|now apply IH].
  cbn [strictlySorted]. split; [|now apply IH].
  rewrite Forall_forall in *. intros e He. apply filter_In in He.
  apply Hafter. tauto.
Qed.

(** The range of a scan of a table in strict key-string order: the entries
    whose key bytes lie between the start key and the end key. *)
Lemma scannedRange_filter (table : SortedData) (startKey endKey : list byte) :
  strictlySorted table ->
  scannedRange table startKey endKey = filter (inBounds startKey endKey) table.
Proof.
  forget_libraries.
  intro Hsorted. unfold scannedRange.
  rewrite (seekPosition_filter startKey table Hsorted).
  rewrite entriesWithinEnd_filter by now apply strictlySorted_filter.
  clear Hsorted. induction table as [|a rest IH]; [reflexivity|].
  cbn [filter]. unfold inBounds at 1.
  destruct (key_string_compare (entryBytes a) startKey);
    cbn [filter];
    destruct (key_string_compare (entryBytes a) endKey);
    try (f_equal; exact IH); exact IH.
Qed.

(** X24. Which keys an index scan hashes.  In an index table in strict
    key-string order, a call of [hashForExtraIndexKeysCheck] that is not
    interrupted and does not reach the ceiling on keys equal to the end key
    returns OK and has folded into the digest the key bytes of exactly the
    entries of the table whose key lies between the start key and the end
    key, both included, in the order of the table; [keysSeen] has grown by
    their number. *)
Theorem index_scan_covers_range (opCtx : OperationContext)
  (iam : IndexCatalogEntry) (batchStartBson batchEndBson : BSONObj)
  (h : DbCheckHasher) (w : World) :
  strictlySorted (sortedData iam) ->
  (forall j, isOK (checkForInterruptNoAssert opCtx j) = true) ->
  let startKey := bsonToKeyString batchStartBson in
  let endKey := bsonToKeyString batchEndBson in
  let inRange := filter (inBounds startKey endKey) (sortedData iam) in
  Z.of_nat (countEqual endKey inRange)
  < dbCheckMaxConsecutiveIdenticalIndexKeysPerSnapshot opCtx ->
  exists h' w',
    hashForExtraIndexKeysCheck opCtx iam batchStartBson batchEndBson h w
    = (Returned Status_OK, h', w')
    /\ _state h' = _state h ++ flat_map entryBytes inRange
    /\ keysSeen h' = keysSeen h + Z.of_nat (List.length inRange)
    /\ forall e,
         In e inRange
         <-> In e (sortedData iam)
             /\ key_string_compare (entryBytes e) startKey <> Lt
             /\ key_string_compare (entryBytes e) endKey <> Gt.
Proof.
  forget_libraries.
  intros Hsorted Hok. cbn zeta. intro Hbelow.
  destruct (hashForExtraIndexKeysCheck_absorbs opCtx iam batchStartBson
              batchEndBson h w Hok) as [w' [_ Hrun]].
  rewrite (scannedRange_filter _ _ _ Hsorted) in Hrun.
  rewrite untilCeiling_below in Hrun by (rewrite Z.add_0_l; exact Hbelow).
  eexists _, w'. split; [exact Hrun|].
  set (inRange := filter (inBounds (bsonToKeyString batchStartBson)
                            (bsonToKeyString batchEndBson)) (sortedData iam)).
  set (ha := fold_left (absorbEntry (bsonToKeyString batchEndBson)) inRange
               (set_nConsecutive h 0)).
  assert (Hst : _state ha = _state h ++ flat_map entryBytes inRange).
  { unfold ha. now rewrite absorbEntry_fold_state. }
  assert (Hk : _countKeysSeen ha
               = _countKeysSeen h + Z.of_nat (List.length inRange)).
  { unfold ha. now rewrite absorbEntry_fold_keys. }
  clearbody ha. unfold keysSeen.
  split; [destruct (_countKeysSeen ha =? 0); exact Hst|].
  split; [destruct (_countKeysSeen ha =? 0); exact Hk|].
  intro e. unfold inRange. rewrite filter_In. unfold inBounds.
  destruct (key_string_compare (entryBytes e) (bsonToKeyString batchStartBson));
    destruct (key_string_compare (entryBytes e) (bsonToKeyString batchEndBson));
    split; intros [Hin Hb]; split; try assumption;
    try discriminate; try reflexivity;
    try (split; discriminate); try (destruct Hb as [Hb1 Hb2]; congruence).
Qed.

(** *** A scan with nothing to report *)

Lemma itemEffect_Hashed_indexes (collPtr : Collection) (h h' : DbCheckHasher)
  (currentObjId : BSONObj) (currentRecordId : RecordId) :
  itemEffect collPtr h currentObjId currentRecordId = Hashed h' ->
  _indexes h' = _indexes h.
Proof.
  forget_libraries.
  unfold itemEffect.
  destruct (findRecord collPtr currentRecordId) as [record|]; [|discriminate].
  destruct (negb (hasField record "_id")); [discriminate|].
  destruct (negb (_canHashForCollectionCheck h record)); [discriminate|].
  intro H. inversion H. clear H.
  destruct (isMissingIndexKeysMode (_secondaryIndexCheckParameters h));
    unfold probedHasher; hasher_fields; reflexivity.
Qed.

Lemma nothingToReport_same (collPtr : Collection) (h g : DbCheckHasher)
  (rid : RecordId) :
  _secondaryIndexCheckParameters g = _secondaryIndexCheckParameters h ->
  _indexes g = _indexes h ->
  nothingToReport collPtr h rid -> nothingToReport collPtr g rid.
Proof.
  forget_libraries.
  intros Hp Hi [record [Hrec H]]. exists record. split; [exact Hrec|].
  rewrite Hp, Hi. exact H.
Qed.

Lemma nothingToReport_missingReports (collPtr : Collection)
  (h : DbCheckHasher) (rid : RecordId) (record : RecordData)
  (p : SecondaryIndexCheckParameters) :
  nothingToReport collPtr h rid ->
  findRecord collPtr rid = Some record ->
  _secondaryIndexCheckParameters h = Some p ->
  isMissingIndexKeysMode (Some p) = true ->
  isOK (validateBSON record (getBsonValidateMode p)) = true
  /\ missingReports record rid (_indexes h) = [].
Proof.
  forget_libraries.
  intros [record' [Hrec' H]] Hrec Hp Hmode.
  assert (record' = record) by congruence. subst record'.
  assert (Hm : getValidateMode p
               = DbCheckValidationModeEnum.dataConsistencyAndMissingIndexKeysCheck).
  { unfold isMissingIndexKeysMode in Hmode.
    destruct (getValidateMode p); congruence. }
  destruct (H p Hp Hm) as [Hvalid Hkeys]. split; [exact Hvalid|].
  destruct (missingReports record rid (_indexes h)) as [|r l] eqn:Hr;
    [reflexivity|].
  assert (Hin : In r (missingReports record rid (_indexes h))).
  { rewrite Hr. now left. }
  apply in_missingReports in Hin.
  destruct Hin as [entry [key [Hentry [Hpartial [Hunsup [Hkey [Hmiss _]]]]]]].
  rewrite (Hkeys entry key Hentry Hpartial Hunsup Hkey) in Hmiss.
  discriminate.
Qed.

(** One pass of the loop body over an item with nothing to report leaves
    the health log as it was. *)
Lemma collectionCheckBody_clean (opCtx : OperationContext)
  (collPtr : Collection) (deadline : Date_t) (i : nat) (h : DbCheckHasher)
  (w : World) (currentObjId : BSONObj) (currentRecordId : RecordId) :
  nothingToReport collPtr h currentRecordId ->
  exists w',
    collectionCheckBody opCtx collPtr deadline i h w currentObjId currentRecordId
    = controlOf (checkForInterruptNoAssert opCtx i)
        (itemEffect collPtr h currentObjId currentRecordId)
        (now opCtx i >? deadline) h w'
    /\ healthLog w' = healthLog w.
Proof.
  forget_libraries.
  intro Hclean.
  unfold collectionCheckBody, controlOf, itemEffect.
  destruct (negb (isOK (checkForInterruptNoAssert opCtx i))).
  { exists w. split; reflexivity. }
  destruct (findRecord collPtr currentRecordId) as [record|] eqn:Hrec.
  2:{ destruct Hclean as [record [Hrec' _]]. congruence. }
  assert (Hlog1 : healthLog
                    (validateRecord h w collPtr record currentRecordId
                       (rehydrateKey idKeyPattern currentObjId))
                  = healthLog w).
  { rewrite validateRecord_log.
    destruct (_secondaryIndexCheckParameters h) as [p|] eqn:Hp;
      [|apply app_nil_r].
    destruct (isMissingIndexKeysMode (Some p)) eqn:Hmode;
      [|apply app_nil_r].
    destruct (nothingToReport_missingReports collPtr h currentRecordId record p
                Hclean Hrec Hp Hmode) as [Hvalid _].
    rewrite Hvalid. apply app_nil_r. }
  destruct (negb (hasField record "_id")).
  { eexists. split; [reflexivity|exact Hlog1]. }
  destruct (negb (_canHashForCollectionCheck h record)).
  { eexists. split; [reflexivity|exact Hlog1]. }
  pose proof (checkMissingKeys_hasher h
                (validateRecord h w collPtr record currentRecordId
                   (rehydrateKey idKeyPattern currentObjId))
                collPtr record currentRecordId
                (rehydrateKey idKeyPattern currentObjId)) as Hh.
  pose proof (checkMissingKeys_world h
                (validateRecord h w collPtr record currentRecordId
                   (rehydrateKey idKeyPattern currentObjId))
                collPtr record currentRecordId
                (rehydrateKey idKeyPattern currentObjId)) as [Hlog2 _].
  assert (Hnone : (if isMissingIndexKeysMode (_secondaryIndexCheckParameters h)
                   then
                     match missingReports record currentRecordId (_indexes h) with
                     | [] => []
                     | _ :: _ =>
                         [missingKeysEntry
                            (fst (checkMissingKeys h
                                    (validateRecord h w collPtr record
                                       currentRecordId
                                       (rehydrateKey idKeyPattern currentObjId))
                                    collPtr record currentRecordId
                                    (rehydrateKey idKeyPattern currentObjId)))
                            collPtr
                            (mkStatus ErrorCodes.NoSuchKey
                               "Document has missing index keys")
                            currentRecordId
                            (rehydrateKey idKeyPattern currentObjId)]
                     end
                   else []) = []).
  { destruct (_secondaryIndexCheckParameters h) as [p|] eqn:Hp;
      [|reflexivity].
    destruct (isMissingIndexKeysMode (Some p)) eqn:Hmode; [|reflexivity].
    destruct (nothingToReport_missingReports collPtr h currentRecordId record p
                Hclean Hrec Hp Hmode) as [_ Hmiss].
    now rewrite Hmiss. }
  rewrite Hnone, app_nil_r, Hlog1 in Hlog2.
  destruct (checkMissingKeys _ _ _ _ _ _) as [h2 w2].
  cbn [fst] in Hh. cbn [snd] in Hlog2. rewrite Hh.
  exists w2. split; [destruct (now opCtx i >? deadline); reflexivity|].
  exact Hlog2.
Qed.

Lemma collectionCheckLoop_clean (opCtx : OperationContext)
  (collPtr : Collection) (deadline : Date_t) :
  forall (exec : PlanExecutorScript) (i : nat) (h : DbCheckHasher) (w : World),
    (forall objId rid,
        In (Advanced objId rid) exec -> nothingToReport collPtr h rid) ->
    healthLog (exitWorld (collectionCheckLoop opCtx collPtr deadline i h w exec))
    = healthLog w.
Proof.
  forget_libraries.
  induction exec as [|g rest IH]; intros i h w Hclean; [reflexivity|].
  destruct g as [objId rid|e]; [|reflexivity].
  cbn [collectionCheckLoop].
  assert (Hhere : nothingToReport collPtr (set_exec h rest) rid).
  { apply (nothingToReport_same collPtr h); try reflexivity.
    apply (Hclean objId). now left. }
  destruct (collectionCheckBody_clean opCtx collPtr deadline i (set_exec h rest)
              w objId rid Hhere) as [w' [Hb Hlog]].
  rewrite Hb. clear Hb. unfold controlOf.
  destruct (negb (isOK (checkForInterruptNoAssert opCtx i))); [exact Hlog|].
  destruct (itemEffect collPtr (set_exec h rest) objId rid) as [|s|h'] eqn:He.
  - rewrite IH; [exact Hlog|].
    intros o r Hin. apply (nothingToReport_same collPtr h); try reflexivity.
    apply (Hclean o). now right.
  - exact Hlog.
  - pose proof (itemEffect_Hashed_key _ _ _ _ _ He) as [_ Hp].
    pose proof (itemEffect_Hashed_indexes _ _ _ _ _ He) as Hi.
    cbn [set_exec _secondaryIndexCheckParameters _indexes] in Hp, Hi.
    destruct (now opCtx i >? deadline); [exact Hlog|].
    rewrite IH; [exact Hlog|].
    intros o r Hin. apply (nothingToReport_same collPtr h); try assumption.
    apply (Hclean o). now right.
Qed.

(** X25. A scan with nothing to report logs nothing.  When every item of
    the cursor has its record and, in the missing-index-keys mode, every
    record passes [validateBSON] and every expected key of every index the
    check probes is found under the record, [hashForCollectionCheck] leaves
    the health log exactly as it found it, however the call ends. *)
Theorem clean_scan_logs_nothing (opCtx : OperationContext)
  (collPtr : Collection) (deadline : Date_t) (h : DbCheckHasher) (w : World) :
  (forall objId rid,
      In (Advanced objId rid) (_exec h) ->
      exists record,
        findRecord collPtr rid = Some record
        /\ forall p,
             _secondaryIndexCheckParameters h = Some p ->
             getValidateMode p
             = DbCheckValidationModeEnum.dataConsistencyAndMissingIndexKeysCheck ->
             isOK (validateBSON record (getBsonValidateMode p)) = true
             /\ forall entry key,
                  In entry (_indexes h) ->
                  isPartial (descriptor entry) && negb (matchesBSON entry record)
                  = false ->
                  (getAccessMethodName (descriptor entry) = IndexNames.BTREE
                   \/ getAccessMethodName (descriptor entry) = IndexNames.HASHED) ->
                  In key
                    (getKeys entry record
                       (if unique (descriptor entry) then None else Some rid)) ->
                  exists ksEntry,
                    seekForKeyString (sortedData entry) None key = Some ksEntry
                    /\ loc ksEntry = rid) ->
  let '(_, _, w') := hashForCollectionCheck opCtx collPtr deadline h w in
  healthLog w' = healthLog w.
Proof.
  forget_libraries.
  intro Hclean.
  assert (Hitems : forall objId rid,
             In (Advanced objId rid) (_exec h) -> nothingToReport collPtr h rid).
  { intros objId rid Hin. destruct (Hclean objId rid Hin) as [record [Hrec H]].
    exists record. split; [exact Hrec|].
    intros p Hp Hm. destruct (H p Hp Hm) as [Hvalid Hkeys].
    split; [exact Hvalid|].
    intros entry key Hentry Hpartial Hunsup Hkey.
    assert (Hmethod : getAccessMethodName (descriptor entry) = IndexNames.BTREE
                      \/ getAccessMethodName (descriptor entry)
                         = IndexNames.HASHED).
    { unfold skipsUnsupported in Hunsup.
      destruct (getAccessMethodName (descriptor entry)); cbn in Hunsup;
        try discriminate; auto. }
    destruct (Hkeys entry key Hentry Hpartial Hmethod Hkey)
      as [ksEntry [Hseek Hloc]].
    unfold keyIsMissing. rewrite Hseek, Hloc, Z.eqb_refl. reflexivity. }
  unfold hashForCollectionCheck.
  pose proof (collectionCheckLoop_clean opCtx collPtr deadline (_exec h) 0 h w
                Hitems) as Hlog.
  destruct (collectionCheckLoop opCtx collPtr deadline 0 h w (_exec h))
    as [ha wa|ha wa|s ha wa|e ha wa]; exact Hlog.
Qed.

End DbCheck.

(** ** The model on concrete inputs *)

(** C7 on the keys 1, 3, 3, 3, 4 with [_maxCount] 3, from 1 to the end key
    3: the keys 1, 3, 3, 3 are consumed and the run length reported is 3. *)
Lemma duplicate_run_absorbed_witness :
  (forall j, isOK (checkForInterruptNoAssert exOpCtx j) = true)
  /\ scannedRange exTable [x01] [x03]
     = [exEntry x01 10] ++ [exEntry x03 11; exEntry x03 12; exEntry x03 13]
  /\ _maxCount exIndexHasher = 3
  /\ exists h' w',
       hashForExtraIndexKeysCheck exKeyStringToBson exBsonToKeyString exOpCtx
         exIndex [x01] [x03] exIndexHasher exWorld
       = (Returned Status_OK, h', w')
       /\ _state h' = [x01; x03; x03; x03]
       /\ keysSeen h' = 4
       /\ nConsecutiveIdenticalIndexKeysSeenAtEnd h' = 3.
Proof.
  split; [reflexivity|]. split; [reflexivity|]. split; [reflexivity|].
  destruct (duplicate_run_absorbed exKeyStringToBson exBsonToKeyString exOpCtx
              exIndex [x01] [x03] exIndexHasher exWorld
              [exEntry x01 10] [exEntry x03 11; exEntry x03 12; exEntry x03 13])
    as [h' [w' [Hrun [Hstate [Hkeys [Hn _]]]]]].
  - reflexivity.
  - reflexivity.
  - repeat constructor; discriminate.
  - repeat constructor.
  - exists h', w'. split; [exact Hrun|]. split; [exact Hstate|].
    split; [exact Hkeys|exact Hn].
Defined.

(** C8 on the same index, from key 5 to key 9: nothing is scanned and the
    last key seen is the upper key the hasher was built with. *)
Lemma empty_range_lastKeySeen_is_maxKey_witness :
  scannedRange exTable [x05] [x09] = []
  /\ exists h h' w',
       newDbCheckHasher exCollection [x05] [x09] None (Some "a_1"%string) 3 1000
       = Returned h
       /\ hashForExtraIndexKeysCheck exKeyStringToBson exBsonToKeyString exOpCtx
            exIndex [x05] [x09] h exWorld
          = (Returned Status_OK, h', w')
       /\ keysSeen h' = 0
       /\ _maxKey h' = [x09]
       /\ lastKeySeen h' = [x09].
Proof.
  split; [reflexivity|].
  apply (empty_range_lastKeySeen_is_maxKey exKeyStringToBson exBsonToKeyString
           exOpCtx exCollection [x05] [x09] None "a_1"%string 3 1000 exIndex
           [x05] [x09] exWorld).
  reflexivity.
Defined.

(** C10 on the same index with both ceilings at zero: the four entries up
    to the end key are all hashed and counted. *)
Lemma extra_index_keys_ignore_ceilings_witness :
  (forall j, isOK (checkForInterruptNoAssert exOpCtx j) = true)
  /\ exists h' w',
       hashForExtraIndexKeysCheck exKeyStringToBson exBsonToKeyString exOpCtx
         exIndex [x01] [x03] (set_maxCount (set_maxBytes exIndexHasher 0) 0) exWorld
       = (Returned Status_OK, h', w')
       /\ _state h' = [x01; x03; x03; x03]
       /\ keysSeen h' = 4
       /\ bytesSeen h' = 4
       /\ _maxCount h' = 0 /\ _maxBytes h' = 0.
Proof.
  split; [reflexivity|].
  destruct (extra_index_keys_ignore_ceilings exKeyStringToBson exBsonToKeyString
              exOpCtx exIndex [x01] [x03] exIndexHasher exWorld 0 0)
    as [h' [w' [Hrun [Hstate [Hkeys [Hbytes [Hmc [Hmb _]]]]]]]].
  - reflexivity.
  - exists h', w'. repeat split; assumption.
Defined.

(** C6 on the cursor [11; 14] of the example collection, where record 11 is
    missing. *)
Lemma missing_record_skipped_witness :
  isOK (checkForInterruptNoAssert exOpCtx 0) = true
  /\ findRecord exCollection 11 = None
  /\ let h := exHasher None 10 1000 [] in
     let e := missingRecordEntry h exCollection 11 [x02] in
     collectionCheckBody exValidateBSON exHasField exObjsize exRehydrateKey
       exKeyStringToBson exRecordIdToString exOpCtx exCollection 1000 0 h
       exWorld [x02] 11
     = Continue h (logHealth exWorld e)
     /\ getSeverity e = SeverityEnum.Error
     /\ collectionCheckLoop exValidateBSON exHasField exObjsize exRehydrateKey
          exKeyStringToBson exRecordIdToString exOpCtx exCollection 1000 0 h
          exWorld [Advanced [x02] 11; Advanced [x04] 14]
        = collectionCheckLoop exValidateBSON exHasField exObjsize exRehydrateKey
            exKeyStringToBson exRecordIdToString exOpCtx exCollection 1000 1
            (set_exec h [Advanced [x04] 14]) (logHealth exWorld e)
            [Advanced [x04] 14].
Proof.
  split; [reflexivity|]. split; [reflexivity|]. cbv zeta.
  destruct (missing_record_skipped exValidateBSON exHasField exObjsize
              exRehydrateKey exKeyStringToBson exRecordIdToString exOpCtx
              exCollection 1000 0%nat (exHasher None 10 1000 []) exWorld
              [x02] 11 [Advanced [x04] 14] eq_refl eq_refl)
    as [Hbody [_ [Hsev [_ Hloop]]]].
  split; [exact Hbody|]. split; [exact Hsev|exact Hloop].
Defined.

(** Against C5 as written: in the missing-index-keys mode the record 13, whose bytes
    fail validation, is folded into the digest and counted. *)
Lemma malformed_document_is_hashed :
  isOK (exValidateBSON exTruncatedDoc BSONValidateModeEnum.kDefault) = false
  /\ exists h' w',
       hashForCollectionCheck exValidateBSON exHasField exObjsize exRehydrateKey
         exKeyStringToBson exRecordIdToString exOpCtx exCollection 1000
         (exHasher (Some exMissingKeysParameters) 10 1000 [Advanced [x03] 13])
         exWorld
       = (Returned Status_OK, h', w')
       /\ _state h' = exTruncatedDoc
       /\ _state h' <> []
       /\ docsSeen h' = 1.
Proof.
  split; [reflexivity|].
  eexists. eexists. split; [vm_compute; reflexivity|].
  split; [reflexivity|]. split; [discriminate|reflexivity].
Defined.

(** C5 as the code has it, on the same record. *)
Lemma malformed_document_logged_and_hashed_witness :
  let h := exHasher (Some exMissingKeysParameters) 10 1000 [] in
  let e :=
    malformedEntry h exCollection
      (exValidateBSON exTruncatedDoc BSONValidateModeEnum.kDefault) 13 [x03] in
  isOK (checkForInterruptNoAssert exOpCtx 0) = true
  /\ findRecord exCollection 13 = Some exTruncatedDoc
  /\ isOK (exValidateBSON exTruncatedDoc BSONValidateModeEnum.kDefault) = false
  /\ getSeverity e = SeverityEnum.Error
  /\ exists h' w',
       (collectionCheckBody exValidateBSON exHasField exObjsize exRehydrateKey
          exKeyStringToBson exRecordIdToString exOpCtx exCollection 1000 0 h
          exWorld [x03] 13 = Continue h' w'
        \/ collectionCheckBody exValidateBSON exHasField exObjsize exRehydrateKey
             exKeyStringToBson exRecordIdToString exOpCtx exCollection 1000 0 h
             exWorld [x03] 13 = Break h' w')
       /\ _state h' = exTruncatedDoc
       /\ docsSeen h' = 1.
Proof.
  cbv zeta.
  split; [reflexivity|]. split; [reflexivity|]. split; [reflexivity|].
  destruct (malformed_document_logged_and_hashed exValidateBSON exHasField
              exObjsize exRehydrateKey exKeyStringToBson exRecordIdToString
              exOpCtx exCollection 1000 0%nat
              (exHasher (Some exMissingKeysParameters) 10 1000 []) exWorld
              [x03] 13 exTruncatedDoc exMissingKeysParameters
              eq_refl eq_refl eq_refl eq_refl eq_refl)
    as [_ [Hsev [_ Hhashed]]].
  split; [exact Hsev|].
  destruct (Hhashed eq_refl eq_refl) as [h' [w' [Hres [Hstate [Hdocs _]]]]].
  exists h', w'. split; [exact Hres|]. split; [exact Hstate|exact Hdocs].
Defined.



(** Against C3 as written.  Over the one-key range [11], whose record is missing, the
    batch completes with OK and is empty; and with [_maxCount] 0 the first
    document is still hashed, so the batch holds more documents than the
    ceiling. *)
Lemma collection_batch_can_be_empty :
  (exists h' w',
      hashForCollectionCheck exValidateBSON exHasField exObjsize exRehydrateKey
        exKeyStringToBson exRecordIdToString exOpCtx exCollection 1000
        (exHasher None 10 1000 [Advanced [x02] 11]) exWorld
      = (Returned Status_OK, h', w')
      /\ _exec (exHasher None 10 1000 [Advanced [x02] 11]) <> []
      /\ docsSeen h' = 0
      /\ _state h' = [])
  /\ (exists h' w',
        hashForCollectionCheck exValidateBSON exHasField exObjsize exRehydrateKey
          exKeyStringToBson exRecordIdToString exOpCtx exCollection 1000
          (exHasher None 0 1000 [Advanced [x01] 10]) exWorld
        = (Returned Status_OK, h', w')
        /\ docsSeen h' = 1
        /\ ~ docsSeen h' <= _maxCount h').
Proof.
  split.
  - eexists. eexists. split; [vm_compute; reflexivity|].
    split; [discriminate|]. split; reflexivity.
  - eexists. eexists. split; [vm_compute; reflexivity|].
    split; [reflexivity|]. vm_compute. intro H. apply H. reflexivity.
Defined.

Lemma exFindRecord_sizes (rid : RecordId) (record : RecordData) :
  findRecord exCollection rid = Some record -> 0 <= exObjsize record.
Proof.
  cbn [findRecord exCollection]. unfold exFindRecord.
  repeat (destruct (rid =? _);
          [intro H; inversion H; vm_compute; discriminate|]).
  discriminate.
Qed.

(** C3 as the code has it, with [_maxCount] 1 over the cursor
    [10; 11; 14]: record 10 is hashed, 11 is missing, 14 is refused. *)
Lemma collection_batch_within_ceilings_witness :
  let h :=
    exHasher None 1 1000
      [Advanced [x01] 10; Advanced [x02] 11; Advanced [x04] 14] in
  docsSeen h = 0 /\ keysSeen h = 0 /\ bytesSeen h = 0
  /\ exists h' w',
       hashForCollectionCheck exValidateBSON exHasField exObjsize exRehydrateKey
         exKeyStringToBson exRecordIdToString exOpCtx exCollection 1000 h exWorld
       = (Returned Status_OK, h', w')
       /\ docsSeen h' = 1
       /\ (docsSeen h' <= 1
           \/ (docsSeen h' <= _maxCount h /\ bytesSeen h' <= _maxBytes h))
       /\ 1 <= docsSeen h'.
Proof.
  cbv zeta. split; [reflexivity|]. split; [reflexivity|]. split; [reflexivity|].
  pose proof (collection_batch_within_ceilings exValidateBSON exHasField
                exObjsize exRehydrateKey exKeyStringToBson exRecordIdToString
                exOpCtx exCollection 1000
                (exHasher None 1 1000
                   [Advanced [x01] 10; Advanced [x02] 11; Advanced [x04] 14])
                exWorld eq_refl eq_refl eq_refl exFindRecord_sizes) as H.
  destruct (hashForCollectionCheck exValidateBSON exHasField exObjsize
              exRehydrateKey exKeyStringToBson exRecordIdToString exOpCtx
              exCollection 1000
              (exHasher None 1 1000
                 [Advanced [x01] 10; Advanced [x02] 11; Advanced [x04] 14])
              exWorld) as [[outcome h'] w'] eqn:Hrun.
  destruct H as [_ [_ [Hceil [_ Hnonempty]]]].
  assert (Hout : outcome = Returned Status_OK)
    by (vm_compute in Hrun; inversion Hrun; reflexivity).
  assert (Hdocs : docsSeen h' = 1)
    by (vm_compute in Hrun; inversion Hrun; reflexivity).
  exists h', w'. rewrite Hout. split; [reflexivity|]. split; [exact Hdocs|].
  split; [exact Hceil|].
  apply Hnonempty; [exact Hout|].
  exists [x01], 10, (exDoc x01). split; [left; reflexivity|reflexivity].
Defined.


(** C2 on a batch whose acquisition throws: the verifier returns OK and
    the health log holds the one entry of the catch block. *)
Lemma verifier_always_returns_OK_witness :
  let '(outcome, w') :=
    dbCheckBatchOnSecondary exValidateBSON exHasField exObjsize exRehydrateKey
      exKeyStringToBson exBsonToKeyString exRecordIdToString exDigest
      9223372036854775807 9223372036854775807 9223372036854775807
      exFailingCatalog exOpCtx 5 exBatch [x01] [x04] exWorld in
  outcome = Returned Status_OK
  /\ healthLog w'
     = [caughtEntry exBatch
          (mkStatus ErrorCodes.SnapshotUnavailable "snapshot too old")]
  /\ getSeverity
       (caughtEntry exBatch
          (mkStatus ErrorCodes.SnapshotUnavailable "snapshot too old"))
     = SeverityEnum.Error.
Proof.
  pose proof (verifier_always_returns_OK exValidateBSON exHasField exObjsize
                exRehydrateKey exKeyStringToBson exBsonToKeyString
                exRecordIdToString exDigest
                9223372036854775807 9223372036854775807 9223372036854775807
                exFailingCatalog exOpCtx 5 exBatch [x01] [x04] exWorld) as H.
  cbv zeta in H.
  destruct (dbCheckBatchOnSecondary exValidateBSON exHasField exObjsize
              exRehydrateKey exKeyStringToBson exBsonToKeyString
              exRecordIdToString exDigest
              9223372036854775807 9223372036854775807 9223372036854775807
              exFailingCatalog exOpCtx 5 exBatch [x01] [x04] exWorld)
    as [outcome w'].
  destruct H as [Hok [Hcaught [_ [Hentry [Hacq _]]]]].
  split; [exact Hok|].
  destruct (Hcaught _ _ (Hacq _ eq_refl)) as [_ Hlog].
  split; [exact Hlog|].
  exact (proj1 (Hentry _)).
Defined.

(** C1 on two runs over the cursor [10; 11; 14] of the example collection:
    one with a quiet clock and empty logs, one whose clock passes the
    deadline at the last item and whose logs are not empty.  Both return OK
    with the digest input [exDoc 1 ++ exDoc 4]. *)
Lemma hasher_digest_deterministic_witness :
  let h :=
    exHasher None 10 1000
      [Advanced [x01] 10; Advanced [x02] 11; Advanced [x04] 14] in
  let r1 :=
    hashForCollectionCheck exValidateBSON exHasField exObjsize exRehydrateKey
      exKeyStringToBson exRecordIdToString exOpCtx exCollection 50 h exWorld in
  let r2 :=
    hashForCollectionCheck exValidateBSON exHasField exObjsize exRehydrateKey
      exKeyStringToBson exRecordIdToString exLateOpCtx exCollection 50 h
      exUsedWorld in
  fst (fst r1) = Returned Status_OK
  /\ fst (fst r2) = Returned Status_OK
  /\ notCutByDeadline exOpCtx 50 (snd (fst r1))
  /\ notCutByDeadline exLateOpCtx 50 (snd (fst r2))
  /\ lastKeySeen (snd (fst r1)) <> lastKeySeen (snd (fst r2))
  /\ _state (snd (fst r1)) = exDoc x01 ++ exDoc x04
  /\ _state (snd (fst r1)) = _state (snd (fst r2))
  /\ total exDigest (snd (fst r1)) = total exDigest (snd (fst r2)).
Proof.
  cbv zeta.
  pose proof (proj1 (hasher_digest_deterministic exValidateBSON exHasField
                       exObjsize exRehydrateKey exKeyStringToBson
                       exBsonToKeyString exRecordIdToString exDigest)
                exOpCtx exLateOpCtx 50 50 exCollection
                (exHasher None 10 1000
                   [Advanced [x01] 10; Advanced [x02] 11; Advanced [x04] 14])
                exWorld exUsedWorld) as H.
  destruct (hashForCollectionCheck exValidateBSON exHasField exObjsize
              exRehydrateKey exKeyStringToBson exRecordIdToString exOpCtx
              exCollection 50 _ exWorld) as [[o1 h1] w1] eqn:Hrun1.
  destruct (hashForCollectionCheck exValidateBSON exHasField exObjsize
              exRehydrateKey exKeyStringToBson exRecordIdToString exLateOpCtx
              exCollection 50 _ exUsedWorld) as [[o2 h2] w2] eqn:Hrun2.
  cbn [fst snd].
  vm_compute in Hrun1. vm_compute in Hrun2.
  injection Hrun1 as Ho1 Hh1 Hw1. injection Hrun2 as Ho2 Hh2 Hw2.
  subst o1 h1 w1 o2 h2 w2.
  assert (Hc1 : notCutByDeadline exOpCtx 50
                  (mkHasher (exDoc x01 ++ exDoc x04) [xff] None 10 1000 None []
                     [] [] [xff] 2 0 28 0)).
  { left. intro j. cbn. lia. }
  assert (Hc2 : notCutByDeadline exLateOpCtx 50
                  (mkHasher (exDoc x01 ++ exDoc x04) [xff] None 10 1000 None []
                     [] [] [x04] 2 0 28 0)).
  { right. reflexivity. }
  destruct H as [_ Hsame].
  destruct (Hsame Status_OK Status_OK eq_refl eq_refl Hc1 Hc2)
    as [_ [Hstate [Htotal _]]].
  split; [reflexivity|]. split; [reflexivity|].
  split; [exact Hc1|]. split; [exact Hc2|].
  split; [discriminate|].
  split; [reflexivity|].
  split; [exact Hstate|exact Htotal].
Defined.

(** X3 on a catalog in which the collection is gone. *)
Lemma verifier_collection_gone_witness :
  exGoneCatalog (getNss exBatch) (getReadTimestamp exBatch) = Returned None
  /\ dbCheckBatchOnSecondary exValidateBSON exHasField exObjsize exRehydrateKey
       exKeyStringToBson exBsonToKeyString exRecordIdToString exDigest
       9223372036854775807 9223372036854775807 9223372036854775807
       exGoneCatalog exOpCtx 5 exBatch [x01] [x04] exWorld
     = (Returned Status_OK, mkWorld [collectionGoneEntry exBatch] [] 0).
Proof.
  split; [reflexivity|].
  exact (proj1 (verifier_collection_gone exValidateBSON exHasField exObjsize
                  exRehydrateKey exKeyStringToBson exBsonToKeyString
                  exRecordIdToString exDigest
                  9223372036854775807 9223372036854775807 9223372036854775807
                  exGoneCatalog exOpCtx 5 exBatch [x01] [x04] exWorld eq_refl)).
Defined.

(** X4 on a batch for the index b_1, which the collection does not have. *)
Lemma verifier_index_not_found_witness :
  findIndexByName exCollection (getSecondaryIndex exExtraKeysParameters) = None
  /\ dbCheckBatchOnSecondary exValidateBSON exHasField exObjsize exRehydrateKey
       exKeyStringToBson exBsonToKeyString exRecordIdToString exDigest
       9223372036854775807 9223372036854775807 9223372036854775807
       exCatalog exOpCtx 5 exExtraKeysBatch [x01] [x04] exWorld
     = (Returned Status_OK,
        mkWorld [indexNotFoundEntry exExtraKeysBatch "b_1"] [] 0)
  /\ getScope (indexNotFoundEntry exExtraKeysBatch "b_1") = ScopeEnum.Index.
Proof.
  split; [reflexivity|].
  pose proof (verifier_index_not_found exValidateBSON exHasField exObjsize
                exRehydrateKey exKeyStringToBson exBsonToKeyString
                exRecordIdToString exDigest
                9223372036854775807 9223372036854775807 9223372036854775807
                exCatalog exOpCtx 5 exExtraKeysBatch [x01] [x04] exWorld
                exCollection exExtraKeysParameters
                eq_refl eq_refl eq_refl eq_refl) as H.
  cbv zeta in H. destruct H as [Hrun [_ [Hscope _]]].
  split; [exact Hrun|exact Hscope].
Defined.

(** X11 on the table of the examples: the key 3 of the record 12, which is
    the second of three entries with that key, is found. *)
Lemma present_key_not_reported_witness :
  strictlySorted exTable
  /\ In (exEntry x03 12) exTable
  /\ keyIsMissing exTable (mkKeyString [x03] (Some 12)) 12 = false.
Proof.
  assert (Hsorted : strictlySorted exTable).
  { cbn. repeat split; repeat constructor. }
  assert (Hin : In (exEntry x03 12) exTable).
  { cbn. tauto. }
  split; [exact Hsorted|]. split; [exact Hin|].
  apply (present_key_not_reported exTable (mkKeyString [x03] (Some 12)) 12
           (exEntry x03 12) Hsorted Hin eq_refl eq_refl).
  left. reflexivity.
Defined.

(** X12 on the multikey table: the key 3 of the document 20 is in no entry,
    and it is not reported, because the seek lands on the key 5 of the same
    document. *)
Lemma absent_key_masked_by_next_entry_witness :
  strictlySorted exMultikeyTable
  /\ keyIsMissing exMultikeyTable (mkKeyString [x03] (Some 20)) 20 = false
  /\ forall e',
       In e' exMultikeyTable -> keyString e' <> mkKeyString [x03] (Some 20).
Proof.
  assert (Hsorted : strictlySorted exMultikeyTable).
  { cbn. repeat split; repeat constructor. }
  assert (Hbefore : Forall (fun e' =>
                              compareKeyString (keyString e')
                                (mkKeyString [x03] (Some 20)) = Lt)
                      [exEntry x01 10]).
  { repeat constructor. }
  destruct (absent_key_masked_by_next_entry (mkKeyString [x03] (Some 20)) 20
              (exEntry x05 20) [exEntry x01 10] [] Hbefore eq_refl eq_refl)
    as [Hfound Habsent].
  split; [exact Hsorted|]. split; [exact Hfound|exact (Habsent Hsorted)].
Defined.

(** X13 on a hasher that holds a miss from before: the check of the
    document 15, whose key 7 is not in the index, leaves that one miss and
    logs one entry, where [validateMissingKeys] alone reports failure for a
    list that is not empty. *)
Lemma missing_keys_report_is_per_document_witness :
  _secondaryIndexCheckParameters exUsedHasher = Some exMissingKeysParameters
  /\ _missingIndexKeys exUsedHasher <> []
  /\ (let '(h1, w1) :=
        checkMissingKeys exRehydrateKey exKeyStringToBson exUsedHasher exWorld
          exCollection (exDoc x07) 15 [x07] in
      _missingIndexKeys h1
      = [missingKeyReport exRehydrateKey exKeyStringToBson exIndexDescriptor
           (mkKeyString [x07] (Some 15)) 15]
      /\ List.length (healthLog w1) = 1%nat)
  /\ isOK (fst (fst (validateMissingKeys exRehydrateKey exKeyStringToBson
                       (exDoc x01) 10 exUsedHasher exWorld))) = false.
Proof.
  assert (Hleft : _missingIndexKeys exUsedHasher <> []) by discriminate.
  pose proof (missing_keys_report_is_per_document exRehydrateKey
                exKeyStringToBson exUsedHasher exWorld exCollection (exDoc x07)
                15 [x07] exMissingKeysParameters eq_refl eq_refl) as H.
  pose proof (missing_keys_report_is_per_document exRehydrateKey
                exKeyStringToBson exUsedHasher exWorld exCollection (exDoc x01)
                10 [x01] exMissingKeysParameters eq_refl eq_refl) as H'.
  cbv zeta in H, H'.
  split; [reflexivity|]. split; [exact Hleft|]. split.
  - destruct (checkMissingKeys exRehydrateKey exKeyStringToBson exUsedHasher
                exWorld exCollection (exDoc x07) 15 [x07]) as [h1 w1].
    destruct H as [Hm [_ [Hsome _]]].
    split; [rewrite Hm; reflexivity|].
    assert (Hne : missingReports exRehydrateKey exKeyStringToBson (exDoc x07) 15
                    (_indexes exUsedHasher) <> []) by discriminate.
    destruct (Hsome Hne) as [e [Hlog _]]. rewrite Hlog. reflexivity.
  - destruct (checkMissingKeys exRehydrateKey exKeyStringToBson exUsedHasher
                exWorld exCollection (exDoc x01) 10 [x01]) as [h1 w1].
    destruct H' as [_ [_ [_ Hbad]]]. exact (Hbad Hleft).
Defined.

(** X16 on a catalog whose acquisition throws, from a recovery unit that
    enforces prepare conflicts and throws on corruption. *)
Lemma acquisition_failure_leaves_settings_witness :
  getPrepareConflictBehavior exRecoveryUnit = PrepareConflictBehavior.kEnforce
  /\ getDataCorruptionDetectionMode exRecoveryUnit
     = DataCorruptionDetectionMode.kThrow
  /\ (let '(outcome, ru', _) :=
        dbCheckBatchOnSecondaryInScope exValidateBSON exHasField exObjsize
          exRehydrateKey exKeyStringToBson exBsonToKeyString
          exRecordIdToString exDigest
          9223372036854775807 9223372036854775807 9223372036854775807
          exFailingCatalog exOpCtx 5 exBatch [x01] [x04] exRecoveryUnit
          exWorld in
      outcome = Returned Status_OK
      /\ getPrepareConflictBehavior ru'
         = PrepareConflictBehavior.kIgnoreConflictsAllowWrites
      /\ getDataCorruptionDetectionMode ru'
         = DataCorruptionDetectionMode.kLogAndContinue).
Proof.
  split; [reflexivity|]. split; [reflexivity|].
  pose proof (acquisition_failure_leaves_settings exValidateBSON exHasField
                exObjsize exRehydrateKey exKeyStringToBson exBsonToKeyString
                exRecordIdToString exDigest
                9223372036854775807 9223372036854775807 9223372036854775807
                exFailingCatalog exOpCtx 5 exBatch [x01] [x04] exRecoveryUnit
                exWorld
                (mkStatus ErrorCodes.SnapshotUnavailable "snapshot too old")
                eq_refl) as H.
  destruct (dbCheckBatchOnSecondaryInScope exValidateBSON exHasField exObjsize
              exRehydrateKey exKeyStringToBson exBsonToKeyString
              exRecordIdToString exDigest
              9223372036854775807 9223372036854775807 9223372036854775807
              exFailingCatalog exOpCtx 5 exBatch [x01] [x04] exRecoveryUnit
              exWorld) as [[outcome ru'] w'].
  destruct H as [Ho [_ [_ [Hb [Hm _]]]]].
  split; [exact Ho|]. split; [exact Hb|exact Hm].
Defined.

(** X18 on a batch without parameters over the collection of the
    examples. *)
Lemma key_not_found_return_is_dead_witness :
  getSecondaryIndexCheckParameters exBatch = None
  /\ (let '(_, w') :=
        dbCheckBatchOnSecondary exValidateBSON exHasField exObjsize
          exRehydrateKey exKeyStringToBson exBsonToKeyString
          exRecordIdToString exDigest
          9223372036854775807 9223372036854775807 9223372036854775807
          exCatalog exOpCtx 5 exBatch [x01] [x04] exUsedWorld in
      exists added,
        healthLog w' = healthLog exUsedWorld ++ added
        /\ Forall (fun e => getScope e <> ScopeEnum.Index) added
        /\ (batchesProcessed w' = 18
            \/ exists front e, added = front ++ [caughtEntry exBatch e])).
Proof.
  split; [reflexivity|].
  exact (key_not_found_return_is_dead exValidateBSON exHasField exObjsize
           exRehydrateKey exKeyStringToBson exBsonToKeyString
           exRecordIdToString exDigest
           9223372036854775807 9223372036854775807 9223372036854775807
           exCatalog exOpCtx 5 exBatch [x01] [x04] exUsedWorld exCollection
           eq_refl eq_refl).
Defined.

(** X19 on a batch entry applied during initial sync. *)
Lemma oplog_command_skips_batch_witness :
  exists e,
    dbCheckOplogCommand exValidateBSON exHasField exObjsize exRehydrateKey
      exKeyStringToBson exBsonToKeyString exRecordIdToString exDigest
      9223372036854775807 9223372036854775807 9223372036854775807 exBSON_id
      exCatalog exOpCtx exSettings (exOplogEntry OplogEntriesEnum.Batch)
      OplogApplication.kInitialSync exWorld
    = (Returned Status_OK, mkWorld [e] [mkLogLine 8888500 3] 0)
    /\ getSeverity e = SeverityEnum.Warning
    /\ getMsg e = "cannot execute dbcheck due to ongoing initial sync"%string
    /\ exists more,
         getData e
         = Some (BObject
                   ([("batchStart"%string, BSubObj (exDoc x01));
                     ("batchEnd"%string, BSubObj (exDoc x04))] ++ more)).
Proof.
  assert (Hmode : OplogApplication.kInitialSync <> OplogApplication.kSecondary
                  \/ skipApplyingDbCheckBatchOnSecondary exSettings = true).
  { left. discriminate. }
  destruct (oplog_command_skips_batch exValidateBSON exHasField exObjsize
              exRehydrateKey exKeyStringToBson exBsonToKeyString
              exRecordIdToString exDigest
              9223372036854775807 9223372036854775807 9223372036854775807
              exBSON_id exCatalog exOpCtx exSettings
              (exOplogEntry OplogEntriesEnum.Batch)
              OplogApplication.kInitialSync exWorld exBatch exRange
              eq_refl eq_refl Hmode)
    as [e [Hrun [Hsev [_ [_ [_ [Hmsg Hdata]]]]]]].
  exists e. split; [exact Hrun|]. split; [exact Hsev|].
  split; [exact Hmsg|exact Hdata].
Defined.

(** X20 on a batch entry applied on a secondary: the legacy start key 1 is
    passed to the verifier as the document with that _id. *)
Lemma oplog_command_applies_batch_witness :
  dbCheckOplogCommand exValidateBSON exHasField exObjsize exRehydrateKey
    exKeyStringToBson exBsonToKeyString exRecordIdToString exDigest
    9223372036854775807 9223372036854775807 9223372036854775807 exBSON_id
    exCatalog exOpCtx exSettings (exOplogEntry OplogEntriesEnum.Batch)
    OplogApplication.kSecondary exWorld
  = dbCheckBatchOnSecondary exValidateBSON exHasField exObjsize exRehydrateKey
      exKeyStringToBson exBsonToKeyString exRecordIdToString exDigest
      9223372036854775807 9223372036854775807 9223372036854775807
      exCatalog exOpCtx 5 exBatch (exDoc x01) (exDoc x04) exWorld.
Proof.
  exact (proj1 (oplog_command_applies_batch exValidateBSON exHasField exObjsize
                  exRehydrateKey exKeyStringToBson exBsonToKeyString
                  exRecordIdToString exDigest
                  9223372036854775807 9223372036854775807 9223372036854775807
                  exBSON_id exCatalog exOpCtx exSettings
                  (exOplogEntry OplogEntriesEnum.Batch) exWorld exBatch exRange
                  eq_refl eq_refl eq_refl)).
Defined.

(** X21 on a start entry applied on a secondary. *)
Lemma oplog_command_start_stop_witness :
  exists e,
    dbCheckOplogCommand exValidateBSON exHasField exObjsize exRehydrateKey
      exKeyStringToBson exBsonToKeyString exRecordIdToString exDigest
      9223372036854775807 9223372036854775807 9223372036854775807 exBSON_id
      exCatalog exOpCtx exSettings (exOplogEntry OplogEntriesEnum.Start)
      OplogApplication.kSecondary exWorld
    = (Returned Status_OK, mkWorld [e] [] 0)
    /\ getOperation e = "dbCheckStart"%string
    /\ getSeverity e = SeverityEnum.Info
    /\ getMsg e = EmptyString.
Proof.
  destruct (oplog_command_start_stop exValidateBSON exHasField exObjsize
              exRehydrateKey exKeyStringToBson exBsonToKeyString
              exRecordIdToString exDigest
              9223372036854775807 9223372036854775807 9223372036854775807
              exBSON_id exCatalog exOpCtx exSettings
              (exOplogEntry OplogEntriesEnum.Start)
              OplogApplication.kSecondary exWorld OplogEntriesEnum.Start
              exStartStop eq_refl (or_introl eq_refl) eq_refl)
    as [e [Hrun [Hop [_ [_ [_ [Hsec _]]]]]]].
  destruct (Hsec eq_refl) as [Hsev Hmsg].
  exists e. split; [exact Hrun|]. split; [exact Hop|].
  split; [exact Hsev|exact Hmsg].
Defined.

(** X24 on the table of the examples, from the key 1 to the key 4: all five
    keys are hashed. *)
Lemma index_scan_covers_range_witness :
  strictlySorted (sortedData exIndex)
  /\ exists h' w',
       hashForExtraIndexKeysCheck exKeyStringToBson exBsonToKeyString exOpCtx
         exIndex [x01] [x04] exIndexHasher exWorld
       = (Returned Status_OK, h', w')
       /\ _state h' = [x01; x03; x03; x03; x04]
       /\ keysSeen h' = 5.
Proof.
  assert (Hsorted : strictlySorted (sortedData exIndex)).
  { cbn. repeat split; repeat constructor. }
  assert (Hok : forall j, isOK (checkForInterruptNoAssert exOpCtx j) = true).
  { intro j. reflexivity. }
  assert (Hbelow :
            Z.of_nat
              (countEqual (exBsonToKeyString [x04])
                 (filter (inBounds (exBsonToKeyString [x01])
                            (exBsonToKeyString [x04])) (sortedData exIndex)))
            < dbCheckMaxConsecutiveIdenticalIndexKeysPerSnapshot exOpCtx).
  { vm_compute. reflexivity. }
  destruct (index_scan_covers_range exKeyStringToBson exBsonToKeyString exOpCtx
              exIndex [x01] [x04] exIndexHasher exWorld Hsorted Hok Hbelow)
    as [h' [w' [Hrun [Hst [Hk _]]]]].
  split; [exact Hsorted|].
  exists h', w'. split; [exact Hrun|]. split; [exact Hst|exact Hk].
Defined.

(** X25 on the documents 10 and 14 of the examples, whose keys 1 and 4 are
    in the index: the missing-index-keys scan leaves the health log as it
    was. *)
Lemma clean_scan_logs_nothing_witness :
  let h :=
    exHasher (Some exMissingKeysParameters) 10 1000
      [Advanced [x01] 10; Advanced [x04] 14] in
  keyIsMissing exTable (mkKeyString [x01] (Some 10)) 10 = false
  /\ keyIsMissing exTable (mkKeyString [x04] (Some 14)) 14 = false
  /\ (let '(outcome, h', w') :=
        hashForCollectionCheck exValidateBSON exHasField exObjsize
          exRehydrateKey exKeyStringToBson exRecordIdToString exOpCtx
          exCollection 1000 h exUsedWorld in
      healthLog w' = healthLog exUsedWorld).
Proof.
  cbv zeta. split; [reflexivity|]. split; [reflexivity|].
  apply (clean_scan_logs_nothing exValidateBSON exHasField exObjsize
           exRehydrateKey exKeyStringToBson exRecordIdToString exOpCtx
           exCollection 1000
           (exHasher (Some exMissingKeysParameters) 10 1000
              [Advanced [x01] 10; Advanced [x04] 14]) exUsedWorld).
  intros objId rid Hin. cbn in Hin.
  destruct Hin as [Hin|[Hin|[]]]; inversion Hin; subst objId rid.
  - exists (exDoc x01). split; [reflexivity|].
    intros p Hp _. inversion Hp. subst p. split; [reflexivity|].
    intros entry key Hentry _ Hmethod Hkey. cbn in Hentry.
    destruct Hentry as [Hentry|[Hentry|[]]]; subst entry.
    + cbn in Hkey. destruct Hkey as [Hkey|[]]. subst key.
      exists (exEntry x01 10). split; reflexivity.
    + cbn in Hmethod. destruct Hmethod; discriminate.
  - exists (exDoc x04). split; [reflexivity|].
    intros p Hp _. inversion Hp. subst p. split; [reflexivity|].
    intros entry key Hentry _ Hmethod Hkey. cbn in Hentry.
    destruct Hentry as [Hentry|[Hentry|[]]]; subst entry.
    + cbn in Hkey. destruct Hkey as [Hkey|[]]. subst key.
      exists (exEntry x04 14). split; reflexivity.
    + cbn in Hmethod. destruct Hmethod; discriminate.
Defined.
